(** * Riverside real-time room coordinator: the socket server of
      [backend/src/socket/index.ts], embedded as executable definitions.

    The presence registry is the module-level
    [roomParticipants : Map<string, Map<string, RoomParticipant>>].
    A JavaScript [Map] keeps its entries in insertion order and the code
    observes that order ([Array.from(values())], [forEach]), so it is
    modelled as an insertion-ordered association list.  Handlers run in a
    small state-and-exception monad that also collects what they emit.

    Each handler is taken as one transition: its registry accesses sit in
    one synchronous stretch after the last store read it depends on.  Store
    calls are modelled by what they do to the data (a [findUnique] returns
    the row or null, an [update] of a missing row and a [create] against a
    unique index throw); losing the connection to the store is not
    modelled.  socket.io rooms are the sets [socket.join] and [socket.leave]
    maintain; [socket.to(room)] reaches a room without the sender and
    [io.to(room)] the whole room. *)

From Stdlib Require Import Ascii String List Bool ZArith NArith Lia Permutation.
Import ListNotations.
Open Scope string_scope.
Open Scope list_scope.

(* ================================================================== *)
(** ** JavaScript [Map] with string keys *)

Module JSMap.

Definition t (V : Type) : Type := list (string * V).

Definition empty {V : Type} : t V := [].

Fixpoint get {V : Type} (k : string) (m : t V) : option V :=
  match m with
  | [] => None
  | (k', v) :: m' => if String.eqb k' k then Some v else get k m'
  end.

Definition has {V : Type} (k : string) (m : t V) : bool :=
  match get k m with Some _ => true | None => false end.

(** [set] on a present key replaces the value where it stands; a new key
    goes to the end. *)
Fixpoint set {V : Type} (k : string) (v : V) (m : t V) : t V :=
  match m with
  | [] => [(k, v)]
  | (k', v') :: m' =>
      if String.eqb k' k then (k', v) :: m' else (k', v') :: set k v m'
  end.

Definition delete {V : Type} (k : string) (m : t V) : t V :=
  filter (fun e => negb (String.eqb (fst e) k)) m.

Definition size {V : Type} (m : t V) : nat := length m.

Definition keys {V : Type} (m : t V) : list string := map fst m.

Definition values {V : Type} (m : t V) : list V := map snd m.

(** In-place mutation of the object stored under [k]
    ([m.get(k)!.field = x], or a method call on [m.get(k)!]). *)
Fixpoint adjust {V : Type} (f : V -> V) (k : string) (m : t V) : t V :=
  match m with
  | [] => []
  | (k', v) :: m' =>
      if String.eqb k' k then (k', f v) :: m' else (k', v) :: adjust f k m'
  end.

(** Keys of a [Map] are pairwise distinct. *)
Definition wf {V : Type} (m : t V) : Prop := NoDup (keys m).

End JSMap.

(* ================================================================== *)
(** ** Data model *)

Inductive Role : Type := HOST | GUEST.

Record RoomParticipant : Type := mkRoomParticipant {
  odId : string;
  odName : string;
  odIsMuted : bool;
  odIsVideoOff : bool;
  odRole : Role
}.

Definition Registry : Type := JSMap.t (JSMap.t RoomParticipant).

(** A JavaScript string as its UTF-16 code units; used for chat text, the
    only string whose characters the server inspects. *)
Definition jsstring : Type := list N.

(** An [AuthenticatedSocket]: [rooms] holds the rooms the connection is in
    through [socket.join]; the room socket.io names after the connection's
    own id is not part of the model. *)
Module Socket.
Record t : Type := mk {
  id : string;
  userId : string;
  userName : string;
  rooms : list string
}.
End Socket.

(** *** The persisted store (Prisma models read or written by the socket
    server). *)

Module User.
Record t : Type := mk { id : string; name : string }.
End User.

Module Room.
Record t : Type := mk {
  id : string;
  title : string;
  code : string;
  isActive : bool;
  hostId : string;
  videoEnabled : bool;
  audioOnly : bool;
  maxParticipants : Z;
  waitingRoom : bool
}.
End Room.

Module Participant.
Record t : Type := mk {
  role : Role;
  joinedAt : Z;
  leftAt : option Z;
  userId : string;
  roomId : string
}.
End Participant.

Inductive WaitingRoomStatus : Type := PENDING | APPROVED | REJECTED.

Module WaitingRoom.
Record t : Type := mk {
  status : WaitingRoomStatus;
  userId : string;
  roomId : string
}.
End WaitingRoom.

Record DB : Type := mkDB {
  db_user : list User.t;
  db_room : list Room.t;
  db_participant : list Participant.t;
  db_waitingRoom : list WaitingRoom.t
}.

(** *** Events *)

Module ChatMessage.
Record t : Type := mk {
  id : Z * string;          (* msg-<Date.now()>-<random suffix> *)
  userId : string;
  userName : string;
  message : jsstring;
  timestamp : Z
}.
End ChatMessage.

Record RoomSettings : Type := mkRoomSettings {
  s_videoEnabled : bool;
  s_audioOnly : bool;
  s_maxParticipants : Z
}.

(** Server-to-client events with their payloads. *)
Inductive ServerEvent : Type :=
| EvError (message : string)
| EvRoomJoined (roomId roomCode roomTitle : string)
    (participants : list RoomParticipant) (settings : RoomSettings)
| EvParticipantJoined (odId odName : string) (odRole : Role)
| EvParticipantLeft (userId userName : string)
| EvChatMessage (msg : ChatMessage.t)
| EvParticipantAudioChanged (odId : string) (odIsMuted : bool)
| EvParticipantVideoChanged (odId : string) (odIsVideoOff : bool)
| EvParticipantMutedByHost (odId mutedBy : string)
| EvParticipantRemovedByHost (odId removedBy : string)
| EvYouWereRemoved (roomId removedBy : string)
| EvWaitingRoomApproved (userId : string).

(** Client-to-server events. *)
Inductive ClientEvent : Type :=
| JoinRoom (roomId : string)
| LeaveRoom (roomId : string)
| SendChatMessage (roomId : string) (message : jsstring)
| ToggleAudio (roomId : string) (isMuted : bool)
| ToggleVideo (roomId : string) (isVideoOff : bool)
| HostMuteParticipant (roomId targetUserId : string)
| HostRemoveParticipant (roomId targetUserId : string)
| ApproveWaitingParticipant (roomId userId : string).

(** Where an emit goes: [socket.emit], [socket.to(room).emit],
    [io.to(room).emit]. *)
Inductive Target : Type :=
| ToSocket (sid : string)
| ToRoomExcept (roomId sid : string)
| ToRoom (roomId : string).

(** One emit, with the connections it reached when it was made. *)
Record Emission : Type := mkEmission {
  em_target : Target;
  em_event : ServerEvent;
  em_recipients : list string
}.

(** What a handler reads from the clock and the random generator. *)
Record Env : Type := mkEnv {
  date_now : Z;
  math_random : string;
  new_date : Z
}.

Record ServerState : Type := mkState {
  roomParticipants : Registry;
  sockets : list Socket.t;
  prisma : DB
}.

Definition initial (db : DB) : ServerState :=
  {| roomParticipants := JSMap.empty; sockets := []; prisma := db |}.

(* ================================================================== *)
(** ** [String.prototype.trim] *)

(** ECMAScript WhiteSpace and LineTerminator code points. *)
Definition is_whitespace (c : N) : bool :=
  ((9 <=? c) && (c <=? 13) || (c =? 32) || (c =? 160) || (c =? 5760)
   || (8192 <=? c) && (c <=? 8202) || (c =? 8232) || (c =? 8233)
   || (c =? 8239) || (c =? 8287) || (c =? 12288) || (c =? 65279))%N.

Fixpoint trim_start (s : jsstring) : jsstring :=
  match s with
  | [] => []
  | c :: s' => if is_whitespace c then trim_start s' else s
  end.

Definition trim (s : jsstring) : jsstring :=
  rev (trim_start (rev (trim_start s))).

(** [!message]: the empty string is the only falsy string. *)
Definition is_empty (s : jsstring) : bool :=
  match s with [] => true | _ :: _ => false end.

(* ================================================================== *)
(** ** The handler monad: state, a thrown exception, collected emits *)

Inductive Completion (A : Type) : Type :=
| Normal (a : A)
| Thrown.
Arguments Normal {A} a.
Arguments Thrown {A}.

Definition Handler (A : Type) : Type :=
  ServerState -> Completion A * ServerState * list Emission.

Definition ret {A : Type} (a : A) : Handler A :=
  fun st => (Normal a, st, []).

Definition bind {A B : Type} (m : Handler A) (f : A -> Handler B) : Handler B :=
  fun st =>
    match m st with
    | (Normal a, st1, out1) =>
        match f a st1 with
        | (r, st2, out2) => (r, st2, out1 ++ out2)
        end
    | (Thrown, st1, out1) => (Thrown, st1, out1)
    end.

Definition throw {A : Type} : Handler A :=
  fun st => (Thrown, st, []).

(** [try { body } catch (error) { handler }]: what [body] did before it
    threw stays done. *)
Definition try_catch (body handler : Handler unit) : Handler unit :=
  fun st =>
    match body st with
    | (Normal _, st1, out1) => (Normal tt, st1, out1)
    | (Thrown, st1, out1) =>
        match handler st1 with
        | (r, st2, out2) => (r, st2, out1 ++ out2)
        end
    end.

Definition gets {A : Type} (f : ServerState -> A) : Handler A :=
  fun st => (Normal (f st), st, []).

Definition modify (f : ServerState -> ServerState) : Handler unit :=
  fun st => (Normal tt, f st, []).

Declare Scope handler_scope.
Delimit Scope handler_scope with handler.
Notation "x <- m ;; k" := (bind m (fun x => k))
  (at level 61, m at next level, right associativity) : handler_scope.
Notation "m ;; k" := (bind m (fun _ => k))
  (at level 61, right associativity) : handler_scope.
Open Scope handler_scope.

Definition set_registry (r : Registry) (st : ServerState) : ServerState :=
  {| roomParticipants := r; sockets := sockets st; prisma := prisma st |}.

Definition set_sockets (s : list Socket.t) (st : ServerState) : ServerState :=
  {| roomParticipants := roomParticipants st; sockets := s; prisma := prisma st |}.

Definition set_prisma (d : DB) (st : ServerState) : ServerState :=
  {| roomParticipants := roomParticipants st; sockets := sockets st; prisma := d |}.

Definition modify_registry (f : Registry -> Registry) : Handler unit :=
  modify (fun st => set_registry (f (roomParticipants st)) st).

Fixpoint for_each {A : Type} (l : list A) (f : A -> Handler unit) : Handler unit :=
  match l with
  | [] => ret tt
  | a :: l' => f a ;; for_each l' f
  end.

(* ================================================================== *)
(** ** The persisted store, as the socket server uses it *)

(** [prisma.user.findUnique({ where: { id } })] *)
Definition user_findUnique (id : string) (db : DB) : option User.t :=
  find (fun u => String.eqb (User.id u) id) (db_user db).

(** [prisma.room.findUnique({ where: { id } })] *)
Definition room_findUnique (id : string) (db : DB) : option Room.t :=
  find (fun r => String.eqb (Room.id r) id) (db_room db).

Definition is_null {A : Type} (o : option A) : bool :=
  match o with None => true | Some _ => false end.

(** The participant rows selected by
    [where: { roomId, userId, leftAt: null }]. *)
Definition active_record (roomId userId : string) (p : Participant.t) : bool :=
  String.eqb (Participant.roomId p) roomId
  && String.eqb (Participant.userId p) userId
  && is_null (Participant.leftAt p).

(** [include: { participants: { where: { userId, leftAt: null } } }] on the
    room [roomId]. *)
Definition room_participants (roomId userId : string) (db : DB)
  : list Participant.t :=
  filter (active_record roomId userId) (db_participant db).

Definition set_participants (ps : list Participant.t) (db : DB) : DB :=
  {| db_user := db_user db; db_room := db_room db;
     db_participant := ps; db_waitingRoom := db_waitingRoom db |}.

Definition set_waitingRooms (ws : list WaitingRoom.t) (db : DB) : DB :=
  {| db_user := db_user db; db_room := db_room db;
     db_participant := db_participant db; db_waitingRoom := ws |}.

Definition set_leftAt (now : Z) (p : Participant.t) : Participant.t :=
  {| Participant.role := Participant.role p;
     Participant.joinedAt := Participant.joinedAt p;
     Participant.leftAt := Some now;
     Participant.userId := Participant.userId p;
     Participant.roomId := Participant.roomId p |}.

(** [prisma.participant.updateMany({ where: { roomId, userId, leftAt: null },
    data: { leftAt: new Date() } })]: succeeds whatever it matches. *)
Definition participant_updateMany (roomId userId : string) (now : Z) (db : DB)
  : DB :=
  set_participants
    (map (fun p => if active_record roomId userId p then set_leftAt now p else p)
       (db_participant db))
    db.

Definition same_key_w (userId roomId : string) (w : WaitingRoom.t) : bool :=
  String.eqb (WaitingRoom.userId w) userId
  && String.eqb (WaitingRoom.roomId w) roomId.

Definition set_status (s : WaitingRoomStatus) (w : WaitingRoom.t)
  : WaitingRoom.t :=
  {| WaitingRoom.status := s;
     WaitingRoom.userId := WaitingRoom.userId w;
     WaitingRoom.roomId := WaitingRoom.roomId w |}.

(** [prisma.waitingRoom.update({ where: { userId_roomId }, data: { status } })]:
    fails when the row does not exist. *)
Definition waitingRoom_update (userId roomId : string) (s : WaitingRoomStatus)
  (db : DB) : option DB :=
  if existsb (same_key_w userId roomId) (db_waitingRoom db)
  then Some (set_waitingRooms
               (map (fun w => if same_key_w userId roomId w then set_status s w else w)
                  (db_waitingRoom db))
               db)
  else None.

Definition same_key_p (userId roomId : string) (p : Participant.t) : bool :=
  String.eqb (Participant.userId p) userId
  && String.eqb (Participant.roomId p) roomId.

(** [prisma.participant.create({ data: { userId, roomId, role } })]: fails on
    the unique index [Participant_userId_roomId_key]; [joinedAt] is the
    column default and [leftAt] is null. *)
Definition participant_create (userId roomId : string) (role : Role) (now : Z)
  (db : DB) : option DB :=
  if existsb (same_key_p userId roomId) (db_participant db)
  then None
  else Some (set_participants
               (db_participant db ++
                [ {| Participant.role := role; Participant.joinedAt := now;
                     Participant.leftAt := None;
                     Participant.userId := userId;
                     Participant.roomId := roomId |} ])
               db).

Definition prisma_read {A : Type} (q : DB -> A) : Handler A :=
  gets (fun st => q (prisma st)).

(** A write that throws when the store refuses it. *)
Definition prisma_write (w : DB -> option DB) : Handler unit :=
  fun st =>
    match w (prisma st) with
    | Some db' => (Normal tt, set_prisma db' st, [])
    | None => (Thrown, st, [])
    end.

(* ================================================================== *)
(** ** socket.io rooms and emits *)

Definition in_room (roomId : string) (s : Socket.t) : bool :=
  existsb (String.eqb roomId) (Socket.rooms s).

Definition is_socket (sid : string) (s : Socket.t) : bool :=
  String.eqb (Socket.id s) sid.

Definition find_socket (sid : string) (socks : list Socket.t) : option Socket.t :=
  find (is_socket sid) socks.

Definition set_rooms (rs : list string) (s : Socket.t) : Socket.t :=
  {| Socket.id := Socket.id s; Socket.userId := Socket.userId s;
     Socket.userName := Socket.userName s; Socket.rooms := rs |}.

Definition add_room (roomId : string) (s : Socket.t) : Socket.t :=
  if in_room roomId s then s else set_rooms (Socket.rooms s ++ [roomId]) s.

Definition remove_room (roomId : string) (s : Socket.t) : Socket.t :=
  set_rooms (filter (fun r => negb (String.eqb roomId r)) (Socket.rooms s)) s.

(** The connections an emit reaches. *)
Definition recipients (socks : list Socket.t) (t : Target) : list string :=
  match t with
  | ToSocket sid => [sid]
  | ToRoomExcept roomId sid =>
      map Socket.id
        (filter (fun s => in_room roomId s && negb (is_socket sid s)) socks)
  | ToRoom roomId => map Socket.id (filter (in_room roomId) socks)
  end.

Definition emit (t : Target) (ev : ServerEvent) : Handler unit :=
  fun st => (Normal tt, st, [mkEmission t ev (recipients (sockets st) t)]).

(** [socket.join(roomId)] *)
Definition socket_join (sid roomId : string) : Handler unit :=
  modify (fun st =>
    set_sockets
      (map (fun s => if is_socket sid s then add_room roomId s else s)
         (sockets st))
      st).

(** [socket.leave(roomId)] *)
Definition socket_leave (sid roomId : string) : Handler unit :=
  modify (fun st =>
    set_sockets
      (map (fun s => if is_socket sid s then remove_room roomId s else s)
         (sockets st))
      st).

(* ================================================================== *)
(** ** Registry accesses *)

(** [roomParticipants.get(roomId)!]: using an absent room's map throws. *)
Definition room_map (roomId : string) : Handler (JSMap.t RoomParticipant) :=
  fun st =>
    match JSMap.get roomId (roomParticipants st) with
    | Some m => (Normal m, st, [])
    | None => (Thrown, st, [])
    end.

(** [roomParticipants.has(roomId) && roomParticipants.get(roomId)!.has(userId)] *)
Definition present (roomId userId : string) (reg : Registry) : bool :=
  JSMap.has roomId reg
  && match JSMap.get roomId reg with
     | Some m => JSMap.has userId m
     | None => false
     end.

Definition set_odIsMuted (b : bool) (p : RoomParticipant) : RoomParticipant :=
  {| odId := odId p; odName := odName p; odIsMuted := b;
     odIsVideoOff := odIsVideoOff p; odRole := odRole p |}.

Definition set_odIsVideoOff (b : bool) (p : RoomParticipant) : RoomParticipant :=
  {| odId := odId p; odName := odName p; odIsMuted := odIsMuted p;
     odIsVideoOff := b; odRole := odRole p |}.

(** Mutation of the entry object of (room, user), reached through both maps. *)
Definition update_entry (roomId userId : string)
  (f : RoomParticipant -> RoomParticipant) : Handler unit :=
  modify_registry (JSMap.adjust (JSMap.adjust f userId) roomId).

(** [!room || room.hostId !== socket.userId], negated. *)
Definition is_host (room : option Room.t) (userId : string) : bool :=
  match room with
  | Some r => String.eqb (Room.hostId r) userId
  | None => false
  end.

(* ================================================================== *)
(** ** The event handlers of [io.on("connection", ...)] *)

Section Handlers.

(** The connection the handlers are registered on; its [userId] and
    [userName] were fixed by the authentication middleware. *)
Variable socket : Socket.t.

Let sid : string := Socket.id socket.
Let userId : string := Socket.userId socket.
Let userName : string := Socket.userName socket.

Definition socket_error (message : string) : Handler unit :=
  emit (ToSocket sid) (EvError message).

(** [socket.on("join-room", ...)] *)
Definition on_join_room (roomId : string) : Handler unit :=
  try_catch
    (room <- prisma_read (room_findUnique roomId) ;;
     match room with
     | None => socket_error "Room not found"
     | Some room =>
         participants <- prisma_read (room_participants roomId userId) ;;
         if negb (Room.isActive room) then socket_error "Room is not active"
         else
           match participants with
           | [] => socket_error "You are not a participant in this room"
           | participant :: _ =>
               socket_join sid roomId ;;
               has <- gets (fun st => JSMap.has roomId (roomParticipants st)) ;;
               (if negb has
                then modify_registry (JSMap.set roomId JSMap.empty)
                else ret tt) ;;
               let participantData :=
                 {| odId := userId;
                    odName := userName;
                    odIsMuted := false;
                    odIsVideoOff := negb (Room.videoEnabled room);
                    odRole := Participant.role participant |} in
               room_map roomId ;;
               modify_registry
                 (JSMap.adjust (JSMap.set userId participantData) roomId) ;;
               current <- room_map roomId ;;
               emit (ToSocket sid)
                 (EvRoomJoined roomId (Room.code room) (Room.title room)
                    (JSMap.values current)
                    {| s_videoEnabled := Room.videoEnabled room;
                       s_audioOnly := Room.audioOnly room;
                       s_maxParticipants := Room.maxParticipants room |}) ;;
               emit (ToRoomExcept roomId sid)
                 (EvParticipantJoined userId userName
                    (Participant.role participant))
           end
     end)
    (socket_error "Failed to join room").

(** [socket.on("leave-room", ...)] *)
Definition on_leave_room (roomId : string) : Handler unit :=
  try_catch
    (socket_leave sid roomId ;;
     has <- gets (fun st => JSMap.has roomId (roomParticipants st)) ;;
     (if has
      then
        room_map roomId ;;
        modify_registry (JSMap.adjust (JSMap.delete userId) roomId) ;;
        m <- room_map roomId ;;
        if Nat.eqb (JSMap.size m) 0
        then modify_registry (JSMap.delete roomId)
        else ret tt
      else ret tt) ;;
     emit (ToRoomExcept roomId sid) (EvParticipantLeft userId userName))
    (socket_error "Failed to leave room").

(** [socket.on("chat-message", ...)] *)
Definition on_chat_message (env : Env) (roomId : string) (message : jsstring)
  : Handler unit :=
  try_catch
    (if is_empty message || Nat.eqb (length (trim message)) 0
     then ret tt
     else
       inRoom <- gets (fun st => present roomId userId (roomParticipants st)) ;;
       if negb inRoom then socket_error "You are not in this room"
       else
         let chatMessage :=
           {| ChatMessage.id := (date_now env, math_random env);
              ChatMessage.userId := userId;
              ChatMessage.userName := userName;
              ChatMessage.message := trim message;
              ChatMessage.timestamp := new_date env |} in
         emit (ToRoom roomId) (EvChatMessage chatMessage))
    (socket_error "Failed to send message").

(** [socket.on("toggle-audio", ...)] *)
Definition on_toggle_audio (roomId : string) (isMuted : bool) : Handler unit :=
  inRoom <- gets (fun st => present roomId userId (roomParticipants st)) ;;
  if inRoom
  then
    update_entry roomId userId (set_odIsMuted isMuted) ;;
    emit (ToRoomExcept roomId sid) (EvParticipantAudioChanged userId isMuted)
  else ret tt.

(** [socket.on("toggle-video", ...)] *)
Definition on_toggle_video (roomId : string) (isVideoOff : bool)
  : Handler unit :=
  inRoom <- gets (fun st => present roomId userId (roomParticipants st)) ;;
  if inRoom
  then
    update_entry roomId userId (set_odIsVideoOff isVideoOff) ;;
    emit (ToRoomExcept roomId sid)
      (EvParticipantVideoChanged userId isVideoOff)
  else ret tt.

(** [socket.on("host-mute-participant", ...)] *)
Definition on_host_mute_participant (roomId targetUserId : string)
  : Handler unit :=
  try_catch
    (room <- prisma_read (room_findUnique roomId) ;;
     if negb (is_host room userId)
     then socket_error "Only the host can mute participants"
     else
       inRoom <- gets (fun st =>
                         present roomId targetUserId (roomParticipants st)) ;;
       (if inRoom
        then update_entry roomId targetUserId (set_odIsMuted true)
        else ret tt) ;;
       emit (ToRoom roomId) (EvParticipantMutedByHost targetUserId userName))
    (socket_error "Failed to mute participant").

(** [socket.on("host-remove-participant", ...)].  [fetched] lists the
    connections of the room in the order they connected; the order in which
    [fetchSockets] yields them is socket.io's, so statements about the
    you-were-removed events speak of them up to their order. *)
Definition on_host_remove_participant (env : Env) (roomId targetUserId : string)
  : Handler unit :=
  try_catch
    (room <- prisma_read (room_findUnique roomId) ;;
     if negb (is_host room userId)
     then socket_error "Only the host can remove participants"
     else if String.eqb targetUserId userId
     then socket_error "Host cannot remove themselves"
     else
       modify (fun st =>
         set_prisma
           (participant_updateMany roomId targetUserId (new_date env)
              (prisma st))
           st) ;;
       has <- gets (fun st => JSMap.has roomId (roomParticipants st)) ;;
       (if has
        then modify_registry (JSMap.adjust (JSMap.delete targetUserId) roomId)
        else ret tt) ;;
       emit (ToRoom roomId)
         (EvParticipantRemovedByHost targetUserId userName) ;;
       fetched <- gets (fun st => filter (in_room roomId) (sockets st)) ;;
       for_each fetched (fun s =>
         if String.eqb (Socket.userId s) targetUserId
         then
           socket_leave (Socket.id s) roomId ;;
           emit (ToSocket (Socket.id s)) (EvYouWereRemoved roomId userName)
         else ret tt))
    (socket_error "Failed to remove participant").

(** [socket.on("approve-waiting-participant", ...)] *)
Definition on_approve_waiting_participant (env : Env)
  (roomId approvedId : string) : Handler unit :=
  try_catch
    (room <- prisma_read (room_findUnique roomId) ;;
     if negb (is_host room userId)
     then socket_error "Only the host can approve participants"
     else
       prisma_write (waitingRoom_update approvedId roomId APPROVED) ;;
       prisma_write
         (participant_create approvedId roomId GUEST (new_date env)) ;;
       emit (ToRoom roomId) (EvWaitingRoomApproved approvedId))
    (socket_error "Failed to approve participant").

(** One step of [roomParticipants.forEach((participants, roomId) => ...)]
    in the disconnect handler; [participants] is the map object the entry
    holds, mutated where it stands. *)
Definition disconnect_room (entry : string * JSMap.t RoomParticipant)
  : Handler unit :=
  let '(roomId, participants) := entry in
  if JSMap.has userId participants
  then
    modify_registry (JSMap.adjust (JSMap.delete userId) roomId) ;;
    emit (ToRoomExcept roomId sid) (EvParticipantLeft userId userName) ;;
    if Nat.eqb (JSMap.size (JSMap.delete userId participants)) 0
    then modify_registry (JSMap.delete roomId)
    else ret tt
  else ret tt.

(** [socket.on("disconnect", ...)] *)
Definition on_disconnect : Handler unit :=
  entries <- gets roomParticipants ;;
  for_each entries disconnect_room.

Definition dispatch (env : Env) (ev : ClientEvent) : Handler unit :=
  match ev with
  | JoinRoom roomId => on_join_room roomId
  | LeaveRoom roomId => on_leave_room roomId
  | SendChatMessage roomId message => on_chat_message env roomId message
  | ToggleAudio roomId isMuted => on_toggle_audio roomId isMuted
  | ToggleVideo roomId isVideoOff => on_toggle_video roomId isVideoOff
  | HostMuteParticipant roomId target =>
      on_host_mute_participant roomId target
  | HostRemoveParticipant roomId target =>
      on_host_remove_participant env roomId target
  | ApproveWaitingParticipant roomId approvedId =>
      on_approve_waiting_participant env roomId approvedId
  end.

End Handlers.

(* ================================================================== *)
(** ** The server as a transition system *)

(** What happens to the server: a connection passes the authentication
    middleware, a connected client sends an event, a connection closes, or
    the REST side rewrites the store. *)
Inductive Input : Type :=
| Connect (sid userId : string)
| Receive (sid : string) (env : Env) (ev : ClientEvent)
| Disconnect (sid : string)
| StoreChange (db : DB).

(** [socket.userName = user?.name || "Anonymous"] *)
Definition resolve_name (userId : string) (db : DB) : string :=
  match user_findUnique userId db with
  | Some u => if String.eqb (User.name u) "" then "Anonymous" else User.name u
  | None => "Anonymous"
  end.

Definition run_handler (h : Handler unit) (st : ServerState)
  : ServerState * list Emission :=
  match h st with
  | (_, st', out) => (st', out)
  end.

Definition step (st : ServerState) (i : Input) : ServerState * list Emission :=
  match i with
  | Connect sid userId =>
      match find_socket sid (sockets st) with
      | Some _ => (st, [])
      | None =>
          (set_sockets
             (sockets st ++
              [ {| Socket.id := sid; Socket.userId := userId;
                   Socket.userName := resolve_name userId (prisma st);
                   Socket.rooms := [] |} ])
             st, [])
      end
  | Receive sid env ev =>
      match find_socket sid (sockets st) with
      | Some socket => run_handler (dispatch socket env ev) st
      | None => (st, [])
      end
  | Disconnect sid =>
      match find_socket sid (sockets st) with
      | Some socket =>
          run_handler (on_disconnect socket)
            (set_sockets
               (filter (fun s => negb (is_socket sid s)) (sockets st)) st)
      | None => (st, [])
      end
  | StoreChange db => (set_prisma db st, [])
  end.

Fixpoint run (st : ServerState) (inputs : list Input) : ServerState :=
  match inputs with
  | [] => st
  | i :: inputs' => run (fst (step st i)) inputs'
  end.

Inductive reachable : ServerState -> Prop :=
| reachable_initial : forall db, reachable (initial db)
| reachable_step : forall st i, reachable st -> reachable (fst (step st i)).

(** Every room's map and the registry itself have distinct keys, and an
    entry is stored under its own user id. *)
Definition entry_keyed (m : JSMap.t RoomParticipant) : Prop :=
  forall k p, In (k, p) m -> odId p = k.

Definition wf_registry (reg : Registry) : Prop :=
  JSMap.wf reg
  /\ forall r m, In (r, m) reg -> JSMap.wf m /\ entry_keyed m.

(** The registry invariant of the data model: no room key with an empty
    map. *)
Definition no_empty_room (reg : Registry) : Prop :=
  forall r m, JSMap.get r reg = Some m -> JSMap.size m > 0.

(** Number of entries a room's map holds for a user. *)
Definition entries_of (userId : string) (m : JSMap.t RoomParticipant) : nat :=
  length (filter (fun e => String.eqb (fst e) userId) m).

Definition lookup (roomId userId : string) (reg : Registry)
  : option RoomParticipant :=
  match JSMap.get roomId reg with
  | Some m => JSMap.get userId m
  | None => None
  end.

(** The rooms of a registry with the users each holds, in order. *)
Definition shape (reg : Registry) : list (string * list string) :=
  map (fun e => (fst e, JSMap.keys (snd e))) reg.

(** From [st] to [st'] the entry of (room, user) became [p'] and nothing
    else moved: every other entry, the keys of both map levels, the
    socket.io rooms and the store are as before. *)
Definition entry_rewritten (st st' : ServerState) (roomId userId : string)
  (p' : RoomParticipant) : Prop :=
  lookup roomId userId (roomParticipants st') = Some p'
  /\ (forall r u, (r, u) <> (roomId, userId) ->
        lookup r u (roomParticipants st') = lookup r u (roomParticipants st))
  /\ shape (roomParticipants st') = shape (roomParticipants st)
  /\ sockets st' = sockets st
  /\ prisma st' = prisma st.

(** The participant row [prisma.participant.create] adds on approval. *)
Definition approved_record (env : Env) (roomId userId : string)
  : Participant.t :=
  {| Participant.role := GUEST; Participant.joinedAt := new_date env;
     Participant.leftAt := None; Participant.userId := userId;
     Participant.roomId := roomId |}.

(** The state a handler leaves behind. *)
Definition state_of {A : Type}
  (r : Completion A * ServerState * list Emission) : ServerState :=
  snd (fst r).

(** A handler keeps a property of the registry. *)
Definition preserves (Q : Registry -> Prop) {A : Type} (h : Handler A) : Prop :=
  forall st,
    Q (roomParticipants st) -> Q (roomParticipants (state_of (h st))).

(** The error event sent to the calling connection and to nobody else. *)
Definition error_to (socket : Socket.t) (message : string) : Emission :=
  mkEmission (ToSocket (Socket.id socket)) (EvError message) [Socket.id socket].

(** A broadcast as [emit] records it against a given set of connections. *)
Definition broadcast (socks : list Socket.t) (t : Target) (ev : ServerEvent)
  : Emission :=
  mkEmission t ev (recipients socks t).

(** What the [forEach] of the disconnect handler leaves of a registry: each
    room loses the user's entry, and a room emptied by that is dropped. *)
Fixpoint sweep (userId : string) (reg : Registry) : Registry :=
  match reg with
  | [] => []
  | (roomId, participants) :: rest =>
      if JSMap.has userId participants
      then
        if Nat.eqb (JSMap.size (JSMap.delete userId participants)) 0
        then sweep userId rest
        else (roomId, JSMap.delete userId participants) :: sweep userId rest
      else (roomId, participants) :: sweep userId rest
  end.

(** The registry effect of the leave-room handler. *)
Definition after_leave (roomId userId : string) (reg : Registry) : Registry :=
  match JSMap.get roomId reg with
  | Some m =>
      if Nat.eqb (JSMap.size (JSMap.delete userId m)) 0
      then JSMap.delete roomId (JSMap.adjust (JSMap.delete userId) roomId reg)
      else JSMap.adjust (JSMap.delete userId) roomId reg
  | None => reg
  end.

Definition is_host_remove (i : Input) : bool :=
  match i with
  | Receive _ _ (HostRemoveParticipant _ _) => true
  | _ => false
  end.

(** The participant-left event of a socket's user, sent to the rest of a
    room. *)
Definition left_room (socks : list Socket.t) (socket : Socket.t)
  (roomId : string) : Emission :=
  broadcast socks (ToRoomExcept roomId (Socket.id socket))
    (EvParticipantLeft (Socket.userId socket) (Socket.userName socket)).

(* ================================================================== *)
(** ** Worked scenarios *)

(** A small store: room [R] hosted by [H],
    with [G] a participant of record and [W] pending in the waiting room. *)

Definition demo_room : Room.t :=
  {| Room.id := "R"; Room.title := "Standup"; Room.code := "abc-defg-hij";
     Room.isActive := true; Room.hostId := "H"; Room.videoEnabled := true;
     Room.audioOnly := false; Room.maxParticipants := 10;
     Room.waitingRoom := true |}.

Definition demo_db : DB :=
  {| db_user := [User.mk "H" "Hana"; User.mk "G" "Gus"; User.mk "W" "Wim"];
     db_room := [demo_room];
     db_participant :=
       [Participant.mk HOST 0 None "H" "R"; Participant.mk GUEST 1 None "G" "R"];
     db_waitingRoom := [WaitingRoom.mk PENDING "W" "R";
                        WaitingRoom.mk PENDING "G" "R"] |}.

Definition demo_env : Env :=
  {| date_now := 1000; math_random := "k3j9x0q2a"; new_date := 1001 |}.

(** A room a guest joined and the host, who never joined it, then removed
    the guest from. *)
Definition stale_room_state : ServerState :=
  run (initial demo_db)
    [ Connect "sg" "G"; Connect "sh" "H";
      Receive "sg" demo_env (JoinRoom "R");
      Receive "sh" demo_env (HostRemoveParticipant "R" "G") ].

(** Guest and host connected, nobody in a room yet; then both in [R]. *)
Definition lobby_state : ServerState :=
  run (initial demo_db) [ Connect "sg" "G"; Connect "sh" "H" ].

Definition meeting_state : ServerState :=
  run lobby_state
    [ Receive "sg" demo_env (JoinRoom "R");
      Receive "sh" demo_env (JoinRoom "R") ].

Definition demo_host (rooms : list string) : Socket.t :=
  {| Socket.id := "sh"; Socket.userId := "H"; Socket.userName := "Hana";
     Socket.rooms := rooms |}.

Definition demo_guest (rooms : list string) : Socket.t :=
  {| Socket.id := "sg"; Socket.userId := "G"; Socket.userName := "Gus";
     Socket.rooms := rooms |}.

(* ================================================================== *)
(** ** Vocabulary of the further properties *)

(** The entry the join-room handler stores for a connection. *)
Definition joined_entry (socket : Socket.t) (room : Room.t)
  (participant : Participant.t) : RoomParticipant :=
  {| odId := Socket.userId socket;
     odName := Socket.userName socket;
     odIsMuted := false;
     odIsVideoOff := negb (Room.videoEnabled room);
     odRole := Participant.role participant |}.

(** The registry effect of a join-room that passes its checks. *)
Definition after_join (roomId userId : string) (entry : RoomParticipant)
  (reg : Registry) : Registry :=
  JSMap.adjust (JSMap.set userId entry) roomId
    (if JSMap.has roomId reg then reg
     else JSMap.set roomId JSMap.empty reg).

(** The connections after [socket.join(roomId)] / [socket.leave(roomId)] on
    the connection [sid]. *)
Definition joined_sockets (sid roomId : string) (socks : list Socket.t)
  : list Socket.t :=
  map (fun s => if is_socket sid s then add_room roomId s else s) socks.

Definition left_sockets (sid roomId : string) (socks : list Socket.t)
  : list Socket.t :=
  map (fun s => if is_socket sid s then remove_room roomId s else s) socks.

(** The room a client event names. *)
Definition room_of (ev : ClientEvent) : string :=
  match ev with
  | JoinRoom r | LeaveRoom r | SendChatMessage r _ | ToggleAudio r _
  | ToggleVideo r _ | HostMuteParticipant r _ | HostRemoveParticipant r _
  | ApproveWaitingParticipant r _ => r
  end.

(** The two client events whose handlers call a store write. *)
Definition writes_store (ev : ClientEvent) : bool :=
  match ev with
  | HostRemoveParticipant _ _ | ApproveWaitingParticipant _ _ => true
  | _ => false
  end.

(** The connections of [socks] after every connection whose id is in [ids]
    left [roomId]. *)
Definition evict (roomId : string) (ids : list string) (socks : list Socket.t)
  : list Socket.t :=
  map (fun s => if existsb (String.eqb (Socket.id s)) ids
                then remove_room roomId s else s) socks.

(** The sockets [io.in(roomId).fetchSockets()] returns that belong to a
    user. *)
Definition sockets_of (roomId userId : string) (socks : list Socket.t)
  : list Socket.t :=
  filter (fun s => String.eqb (Socket.userId s) userId)
    (filter (in_room roomId) socks).

Definition you_were_removed (roomId removedBy : string) (s : Socket.t)
  : Emission :=
  mkEmission (ToSocket (Socket.id s)) (EvYouWereRemoved roomId removedBy)
    [Socket.id s].

(** An error event goes to the one connection [sid] only. *)
Definition error_is_private (sid : string) (e : Emission) : Prop :=
  match em_event e with
  | EvError _ => em_target e = ToSocket sid /\ em_recipients e = [sid]
  | _ => True
  end.

(** Every connection an emission reached is [sid] or was in [roomId]. *)
Definition stays_in_room (socks : list Socket.t) (roomId sid : string)
  (e : Emission) : Prop :=
  forall rcp, In rcp (em_recipients e) ->
    rcp = sid
    \/ exists s, In s socks /\ Socket.id s = rcp /\ in_room roomId s = true.

(** The entries a room holds, none when the room is not a key. *)
Definition room_entries (roomId : string) (reg : Registry)
  : JSMap.t RoomParticipant :=
  match JSMap.get roomId reg with
  | Some m => m
  | None => JSMap.empty
  end.

(** The two events of a join-room that passes its checks: the snapshot for
    the joiner, then the announcement for the others. *)
Definition join_events (socks : list Socket.t) (socket : Socket.t)
  (room : Room.t) (roomId : string) (participant : Participant.t)
  (snapshot : list RoomParticipant) : list Emission :=
  [ mkEmission (ToSocket (Socket.id socket))
      (EvRoomJoined roomId (Room.code room) (Room.title room) snapshot
         {| s_videoEnabled := Room.videoEnabled room;
            s_audioOnly := Room.audioOnly room;
            s_maxParticipants := Room.maxParticipants room |})
      [Socket.id socket];
    broadcast socks (ToRoomExcept roomId (Socket.id socket))
      (EvParticipantJoined (Socket.userId socket) (Socket.userName socket)
         (Participant.role participant)) ].

(** What join-room does, by the checks of the handler. *)
Definition join_outcome (st : ServerState) (socket : Socket.t) (roomId : string)
  : ServerState * list Emission :=
  match room_findUnique roomId (prisma st) with
  | None => (st, [error_to socket "Room not found"])
  | Some room =>
      if Room.isActive room
      then
        match room_participants roomId (Socket.userId socket) (prisma st) with
        | [] => (st, [error_to socket "You are not a participant in this room"])
        | participant :: _ =>
            let entry := joined_entry socket room participant in
            let socks := joined_sockets (Socket.id socket) roomId (sockets st) in
            ({| roomParticipants :=
                  after_join roomId (Socket.userId socket) entry
                    (roomParticipants st);
                sockets := socks;
                prisma := prisma st |},
             join_events socks socket room roomId participant
               (JSMap.values
                  (JSMap.set (Socket.userId socket) entry
                     (room_entries roomId (roomParticipants st)))))
        end
      else (st, [error_to socket "Room is not active"])
  end.

(** The registry effect of a host-remove-participant that passes its
    checks. *)
Definition after_remove (roomId targetId : string) (reg : Registry) : Registry :=
  if JSMap.has roomId reg
  then JSMap.adjust (JSMap.delete targetId) roomId reg
  else reg.

(** The state and the events of a host-remove-participant that passes its
    checks. *)
Definition remove_outcome (st : ServerState) (socket : Socket.t) (env : Env)
  (roomId targetId : string) : ServerState * list Emission :=
  let evicted := sockets_of roomId targetId (sockets st) in
  ({| roomParticipants := after_remove roomId targetId (roomParticipants st);
      sockets := evict roomId (map Socket.id evicted) (sockets st);
      prisma := participant_updateMany roomId targetId (new_date env) (prisma st) |},
   broadcast (sockets st) (ToRoom roomId)
     (EvParticipantRemovedByHost targetId (Socket.userName socket))
   :: map (you_were_removed roomId (Socket.userName socket)) evicted).

(** The store after an approval that both writes accept. *)
Definition approved_db (env : Env) (roomId approvedId : string) (db : DB) : DB :=
  set_participants
    (db_participant db ++ [approved_record env roomId approvedId])
    (set_waitingRooms
       (map (fun w => if same_key_w approvedId roomId w
                      then set_status APPROVED w else w)
          (db_waitingRoom db))
       db).

(** Inputs that may rewrite the store: the two host commands that call a
    store write, and the REST side. *)
Definition touches_store (i : Input) : bool :=
  match i with
  | Receive _ _ ev => writes_store ev
  | StoreChange _ => true
  | _ => false
  end.

(** The connections of [socks'] that are in [roomId] are [sid] or were in
    [roomId] already in [socks]. *)
Definition no_newcomer (roomId sid : string) (socks socks' : list Socket.t)
  : Prop :=
  forall s', In s' socks' -> in_room roomId s' = true ->
    Socket.id s' = sid
    \/ exists s, In s socks /\ Socket.id s = Socket.id s'
                 /\ in_room roomId s = true.

(** The connection an input comes from. *)
Definition caller_of (i : Input) : string :=
  match i with
  | Connect sid _ | Receive sid _ _ | Disconnect sid => sid
  | StoreChange _ => ""
  end.

(* ================================================================== *)
(** ** Authentication ([io.use] and [middleware/auth.ts]) *)

(** [s.startsWith(pat)] *)
Fixpoint starts_with (pat s : string) : bool :=
  match pat, s with
  | EmptyString, _ => true
  | String a pat', String b s' => Ascii.eqb a b && starts_with pat' s'
  | String _ _, EmptyString => false
  end.

Fixpoint drop (n : nat) (s : string) : string :=
  match n, s with
  | O, _ => s
  | S n', String _ s' => drop n' s'
  | S _, EmptyString => EmptyString
  end.

(** [s.replace(pat, "")] with a string pattern: the first occurrence goes. *)
Fixpoint remove_first (pat s : string) : string :=
  if starts_with pat s then drop (String.length pat) s
  else
    match s with
    | EmptyString => EmptyString
    | String c s' => String c (remove_first pat s')
    end.

(** [s.split(sep)] for a one-character separator. *)
Fixpoint split (sep : Ascii.ascii) (s : string) : list string :=
  match s with
  | EmptyString => [EmptyString]
  | String c s' =>
      if Ascii.eqb c sep then EmptyString :: split sep s'
      else
        match split sep s' with
        | piece :: pieces => String c piece :: pieces
        | [] => [String c EmptyString]
        end
  end.

(** A string or [undefined] as a condition: the empty string is falsy. *)
Definition truthy (o : option string) : option string :=
  match o with
  | Some EmptyString => None
  | _ => o
  end.

(** What the socket server reads of [socket.handshake]. *)
Module Handshake.
Record t : Type := mk {
  auth_token : option string;        (* handshake.auth.token *)
  authorization : option string      (* handshake.headers.authorization *)
}.
End Handshake.

(** The outcome of the [io.use] middleware: [next(new Error(message))], or
    [next()] with [socket.userId] and [socket.userName] set. *)
Inductive Admission : Type :=
| Refused (message : string)
| Accepted (userId userName : string).

(** What an Express handler answers: [res.status(s).json({ message, data })],
    [data] limited to the columns the store model carries. *)
Inductive Payload : Type :=
| NoData
| ParticipantData (p : Participant.t)
| WaitingRoomData (w : WaitingRoom.t)
| RoomData (r : Room.t).

Record Response : Type := mkResponse {
  res_status : nat;
  res_message : string;
  res_data : Payload
}.

Section Auth.

(** [verifyToken] of [middleware/auth.ts]: [jwt.verify] under a try/catch,
    the decoded [{ userId, email }] or null.  The signature check itself is
    the JWT library's. *)
Variable verifyToken : string -> option (string * string).

(** [handshake.auth.token || handshake.headers.authorization?.replace("Bearer ", "")],
    as the condition [!token] sees it. *)
Definition handshake_token (h : Handshake.t) : option string :=
  match truthy (Handshake.auth_token h) with
  | Some token => Some token
  | None =>
      truthy (option_map (remove_first "Bearer ") (Handshake.authorization h))
  end.

(** The authentication middleware of the socket server. *)
Definition authenticate (h : Handshake.t) (db : DB) : Admission :=
  match handshake_token h with
  | None => Refused "Authentication required"
  | Some token =>
      match verifyToken token with
      | None => Refused "Invalid token"
      | Some (userId, _) => Accepted userId (resolve_name userId db)
      end
  end.

(** [authMiddleware]: the 401 answer, or [req.user] for the next handler. *)
Definition authMiddleware (authHeader : option string)
  : Response + string * string :=
  match authHeader with
  | None => inl (mkResponse 401 "Unauthorized: No token provided" NoData)
  | Some header =>
      if negb (starts_with "Bearer " header)
      then inl (mkResponse 401 "Unauthorized: No token provided" NoData)
      else
        match nth_error (split " " header) 1 with
        | None => inl (mkResponse 401 "Unauthorized: Invalid token" NoData)
        | Some token =>
            match verifyToken token with
            | None => inl (mkResponse 401 "Unauthorized: Invalid token" NoData)
            | Some user => inr user
            end
        end
  end.

(** [optionalAuthMiddleware]: always calls [next()]; [req.user] when the
    header carries a token that verifies. *)
Definition optionalAuthMiddleware (authHeader : option string)
  : option (string * string) :=
  match authHeader with
  | None => None
  | Some header =>
      if starts_with "Bearer " header
      then
        match nth_error (split " " header) 1 with
        | None => None
        | Some token => verifyToken token
        end
      else None
  end.

End Auth.

(* ================================================================== *)
(** ** Room codes ([generateRoomCode], [getUniqueRoomCode]) *)

Definition code_chars : string := "abcdefghijklmnopqrstuvwxyz0123456789".

(** [s.charAt(n)]: the empty string out of range. *)
Definition charAt (n : nat) (s : string) : string :=
  match String.get n s with
  | Some c => String c EmptyString
  | None => EmptyString
  end.

(** The inner loop: [j] characters appended to a segment; [draw k] is the
    value of [Math.floor(Math.random() * chars.length)] at the [k]-th call. *)
Fixpoint build_segment (draw : nat -> nat) (k j : nat) : string :=
  match j with
  | O => EmptyString
  | S j' => charAt (draw k) code_chars ++ build_segment draw (S k) j'
  end.

(** [segments.join(sep)] *)
Fixpoint join (sep : string) (segments : list string) : string :=
  match segments with
  | [] => EmptyString
  | [s] => s
  | s :: rest => s ++ sep ++ join sep rest
  end.

(** [generateRoomCode()], reading the draws from the [k]-th on. *)
Definition generateRoomCode (draw : nat -> nat) (k : nat) : string :=
  join "-"
    [ build_segment draw k 3;
      build_segment draw (k + 3) 3;
      build_segment draw (k + 6) 3 ].

(** [prisma.room.findUnique({ where: { code } })] *)
Definition room_by_code (code : string) (db : DB) : option Room.t :=
  find (fun r => String.eqb (Room.code r) code) (db_room db).

(** [getUniqueRoomCode()]: generate until the code is free; [fuel] bounds
    the number of attempts. *)
Fixpoint getUniqueRoomCode (fuel : nat) (draw : nat -> nat) (k : nat) (db : DB)
  : option string :=
  match fuel with
  | O => None
  | S fuel' =>
      let code := generateRoomCode draw k in
      match room_by_code code db with
      | None => Some code
      | Some _ => getUniqueRoomCode fuel' draw (k + 9) db
      end
  end.

(* ================================================================== *)
(** ** The REST routes that write what join-room reads ([routes/rooms.ts]) *)

(** [_count: { participants: { where: { leftAt: null } } }] of a room. *)
Definition active_count (roomId : string) (db : DB) : nat :=
  List.length
    (filter (fun p => String.eqb (Participant.roomId p) roomId
                      && is_null (Participant.leftAt p))
       (db_participant db)).

Definition set_leftAt_null (p : Participant.t) : Participant.t :=
  {| Participant.role := Participant.role p;
     Participant.joinedAt := Participant.joinedAt p;
     Participant.leftAt := None;
     Participant.userId := Participant.userId p;
     Participant.roomId := Participant.roomId p |}.

Definition user_exists (userId : string) (db : DB) : bool :=
  match user_findUnique userId db with Some _ => true | None => false end.

(** [prisma.waitingRoom.upsert({ where: { userId_roomId }, update: { status:
    "PENDING" }, create: { userId, roomId, status: "PENDING" } })]: the row
    written, or nothing when the create breaks the foreign key to [User]. *)
Definition waitingRoom_upsert (userId roomId : string) (db : DB)
  : option (DB * WaitingRoom.t) :=
  match find (same_key_w userId roomId) (db_waitingRoom db) with
  | Some w =>
      Some (set_waitingRooms
              (map (fun w => if same_key_w userId roomId w
                             then set_status PENDING w else w)
                 (db_waitingRoom db))
              db,
            set_status PENDING w)
  | None =>
      if user_exists userId db
      then
        let w := {| WaitingRoom.status := PENDING;
                    WaitingRoom.userId := userId;
                    WaitingRoom.roomId := roomId |} in
        Some (set_waitingRooms (db_waitingRoom db ++ [w]) db, w)
      else None
  end.

(** [prisma.participant.upsert({ where: { userId_roomId }, update: { leftAt:
    null }, create: { userId, roomId, role: "GUEST" } })]: the row written,
    or nothing when the create breaks the foreign key to [User]. *)
Definition participant_upsert (userId roomId : string) (now : Z) (db : DB)
  : option (DB * Participant.t) :=
  match find (same_key_p userId roomId) (db_participant db) with
  | Some p =>
      Some (set_participants
              (map (fun p => if same_key_p userId roomId p
                             then set_leftAt_null p else p)
                 (db_participant db))
              db,
            set_leftAt_null p)
  | None =>
      if user_exists userId db
      then
        let p := {| Participant.role := GUEST; Participant.joinedAt := now;
                    Participant.leftAt := None;
                    Participant.userId := userId;
                    Participant.roomId := roomId |} in
        Some (set_participants (db_participant db ++ [p]) db, p)
      else None
  end.

(** [prisma.participant.update({ where: { userId_roomId }, data: { leftAt:
    new Date() } })]: fails when the row does not exist. *)
Definition participant_update_leftAt (userId roomId : string) (now : Z)
  (db : DB) : option (DB * Participant.t) :=
  match find (same_key_p userId roomId) (db_participant db) with
  | Some p =>
      Some (set_participants
              (map (fun p => if same_key_p userId roomId p
                             then set_leftAt now p else p)
                 (db_participant db))
              db,
            set_leftAt now p)
  | None => None
  end.

Definition set_rooms_table (rs : list Room.t) (db : DB) : DB :=
  {| db_user := db_user db; db_room := rs;
     db_participant := db_participant db;
     db_waitingRoom := db_waitingRoom db |}.

Definition set_inactive (r : Room.t) : Room.t :=
  {| Room.id := Room.id r; Room.title := Room.title r; Room.code := Room.code r;
     Room.isActive := false; Room.hostId := Room.hostId r;
     Room.videoEnabled := Room.videoEnabled r; Room.audioOnly := Room.audioOnly r;
     Room.maxParticipants := Room.maxParticipants r;
     Room.waitingRoom := Room.waitingRoom r |}.

(** [prisma.room.update({ where: { id }, data: { isActive: false } })] *)
Definition room_update_inactive (roomId : string) (db : DB)
  : option (DB * Room.t) :=
  match room_findUnique roomId db with
  | Some r =>
      Some (set_rooms_table
              (map (fun r => if String.eqb (Room.id r) roomId
                             then set_inactive r else r)
                 (db_room db))
              db,
            set_inactive r)
  | None => None
  end.

(** [prisma.participant.updateMany({ where: { roomId, leftAt: null }, data:
    { leftAt: new Date() } })] *)
Definition participant_updateMany_room (roomId : string) (now : Z) (db : DB)
  : DB :=
  set_participants
    (map (fun p => if String.eqb (Participant.roomId p) roomId
                      && is_null (Participant.leftAt p)
                   then set_leftAt now p else p)
       (db_participant db))
    db.

(** [room._count.participants >= room.maxParticipants] *)
Definition is_full (room : Room.t) (db : DB) : bool :=
  (Room.maxParticipants room <=? Z.of_nat (active_count (Room.id room) db))%Z.

(** [POST /:id/join], after [authMiddleware] has set [req.user.userId]. *)
Definition rest_join (userId roomId : string) (now : Z) (db : DB)
  : DB * Response :=
  match room_findUnique roomId db with
  | None => (db, mkResponse 404 "Room not found" NoData)
  | Some room =>
      if negb (Room.isActive room)
      then (db, mkResponse 400 "Room is not active" NoData)
      else if is_full room db
      then (db, mkResponse 400 "Room is full" NoData)
      else if Room.waitingRoom room && negb (String.eqb (Room.hostId room) userId)
      then
        match waitingRoom_upsert userId roomId db with
        | Some (db', w) =>
            (db', mkResponse 202 "Added to waiting room" (WaitingRoomData w))
        | None => (db, mkResponse 500 "Failed to join room" NoData)
        end
      else
        match participant_upsert userId roomId now db with
        | Some (db', p) =>
            (db', mkResponse 201 "Joined room" (ParticipantData p))
        | None => (db, mkResponse 500 "Failed to join room" NoData)
        end
  end.

(** [POST /:id/join] as the awaited store calls it is made of, which no
    transaction holds together: the room and its [_count] are read from the
    store as it stood at [room.findUnique] ([seen]); the upsert runs on the
    store as it stands when the route resumes ([db]), after whatever other
    requests wrote in between.  A row of the room can only be written while
    the room is there (foreign key to [Room]). *)
Definition room_exists (roomId : string) (db : DB) : bool :=
  match room_findUnique roomId db with Some _ => true | None => false end.

Definition rest_join_between (userId roomId : string) (now : Z) (seen db : DB)
  : DB * Response :=
  match room_findUnique roomId seen with
  | None => (db, mkResponse 404 "Room not found" NoData)
  | Some room =>
      if negb (Room.isActive room)
      then (db, mkResponse 400 "Room is not active" NoData)
      else if is_full room seen
      then (db, mkResponse 400 "Room is full" NoData)
      else if Room.waitingRoom room && negb (String.eqb (Room.hostId room) userId)
      then
        match (if room_exists roomId db
               then waitingRoom_upsert userId roomId db else None) with
        | Some (db', w) =>
            (db', mkResponse 202 "Added to waiting room" (WaitingRoomData w))
        | None => (db, mkResponse 500 "Failed to join room" NoData)
        end
      else
        match (if room_exists roomId db
               then participant_upsert userId roomId now db else None) with
        | Some (db', p) =>
            (db', mkResponse 201 "Joined room" (ParticipantData p))
        | None => (db, mkResponse 500 "Failed to join room" NoData)
        end
  end.

(** A room for one, open to anybody, with nobody in it yet. *)
Definition booth_db : DB :=
  {| db_user := [User.mk "H" "Hana"; User.mk "A" "Ada"; User.mk "B" "Bo"];
     db_room := [Room.mk "S" "Booth" "abc-defg-hij" true "H" true false 1 false];
     db_participant := [];
     db_waitingRoom := [] |}.

(** [POST /:id/leave] *)
Definition rest_leave (userId roomId : string) (now : Z) (db : DB)
  : DB * Response :=
  match participant_update_leftAt userId roomId now db with
  | Some (db', p) => (db', mkResponse 200 "Left room" (ParticipantData p))
  | None => (db, mkResponse 500 "Failed to leave room" NoData)
  end.

(** [POST /:id/end] *)
Definition rest_end (userId roomId : string) (now : Z) (db : DB)
  : DB * Response :=
  match room_findUnique roomId db with
  | None => (db, mkResponse 404 "Room not found" NoData)
  | Some room =>
      if negb (String.eqb (Room.hostId room) userId)
      then (db, mkResponse 403 "Only the host can end this room" NoData)
      else
        match room_update_inactive roomId db with
        | Some (db1, updatedRoom) =>
            (participant_updateMany_room roomId now db1,
             mkResponse 200 "Room ended" (RoomData updatedRoom))
        | None => (db, mkResponse 500 "Failed to end room" NoData)
        end
  end.

(** [POST /:id/waiting-room/:userId/approve] *)
Definition rest_approve (hostUserId roomId userId : string) (now : Z) (db : DB)
  : DB * Response :=
  match room_findUnique roomId db with
  | None => (db, mkResponse 404 "Room not found" NoData)
  | Some room =>
      if negb (String.eqb (Room.hostId room) hostUserId)
      then (db, mkResponse 403 "Only the host can approve participants" NoData)
      else if is_full room db
      then (db, mkResponse 400 "Room is full" NoData)
      else
        match waitingRoom_update userId roomId APPROVED db with
        | None => (db, mkResponse 500 "Failed to approve participant" NoData)
        | Some db1 =>
            match participant_create userId roomId GUEST now db1 with
            | None =>
                (db1, mkResponse 500 "Failed to approve participant" NoData)
            | Some db2 =>
                (db2,
                 mkResponse 200 "Participant approved"
                   (ParticipantData
                      {| Participant.role := GUEST; Participant.joinedAt := now;
                         Participant.leftAt := None;
                         Participant.userId := userId;
                         Participant.roomId := roomId |}))
            end
        end
  end.

(** Whether a character occurs in a string. *)
Fixpoint mentions (c : Ascii.ascii) (s : string) : bool :=
  match s with
  | EmptyString => false
  | String x s' => Ascii.eqb x c || mentions c s'
  end.

(** A character of the code alphabet. *)
Definition is_code_char (c : Ascii.ascii) : bool := mentions c code_chars.

(** The shape [xxx-xxx-xxx] over the code alphabet. *)
Definition well_formed_code (code : string) : bool :=
  match list_ascii_of_string code with
  | [a; b; c; d; e; f; g; h; i; j; k] =>
      is_code_char a && is_code_char b && is_code_char c
      && Ascii.eqb d "-"
      && is_code_char e && is_code_char f && is_code_char g
      && Ascii.eqb h "-"
      && is_code_char i && is_code_char j && is_code_char k
  | _ => false
  end.

(** The unique index [Participant_userId_roomId_key]. *)
Definition participant_index (db : DB) : Prop :=
  NoDup (map (fun p => (Participant.userId p, Participant.roomId p))
           (db_participant db)).

(** A token verifier for the worked scenarios: one good token, for [G]. *)
Definition demo_verify (token : string) : option (string * string) :=
  if String.eqb token "tok-G" then Some ("G", "gus@example.org") else None.

(** A connection of the waiting user [W], and a run of presence commands
    without a removal by the host. *)
Definition demo_waiting : Socket.t :=
  {| Socket.id := "sw"; Socket.userId := "W"; Socket.userName := "Wim";
     Socket.rooms := [] |}.

Definition demo_run : list Input :=
  [ Connect "sg" "G"; Connect "sh" "H";
    Receive "sg" demo_env (JoinRoom "R");
    Receive "sh" demo_env (JoinRoom "R");
    Receive "sg" demo_env (ToggleAudio "R" true);
    Receive "sh" demo_env (LeaveRoom "R");
    Disconnect "sg" ].

(* ================================================================== *)
(** * Facts about [JSMap] *)

Module JSMapFacts.
Section WithValue.
Context {V : Type}.
Implicit Types (m : JSMap.t V) (k : string) (v : V).

Lemma get_adjust_eq f k m :
  JSMap.get k (JSMap.adjust f k m) = option_map f (JSMap.get k m).
Proof.
  induction m as [|[k' v] m IH]; simpl; [reflexivity|].
  destruct (String.eqb_spec k' k) as [->|Hne]; simpl.
  - now rewrite String.eqb_refl.
  - apply String.eqb_neq in Hne. now rewrite Hne.
Qed.

Lemma get_adjust_ne f k k' m :
  k <> k' -> JSMap.get k' (JSMap.adjust f k m) = JSMap.get k' m.
Proof.
  intros Hne. induction m as [|[k0 v] m IH]; simpl; [reflexivity|].
  destruct (String.eqb_spec k0 k) as [->|Hk]; simpl.
  - apply String.eqb_neq in Hne. now rewrite Hne.
  - now rewrite IH.
Qed.

Lemma keys_adjust f k m : JSMap.keys (JSMap.adjust f k m) = JSMap.keys m.
Proof.
  induction m as [|[k0 v] m IH]; simpl; [reflexivity|].
  destruct (String.eqb k0 k); simpl; [reflexivity|]. now f_equal.
Qed.

Lemma adjust_absent f k m : JSMap.get k m = None -> JSMap.adjust f k m = m.
Proof.
  induction m as [|[k0 v] m IH]; simpl; [reflexivity|].
  destruct (String.eqb k0 k); [discriminate|]. intros H. now rewrite IH.
Qed.

Lemma get_set_eq k v m : JSMap.get k (JSMap.set k v m) = Some v.
Proof.
  induction m as [|[k0 v0] m IH]; simpl.
  - now rewrite String.eqb_refl.
  - destruct (String.eqb k0 k) eqn:E; simpl; now rewrite E.
Qed.

Lemma get_set_ne k k' v m :
  k <> k' -> JSMap.get k' (JSMap.set k v m) = JSMap.get k' m.
Proof.
  intros Hne. induction m as [|[k0 v0] m IH]; simpl.
  - apply String.eqb_neq in Hne. now rewrite Hne.
  - destruct (String.eqb_spec k0 k) as [->|Hk]; simpl.
    + apply String.eqb_neq in Hne. now rewrite Hne.
    + now rewrite IH.
Qed.

Lemma get_delete_eq k m : JSMap.get k (JSMap.delete k m) = None.
Proof.
  induction m as [|[k0 v0] m IH]; simpl; [reflexivity|].
  destruct (String.eqb k0 k) eqn:E; simpl; [assumption|]. now rewrite E.
Qed.

Lemma get_delete_ne k k' m :
  k <> k' -> JSMap.get k' (JSMap.delete k m) = JSMap.get k' m.
Proof.
  intros Hne. induction m as [|[k0 v0] m IH]; simpl; [reflexivity|].
  destruct (String.eqb_spec k0 k) as [->|Hk]; simpl.
  - apply String.eqb_neq in Hne. now rewrite Hne.
  - now rewrite IH.
Qed.

Lemma delete_absent k m : JSMap.get k m = None -> JSMap.delete k m = m.
Proof.
  induction m as [|[k0 v0] m IH]; simpl; [reflexivity|].
  destruct (String.eqb k0 k); [discriminate|]. simpl. intros H. now rewrite IH.
Qed.

Lemma get_none_keys k m : JSMap.get k m = None <-> ~ In k (JSMap.keys m).
Proof.
  induction m as [|[k0 v0] m IH]; simpl; [tauto|].
  destruct (String.eqb_spec k0 k) as [->|Hk].
  - split; [discriminate|]. intros H. exfalso. apply H. now left.
  - rewrite IH. tauto.
Qed.

Lemma get_in k v m : JSMap.get k m = Some v -> In (k, v) m.
Proof.
  induction m as [|[k0 v0] m IH]; simpl; [discriminate|].
  destruct (String.eqb_spec k0 k) as [->|Hk].
  - intros [= ->]. now left.
  - intros H. right. now apply IH.
Qed.

Lemma in_get k v m : JSMap.wf m -> In (k, v) m -> JSMap.get k m = Some v.
Proof.
  unfold JSMap.wf. induction m as [|[k0 v0] m IH]; simpl; [tauto|].
  intros Hnd [[= -> ->]|Hin].
  - now rewrite String.eqb_refl.
  - inversion Hnd as [|? ? Hk0 Hnd']; subst.
    destruct (String.eqb_spec k0 k) as [->|Hk].
    + exfalso. apply Hk0. change k with (fst (k, v)). now apply in_map.
    + now apply IH.
Qed.

Lemma has_true k m : JSMap.has k m = true <-> exists v, JSMap.get k m = Some v.
Proof.
  unfold JSMap.has. destruct (JSMap.get k m) as [v|].
  - split; [eauto|reflexivity].
  - split; [discriminate|]. intros [v H]. discriminate.
Qed.

Lemma has_false k m : JSMap.has k m = false <-> JSMap.get k m = None.
Proof.
  unfold JSMap.has. destruct (JSMap.get k m); split; congruence.
Qed.

Lemma in_delete k e m : In e (JSMap.delete k m) <-> In e m /\ fst e <> k.
Proof.
  unfold JSMap.delete. rewrite filter_In, negb_true_iff, String.eqb_neq.
  tauto.
Qed.

Lemma keys_delete_incl k k' m :
  In k' (JSMap.keys (JSMap.delete k m)) -> In k' (JSMap.keys m).
Proof.
  unfold JSMap.keys. rewrite !in_map_iff. intros [e [He Hin]].
  exists e. split; [assumption|]. now apply in_delete in Hin.
Qed.

Lemma wf_delete k m : JSMap.wf m -> JSMap.wf (JSMap.delete k m).
Proof.
  unfold JSMap.wf. induction m as [|[k0 v0] m IH]; simpl; [auto|].
  intros Hnd. inversion Hnd as [|? ? Hk0 Hnd']; subst.
  destruct (String.eqb k0 k); simpl; [now apply IH|].
  constructor; [|now apply IH].
  intros Hin. apply Hk0. now apply keys_delete_incl in Hin.
Qed.

Lemma wf_adjust f k m : JSMap.wf m -> JSMap.wf (JSMap.adjust f k m).
Proof. unfold JSMap.wf. now rewrite keys_adjust. Qed.

Lemma keys_set_incl k k' v m :
  In k' (JSMap.keys (JSMap.set k v m)) -> k' = k \/ In k' (JSMap.keys m).
Proof.
  induction m as [|[k0 v0] m IH]; simpl.
  - intros [<-|[]]. now left.
  - destruct (String.eqb k0 k); simpl; [tauto|].
    intros [<-|H]; [tauto|]. destruct (IH H); tauto.
Qed.

Lemma wf_set k v m : JSMap.wf m -> JSMap.wf (JSMap.set k v m).
Proof.
  unfold JSMap.wf. induction m as [|[k0 v0] m IH]; simpl.
  - intros _. constructor; [tauto|constructor].
  - intros Hnd. inversion Hnd as [|? ? Hk0 Hnd']; subst.
    destruct (String.eqb_spec k0 k) as [->|Hk]; simpl.
    + now constructor.
    + constructor; [|now apply IH].
      intros Hin. apply keys_set_incl in Hin. destruct Hin; congruence.
Qed.

Lemma in_set k v e m :
  In e (JSMap.set k v m) -> e = (k, v) \/ In e m.
Proof.
  induction m as [|[k0 v0] m IH]; simpl.
  - intros [<-|[]]. now left.
  - destruct (String.eqb_spec k0 k) as [->|Hk]; simpl.
    + intros [<-|H]; auto.
    + intros [<-|H]; [auto|]. destruct (IH H); auto.
Qed.

Lemma in_adjust f k e m :
  In e (JSMap.adjust f k m) ->
  In e m \/ exists v, In (k, v) m /\ e = (k, f v).
Proof.
  induction m as [|[k0 v0] m IH]; simpl; [tauto|].
  destruct (String.eqb_spec k0 k) as [->|Hk]; simpl.
  - intros [<-|H]; [|auto]. right. exists v0. auto.
  - intros [<-|H]; [auto|].
    destruct (IH H) as [?|[v [? ?]]]; [auto|]. right. exists v. auto.
Qed.

(** A key of a well-formed map counts once. *)
Lemma count_key k v m :
  JSMap.wf m -> JSMap.get k m = Some v ->
  length (filter (fun e => String.eqb (fst e) k) m) = 1.
Proof.
  unfold JSMap.wf. induction m as [|[k0 v0] m IH]; simpl; [discriminate|].
  intros Hnd. inversion Hnd as [|? ? Hk0 Hnd']; subst.
  destruct (String.eqb_spec k0 k) as [->|Hk]; simpl.
  - intros _. f_equal.
    assert (Hnone : JSMap.get k m = None) by now apply get_none_keys.
    clear -Hnone. induction m as [|[k1 v1] m IH]; simpl in *; [reflexivity|].
    destruct (String.eqb k1 k); [discriminate|]. now apply IH.
  - now apply IH.
Qed.

Lemma size_zero m : Nat.eqb (JSMap.size m) 0 = true <-> m = [].
Proof.
  destruct m; simpl; split; congruence.
Qed.

End WithValue.
End JSMapFacts.

(* ================================================================== *)
(** * Handlers that refuse or ignore a command *)

Ltac unfold_handler :=
  unfold run_handler, on_join_room, on_leave_room, on_chat_message,
    on_toggle_audio, on_toggle_video, on_host_mute_participant,
    on_host_remove_participant, on_approve_waiting_participant,
    try_catch, bind, ret, throw, gets, modify, modify_registry, update_entry,
    prisma_read, prisma_write, socket_error, emit, socket_join, socket_leave,
    room_map, error_to, broadcast.

Lemma trim_start_blank (s : jsstring) :
  Forall (fun c => is_whitespace c = true) s -> trim_start s = [].
Proof.
  induction 1 as [|c s Hc _ IH]; simpl; [reflexivity|]. now rewrite Hc.
Qed.

Lemma trim_blank (s : jsstring) :
  Forall (fun c => is_whitespace c = true) s -> trim s = [].
Proof.
  intros H. unfold trim. now rewrite (trim_start_blank s H).
Qed.

Lemma is_host_true (room : Room.t) (userId : string) :
  Room.hostId room = userId -> is_host (Some room) userId = true.
Proof. intros <-. simpl. apply String.eqb_refl. Qed.

(** C3: join-room is refused with "Room not found" when the store has no
    such room, otherwise with "Room is not active" when the room's active
    flag is false, otherwise with "You are not a participant in this room"
    when the store has no record of (user, room) with [leftAt] null.  Each
    refusal is one error event to the calling connection alone, and the
    whole server state (registry, socket.io rooms, store) stays as it was. *)
Theorem join_room_refusals (st : ServerState) (socket : Socket.t)
  (roomId : string) :
  (room_findUnique roomId (prisma st) = None ->
   run_handler (on_join_room socket roomId) st
   = (st, [error_to socket "Room not found"]))
  /\ (forall room,
        room_findUnique roomId (prisma st) = Some room ->
        Room.isActive room = false ->
        run_handler (on_join_room socket roomId) st
        = (st, [error_to socket "Room is not active"]))
  /\ (forall room,
        room_findUnique roomId (prisma st) = Some room ->
        Room.isActive room = true ->
        room_participants roomId (Socket.userId socket) (prisma st) = [] ->
        run_handler (on_join_room socket roomId) st
        = (st, [error_to socket "You are not a participant in this room"])).
Proof.
  repeat split.
  - intros Hroom. unfold_handler. cbn. now rewrite Hroom.
  - intros room Hroom Hact. unfold_handler. cbn. rewrite Hroom. cbn.
    now rewrite Hact.
  - intros room Hroom Hact Hnone. unfold_handler. cbn. rewrite Hroom. cbn.
    rewrite Hact. cbn. now rewrite Hnone.
Qed.

(** C6: when the caller is the host of the room and names itself as the
    target, host-remove-participant answers the caller alone with "Host
    cannot remove themselves"; nothing is broadcast and the registry, the
    socket.io rooms and the store (no [leftAt] written) stay as they were. *)
Theorem host_remove_self_refused (st : ServerState) (socket : Socket.t)
  (env : Env) (roomId : string) (room : Room.t) :
  room_findUnique roomId (prisma st) = Some room ->
  Room.hostId room = Socket.userId socket ->
  run_handler
    (on_host_remove_participant socket env roomId (Socket.userId socket)) st
  = (st, [error_to socket "Host cannot remove themselves"]).
Proof.
  intros Hroom Hhost. unfold_handler. cbn. rewrite Hroom.
  rewrite (is_host_true _ _ Hhost). cbn. now rewrite String.eqb_refl.
Qed.

(** C8: a chat-message whose text is empty or made of whitespace only emits
    nothing at all (no chat-message to anyone, no error to the sender) and
    leaves the server state, the registry included, as it was. *)
Theorem chat_blank_is_silent (st : ServerState) (socket : Socket.t)
  (env : Env) (roomId : string) (message : jsstring) :
  Forall (fun c => is_whitespace c = true) message ->
  run_handler (on_chat_message socket env roomId message) st = (st, []).
Proof.
  intros Hblank. unfold_handler. rewrite (trim_blank message Hblank).
  cbn. now rewrite orb_true_r.
Qed.

(* ================================================================== *)
(** * Reading the registry by (room, user) *)

Lemma present_lookup (roomId userId : string) (reg : Registry) :
  present roomId userId reg = true
  <-> exists p, lookup roomId userId reg = Some p.
Proof.
  unfold present, lookup, JSMap.has.
  destruct (JSMap.get roomId reg) as [m|]; simpl.
  - destruct (JSMap.get userId m) as [p|]; split; eauto; try discriminate.
    intros [p H]. discriminate.
  - split; [discriminate|]. intros [p H]. discriminate.
Qed.

Lemma absent_lookup (roomId userId : string) (reg : Registry) :
  present roomId userId reg = false <-> lookup roomId userId reg = None.
Proof.
  unfold present, lookup, JSMap.has.
  destruct (JSMap.get roomId reg) as [m|]; simpl; [|tauto].
  destruct (JSMap.get userId m); split; congruence.
Qed.

Lemma lookup_update_same (roomId userId : string)
  (f : RoomParticipant -> RoomParticipant) (reg : Registry) :
  lookup roomId userId (JSMap.adjust (JSMap.adjust f userId) roomId reg)
  = option_map f (lookup roomId userId reg).
Proof.
  unfold lookup. rewrite JSMapFacts.get_adjust_eq.
  destruct (JSMap.get roomId reg) as [m|]; simpl; [|reflexivity].
  apply JSMapFacts.get_adjust_eq.
Qed.

Lemma lookup_update_other (roomId userId r u : string)
  (f : RoomParticipant -> RoomParticipant) (reg : Registry) :
  (r, u) <> (roomId, userId) ->
  lookup r u (JSMap.adjust (JSMap.adjust f userId) roomId reg) = lookup r u reg.
Proof.
  intros Hne. unfold lookup.
  destruct (String.eqb_spec roomId r) as [->|Hr].
  - rewrite JSMapFacts.get_adjust_eq.
    destruct (JSMap.get r reg) as [m|]; simpl; [|reflexivity].
    apply JSMapFacts.get_adjust_ne. congruence.
  - now rewrite JSMapFacts.get_adjust_ne.
Qed.

Lemma shape_update (roomId userId : string)
  (f : RoomParticipant -> RoomParticipant) (reg : Registry) :
  shape (JSMap.adjust (JSMap.adjust f userId) roomId reg) = shape reg.
Proof.
  induction reg as [|[r m] reg IH]; simpl; [reflexivity|].
  destruct (String.eqb r roomId); simpl.
  - now rewrite JSMapFacts.keys_adjust.
  - now rewrite IH.
Qed.

Lemma entry_rewritten_update (st : ServerState) (roomId userId : string)
  (f : RoomParticipant -> RoomParticipant) (p : RoomParticipant) :
  lookup roomId userId (roomParticipants st) = Some p ->
  entry_rewritten st
    (set_registry
       (JSMap.adjust (JSMap.adjust f userId) roomId (roomParticipants st)) st)
    roomId userId (f p).
Proof.
  intros Hp. unfold entry_rewritten. cbn. repeat split.
  - now rewrite lookup_update_same, Hp.
  - intros r u Hne. now apply lookup_update_other.
  - apply shape_update.
Qed.

(** * Who receives a room emit *)

Lemma sender_excluded (socks : list Socket.t) (roomId sid : string) :
  ~ In sid (recipients socks (ToRoomExcept roomId sid)).
Proof.
  simpl. rewrite in_map_iff. intros [s [Hid Hin]].
  apply filter_In in Hin. destruct Hin as [_ Hf].
  apply andb_true_iff in Hf. destruct Hf as [_ Hf].
  unfold is_socket in Hf. rewrite Hid, String.eqb_refl in Hf. discriminate.
Qed.

Lemma others_reached (socks : list Socket.t) (roomId sid : string)
  (s : Socket.t) :
  In s socks -> in_room roomId s = true -> Socket.id s <> sid ->
  In (Socket.id s) (recipients socks (ToRoomExcept roomId sid)).
Proof.
  intros Hin Hroom Hne. simpl. apply in_map. apply filter_In.
  split; [assumption|]. rewrite Hroom. simpl. apply negb_true_iff.
  now apply String.eqb_neq.
Qed.

Lemma room_reached (socks : list Socket.t) (roomId : string) (s : Socket.t) :
  In s socks -> in_room roomId s = true ->
  In (Socket.id s) (recipients socks (ToRoom roomId)).
Proof.
  intros Hin Hroom. simpl. apply in_map. apply filter_In. now split.
Qed.

(* ================================================================== *)
(** * Media toggles and host mute *)

(** C7: toggle-audio and toggle-video from a sender without an entry in the
    named room do nothing (no event of any kind, state unchanged).  With an
    entry [p], the entry afterwards has [odIsMuted] (resp. [odIsVideoOff])
    equal to the supplied boolean and its four other fields as in [p]; every
    other entry and the shape of the registry stay as they were, and the one
    event emitted carries the new flag to the connections of the room other
    than the sender. *)
Theorem toggle_media (st : ServerState) (socket : Socket.t) (roomId : string)
  (flag : bool) :
  let sid := Socket.id socket in
  let userId := Socket.userId socket in
  (lookup roomId userId (roomParticipants st) = None ->
   run_handler (on_toggle_audio socket roomId flag) st = (st, [])
   /\ run_handler (on_toggle_video socket roomId flag) st = (st, []))
  /\ (forall p,
        lookup roomId userId (roomParticipants st) = Some p ->
        (exists st',
            run_handler (on_toggle_audio socket roomId flag) st
            = (st', [broadcast (sockets st) (ToRoomExcept roomId sid)
                       (EvParticipantAudioChanged userId flag)])
            /\ entry_rewritten st st' roomId userId
                 {| odId := odId p; odName := odName p; odIsMuted := flag;
                    odIsVideoOff := odIsVideoOff p; odRole := odRole p |})
        /\ (exists st',
               run_handler (on_toggle_video socket roomId flag) st
               = (st', [broadcast (sockets st) (ToRoomExcept roomId sid)
                          (EvParticipantVideoChanged userId flag)])
               /\ entry_rewritten st st' roomId userId
                    {| odId := odId p; odName := odName p;
                       odIsMuted := odIsMuted p; odIsVideoOff := flag;
                       odRole := odRole p |}))
  /\ ~ In sid (recipients (sockets st) (ToRoomExcept roomId sid))
  /\ (forall s,
        In s (sockets st) -> in_room roomId s = true -> Socket.id s <> sid ->
        In (Socket.id s) (recipients (sockets st) (ToRoomExcept roomId sid))).
Proof.
  intros sid userId. repeat split.
  - apply absent_lookup in H. unfold_handler. cbn. fold userId.
    now rewrite H.
  - apply absent_lookup in H. unfold_handler. cbn. fold userId.
    now rewrite H.
  - assert (Hp : present roomId userId (roomParticipants st) = true)
      by (apply present_lookup; eauto).
    eexists. split.
    + unfold_handler. cbn. fold userId. rewrite Hp. cbn. reflexivity.
    + now apply (entry_rewritten_update st roomId userId (set_odIsMuted flag)).
  - assert (Hp : present roomId userId (roomParticipants st) = true)
      by (apply present_lookup; eauto).
    eexists. split.
    + unfold_handler. cbn. fold userId. rewrite Hp. cbn. reflexivity.
    + now apply (entry_rewritten_update st roomId userId
                   (set_odIsVideoOff flag)).
  - apply sender_excluded.
  - intros s. apply others_reached.
Qed.

(** C5: when the caller is the host of the room and the room holds an entry
    [p] of the target, host-mute-participant leaves that entry with
    [odIsMuted = true] and its four other fields as in [p], every other entry
    as it was; when the room holds no such entry the whole state stays as it
    was.  Either way the one event emitted is participant-muted-by-host,
    carrying the target id and the caller's name, to every connection of the
    room. *)
Theorem host_mute_participant (st : ServerState) (socket : Socket.t)
  (roomId targetUserId : string) (room : Room.t) :
  room_findUnique roomId (prisma st) = Some room ->
  Room.hostId room = Socket.userId socket ->
  exists st',
    run_handler (on_host_mute_participant socket roomId targetUserId) st
    = (st', [broadcast (sockets st) (ToRoom roomId)
               (EvParticipantMutedByHost targetUserId (Socket.userName socket))])
    /\ match lookup roomId targetUserId (roomParticipants st) with
       | Some p =>
           entry_rewritten st st' roomId targetUserId
             {| odId := odId p; odName := odName p; odIsMuted := true;
                odIsVideoOff := odIsVideoOff p; odRole := odRole p |}
       | None => st' = st
       end
    /\ (forall s,
          In s (sockets st) -> in_room roomId s = true ->
          In (Socket.id s) (recipients (sockets st) (ToRoom roomId))).
Proof.
  intros Hroom Hhost.
  destruct (lookup roomId targetUserId (roomParticipants st)) as [p|] eqn:Hp.
  - assert (Hin : present roomId targetUserId (roomParticipants st) = true)
      by (apply present_lookup; eauto).
    eexists. split; [|split].
    + unfold_handler. cbn. rewrite Hroom, (is_host_true _ _ Hhost). cbn.
      rewrite Hin. cbn. reflexivity.
    + now apply (entry_rewritten_update st roomId targetUserId
                   (set_odIsMuted true)).
    + intros s. apply room_reached.
  - apply absent_lookup in Hp.
    exists st. split; [|split].
    + unfold_handler. cbn. rewrite Hroom, (is_host_true _ _ Hhost). cbn.
      rewrite Hp. cbn. reflexivity.
    + reflexivity.
    + intros s. apply room_reached.
Qed.

(* ================================================================== *)
(** * Waiting-room approval *)

Lemma in_map_if {A : Type} (c : A -> bool) (f : A -> A) (l : list A) (x : A) :
  c x = false -> (In x (map (fun a => if c a then f a else a) l) <->
                  In x l \/ exists a, In a l /\ c a = true /\ x = f a).
Proof.
  intros Hx. rewrite in_map_iff. split.
  - intros [a [Ha Hin]]. destruct (c a) eqn:Hc.
    + right. exists a. auto.
    + left. now subst.
  - intros [Hin|[a [Hin [Hc ->]]]].
    + exists x. now rewrite Hx.
    + exists a. now rewrite Hc.
Qed.

Lemma same_key_w_set_status (userId roomId : string) (s : WaitingRoomStatus)
  (w : WaitingRoom.t) :
  same_key_w userId roomId (set_status s w) = same_key_w userId roomId w.
Proof. reflexivity. Qed.

(** C9, as the code has it by design: when the caller is the host of the
    room, the registry, the socket.io rooms and the Room and User tables are
    never touched.  If the store holds a WaitingRoom row for (user, room),
    that row's status is APPROVED afterwards and the other rows keep theirs;
    if moreover no Participant row for (user, room) exists yet, one GUEST
    participant row is appended and the one event emitted is
    waiting-room-approved with the user id, to the whole room.  If the store
    holds no WaitingRoom row for (user, room), the update throws before
    anything is written: the whole state stays as it was and the caller alone
    gets "Failed to approve participant".  (What happens on a Participant row
    that already exists is not part of this statement.) *)
Theorem approve_waiting_participant (st : ServerState) (socket : Socket.t)
  (env : Env) (roomId approvedId : string) (room : Room.t) :
  room_findUnique roomId (prisma st) = Some room ->
  Room.hostId room = Socket.userId socket ->
  let db := prisma st in
  let result :=
    run_handler (on_approve_waiting_participant socket env roomId approvedId) st in
  let db' := prisma (fst result) in
  (roomParticipants (fst result) = roomParticipants st
   /\ sockets (fst result) = sockets st
   /\ db_room db' = db_room db /\ db_user db' = db_user db)
  /\ (existsb (same_key_w approvedId roomId) (db_waitingRoom db) = true ->
      (forall w, In w (db_waitingRoom db') ->
         same_key_w approvedId roomId w = true ->
         WaitingRoom.status w = APPROVED)
      /\ (exists w, In w (db_waitingRoom db')
            /\ same_key_w approvedId roomId w = true)
      /\ (forall w, same_key_w approvedId roomId w = false ->
            (In w (db_waitingRoom db') <-> In w (db_waitingRoom db)))
      /\ (existsb (same_key_p approvedId roomId) (db_participant db) = false ->
          snd result
          = [broadcast (sockets st) (ToRoom roomId)
               (EvWaitingRoomApproved approvedId)]
          /\ db_participant db'
             = db_participant db ++
               [ {| Participant.role := GUEST;
                    Participant.joinedAt := new_date env;
                    Participant.leftAt := None;
                    Participant.userId := approvedId;
                    Participant.roomId := roomId |} ]))
  /\ (existsb (same_key_w approvedId roomId) (db_waitingRoom db) = false ->
      result = (st, [error_to socket "Failed to approve participant"])).
Proof.
  intros Hroom Hhost db result db'. subst result db' db.
  unfold_handler. cbn. rewrite Hroom, (is_host_true _ _ Hhost). cbn.
  unfold waitingRoom_update, participant_create.
  destruct (existsb (same_key_w approvedId roomId)
              (db_waitingRoom (prisma st))) eqn:Hw; cbn.
  - assert (Hrows :
      (forall w,
          In w (map (fun w0 => if same_key_w approvedId roomId w0
                               then set_status APPROVED w0 else w0)
                  (db_waitingRoom (prisma st))) ->
          same_key_w approvedId roomId w = true ->
          WaitingRoom.status w = APPROVED)
      /\ (exists w,
             In w (map (fun w0 => if same_key_w approvedId roomId w0
                                  then set_status APPROVED w0 else w0)
                     (db_waitingRoom (prisma st)))
             /\ same_key_w approvedId roomId w = true)
      /\ (forall w, same_key_w approvedId roomId w = false ->
            (In w (map (fun w0 => if same_key_w approvedId roomId w0
                                  then set_status APPROVED w0 else w0)
                     (db_waitingRoom (prisma st)))
             <-> In w (db_waitingRoom (prisma st))))).
    { split; [|split].
      - intros w Hin Hkey. apply in_map_iff in Hin.
        destruct Hin as [w0 [Hw0 _]].
        destruct (same_key_w approvedId roomId w0) eqn:Hk0; subst w;
          [reflexivity|congruence].
      - apply existsb_exists in Hw. destruct Hw as [w [Hin Hkey]].
        exists (set_status APPROVED w). split; [|assumption].
        apply in_map_iff. exists w. now rewrite Hkey.
      - intros w Hkey. rewrite in_map_if by assumption. split; [|tauto].
        intros [?|[a [_ [Ha ->]]]]; [assumption|].
        rewrite same_key_w_set_status in Hkey. congruence. }
    destruct Hrows as [Hall [Hex Hothers]].
    destruct (existsb (same_key_p approvedId roomId)
                (db_participant (prisma st))) eqn:Hp; cbn;
      (split; [repeat split|]); (split; [|discriminate]); intros _;
      (split; [exact Hall|]); (split; [exact Hex|]);
      (split; [exact Hothers|]).
    + discriminate.
    + intros _. split; reflexivity.
  - split; [repeat split|]. split; [discriminate|].
    intros _. now destruct st.
Qed.

(** On a Participant row that already exists for (user, room), for instance
    of somebody who left the room and asks to come back, the handler's
    [participant.create] breaks the unique index after the WaitingRoom row
    was set to APPROVED: no row is created and the caller gets the error.
    [POST /:id/join] takes such a user back through an upsert. *)
Lemma approve_on_existing_record (st : ServerState) (socket : Socket.t)
  (env : Env) (roomId approvedId : string) (room : Room.t) :
  room_findUnique roomId (prisma st) = Some room ->
  Room.hostId room = Socket.userId socket ->
  existsb (same_key_w approvedId roomId) (db_waitingRoom (prisma st)) = true ->
  existsb (same_key_p approvedId roomId) (db_participant (prisma st)) = true ->
  let result :=
    run_handler (on_approve_waiting_participant socket env roomId approvedId) st in
  snd result = [error_to socket "Failed to approve participant"]
  /\ db_participant (prisma (fst result)) = db_participant (prisma st).
Proof.
  intros Hroom Hhost Hw Hp. cbv zeta.
  unfold_handler. cbn. rewrite Hroom, (is_host_true _ _ Hhost). cbn.
  unfold waitingRoom_update, participant_create. rewrite Hw. cbn.
  rewrite Hp. cbn. split; reflexivity.
Qed.

(* ================================================================== *)
(** * Well-formedness of the registry is kept by every transition *)

Section Preservation.
Variable Q : Registry -> Prop.

Lemma preserves_ret {A : Type} (a : A) : preserves Q (ret a).
Proof. intros st H. exact H. Qed.

Lemma preserves_gets {A : Type} (f : ServerState -> A) : preserves Q (gets f).
Proof. intros st H. exact H. Qed.

Lemma preserves_emit (t : Target) (ev : ServerEvent) : preserves Q (emit t ev).
Proof. intros st H. exact H. Qed.

Lemma preserves_modify (f : ServerState -> ServerState) :
  (forall st, roomParticipants (f st) = roomParticipants st) ->
  preserves Q (modify f).
Proof. intros Hf st H. unfold state_of, modify. simpl. now rewrite Hf. Qed.

Lemma preserves_modify_registry (f : Registry -> Registry) :
  (forall reg, Q reg -> Q (f reg)) -> preserves Q (modify_registry f).
Proof. intros Hf st H. unfold state_of, modify_registry, modify. simpl. auto. Qed.

Lemma preserves_room_map (roomId : string) : preserves Q (room_map roomId).
Proof.
  intros st H. unfold state_of, room_map.
  now destruct (JSMap.get roomId (roomParticipants st)).
Qed.

Lemma preserves_prisma_write (w : DB -> option DB) :
  preserves Q (prisma_write w).
Proof.
  intros st H. unfold state_of, prisma_write. now destruct (w (prisma st)).
Qed.

Lemma preserves_bind {A B : Type} (m : Handler A) (f : A -> Handler B) :
  preserves Q m -> (forall a, preserves Q (f a)) -> preserves Q (bind m f).
Proof.
  intros Hm Hf st H. specialize (Hm st H). unfold state_of, bind in *.
  destruct (m st) as [[[a|] st1] out1]; simpl in *; [|assumption].
  specialize (Hf a st1 Hm). unfold state_of in Hf.
  now destruct (f a st1) as [[r st2] out2].
Qed.

Lemma preserves_try_catch (body handler : Handler unit) :
  preserves Q body -> preserves Q handler ->
  preserves Q (try_catch body handler).
Proof.
  intros Hb Hh st H. specialize (Hb st H). unfold state_of, try_catch in *.
  destruct (body st) as [[[a|] st1] out1]; simpl in *; [assumption|].
  specialize (Hh st1 Hb). unfold state_of in Hh.
  now destruct (handler st1) as [[r st2] out2].
Qed.

Lemma preserves_for_each {A : Type} (l : list A) (f : A -> Handler unit) :
  (forall a, preserves Q (f a)) -> preserves Q (for_each l f).
Proof.
  intros Hf. induction l as [|a l IH]; simpl.
  - apply preserves_ret.
  - apply preserves_bind; auto.
Qed.

End Preservation.

Lemma entries_set (userId : string) (p : RoomParticipant)
  (m : JSMap.t RoomParticipant) :
  odId p = userId -> JSMap.wf m /\ entry_keyed m ->
  JSMap.wf (JSMap.set userId p m) /\ entry_keyed (JSMap.set userId p m).
Proof.
  intros Hid [Hwf Hkey]. split; [now apply JSMapFacts.wf_set|].
  intros k q Hin. apply JSMapFacts.in_set in Hin.
  destruct Hin as [[= -> ->]|Hin]; auto.
Qed.

Lemma entries_delete (userId : string) (m : JSMap.t RoomParticipant) :
  JSMap.wf m /\ entry_keyed m ->
  JSMap.wf (JSMap.delete userId m) /\ entry_keyed (JSMap.delete userId m).
Proof.
  intros [Hwf Hkey]. split; [now apply JSMapFacts.wf_delete|].
  intros k q Hin. apply JSMapFacts.in_delete in Hin. now apply Hkey.
Qed.

Lemma entries_adjust (userId : string) (f : RoomParticipant -> RoomParticipant)
  (m : JSMap.t RoomParticipant) :
  (forall p, odId (f p) = odId p) -> JSMap.wf m /\ entry_keyed m ->
  JSMap.wf (JSMap.adjust f userId m) /\ entry_keyed (JSMap.adjust f userId m).
Proof.
  intros Hf [Hwf Hkey]. split; [now apply JSMapFacts.wf_adjust|].
  intros k q Hin. apply JSMapFacts.in_adjust in Hin.
  destruct Hin as [Hin|[v [Hin [= -> ->]]]]; [auto|].
  rewrite Hf. now apply Hkey.
Qed.

Lemma wf_registry_adjust (roomId : string)
  (f : JSMap.t RoomParticipant -> JSMap.t RoomParticipant) (reg : Registry) :
  (forall m, JSMap.wf m /\ entry_keyed m -> JSMap.wf (f m) /\ entry_keyed (f m)) ->
  wf_registry reg -> wf_registry (JSMap.adjust f roomId reg).
Proof.
  intros Hf [Hwf Hin]. split; [now apply JSMapFacts.wf_adjust|].
  intros r m H. apply JSMapFacts.in_adjust in H.
  destruct H as [H|[v [H [= -> ->]]]]; [eauto|]. apply Hf. eauto.
Qed.

Lemma wf_registry_set_empty (roomId : string) (reg : Registry) :
  wf_registry reg -> wf_registry (JSMap.set roomId JSMap.empty reg).
Proof.
  intros [Hwf Hin]. split; [now apply JSMapFacts.wf_set|].
  intros r m H. apply JSMapFacts.in_set in H.
  destruct H as [[= -> ->]|H]; [|eauto].
  split; [constructor|]. intros k p [].
Qed.

Lemma wf_registry_delete (roomId : string) (reg : Registry) :
  wf_registry reg -> wf_registry (JSMap.delete roomId reg).
Proof.
  intros [Hwf Hin]. split; [now apply JSMapFacts.wf_delete|].
  intros r m H. apply JSMapFacts.in_delete in H. apply (Hin r m). tauto.
Qed.

Ltac preserve :=
  repeat first
    [ apply preserves_try_catch
    | apply preserves_bind; [|intros ?]
    | apply preserves_for_each; intros ?
    | apply preserves_ret
    | apply preserves_gets
    | apply preserves_emit
    | apply preserves_room_map
    | apply preserves_prisma_write
    | apply preserves_modify; intros ?; reflexivity
    | apply preserves_modify_registry; intros ? ?
    | match goal with
      | |- preserves _ (match ?x with _ => _ end) => destruct x
      end ].

Lemma dispatch_keeps_wf (socket : Socket.t) (env : Env) (ev : ClientEvent) :
  preserves wf_registry (dispatch socket env ev).
Proof.
  destruct ev; cbn [dispatch];
    unfold on_join_room, on_leave_room, on_chat_message, on_toggle_audio,
      on_toggle_video, on_host_mute_participant, on_host_remove_participant,
      on_approve_waiting_participant, socket_error, update_entry,
      socket_join, socket_leave;
    preserve;
    try (apply wf_registry_set_empty; assumption);
    try (apply wf_registry_delete; assumption);
    try (apply wf_registry_adjust; [|assumption]; intros m Hm).
  - now apply entries_set.
  - now apply entries_delete.
  - now apply entries_adjust.
  - now apply entries_adjust.
  - now apply entries_adjust.
  - now apply entries_delete.
Qed.

Lemma disconnect_keeps_wf (socket : Socket.t) :
  preserves wf_registry (on_disconnect socket).
Proof.
  unfold on_disconnect, disconnect_room. preserve.
  - apply wf_registry_adjust; [|assumption]. intros m. apply entries_delete.
  - now apply wf_registry_delete.
Qed.

Lemma step_keeps_wf (st : ServerState) (i : Input) :
  wf_registry (roomParticipants st) ->
  wf_registry (roomParticipants (fst (step st i))).
Proof.
  intros H. destruct i as [sid userId|sid env ev|sid|db]; simpl.
  - now destruct (find_socket sid (sockets st)).
  - destruct (find_socket sid (sockets st)) as [socket|]; [|assumption].
    pose proof (dispatch_keeps_wf socket env ev st H) as Hd.
    unfold run_handler, state_of in *.
    now destruct (dispatch socket env ev st) as [[c st'] out].
  - destruct (find_socket sid (sockets st)) as [socket|]; [|assumption].
    pose proof (disconnect_keeps_wf socket
                  (set_sockets
                     (filter (fun s => negb (is_socket sid s)) (sockets st)) st)
                  H) as Hd.
    unfold run_handler, state_of in *.
    now destruct (on_disconnect socket _) as [[c st'] out].
  - assumption.
Qed.

Lemma reachable_wf (st : ServerState) :
  reachable st -> wf_registry (roomParticipants st).
Proof.
  induction 1 as [db|st i _ IH].
  - split; [constructor|]. intros r m [].
  - now apply step_keeps_wf.
Qed.

Lemma reachable_run (st : ServerState) (inputs : list Input) :
  reachable st -> reachable (run st inputs).
Proof.
  revert st. induction inputs as [|i inputs IH]; simpl; intros st H.
  - assumption.
  - apply IH. now constructor.
Qed.

(* ================================================================== *)
(** * Joining *)

Lemma count_by_odId (userId : string) (m : JSMap.t RoomParticipant) :
  entry_keyed m ->
  length (filter (fun p => String.eqb (odId p) userId) (JSMap.values m))
  = entries_of userId m.
Proof.
  unfold entries_of. induction m as [|[k p] m IH]; simpl; [reflexivity|].
  intros Hkey. rewrite (Hkey k p) by now left.
  assert (Hm : entry_keyed m) by (intros k' p' Hin; apply Hkey; now right).
  destruct (String.eqb k userId); simpl; now rewrite IH.
Qed.

(** C2: after a join-room that passes the three checks (the room exists, is
    active, and the store has a record of (user, room) with [leftAt] null,
    [participant] being the one the query returns first), the registry has
    the room exactly once, the room's map has the user exactly once, both by
    key and by [odId], whatever was there before, and that entry is unmuted,
    has [odIsVideoOff = !room.videoEnabled] and carries the role of the
    persisted record. *)
Theorem join_room_success (st : ServerState) (socket : Socket.t)
  (roomId : string) (room : Room.t) (participant : Participant.t)
  (others : list Participant.t) :
  wf_registry (roomParticipants st) ->
  room_findUnique roomId (prisma st) = Some room ->
  Room.isActive room = true ->
  room_participants roomId (Socket.userId socket) (prisma st)
  = participant :: others ->
  let userId := Socket.userId socket in
  let reg' := roomParticipants (fst (run_handler (on_join_room socket roomId) st)) in
  let entry :=
    {| odId := userId; odName := Socket.userName socket; odIsMuted := false;
       odIsVideoOff := negb (Room.videoEnabled room);
       odRole := Participant.role participant |} in
  exists m,
    JSMap.get roomId reg' = Some m
    /\ length (filter (fun e => String.eqb (fst e) roomId) reg') = 1
    /\ JSMap.get userId m = Some entry
    /\ entries_of userId m = 1
    /\ length (filter (fun p => String.eqb (odId p) userId) (JSMap.values m)) = 1.
Proof.
  intros Hwf Hroom Hact Hrec userId reg' entry.
  pose (reg1 := if JSMap.has roomId (roomParticipants st)
                then roomParticipants st
                else JSMap.set roomId JSMap.empty (roomParticipants st)).
  assert (Hwf1 : wf_registry reg1).
  { unfold reg1. destruct (JSMap.has roomId (roomParticipants st));
      [assumption|now apply wf_registry_set_empty]. }
  assert (Hget1 : exists m0, JSMap.get roomId reg1 = Some m0).
  { unfold reg1. destruct (JSMap.has roomId (roomParticipants st)) eqn:Hhas.
    - now apply JSMapFacts.has_true.
    - eexists. apply JSMapFacts.get_set_eq. }
  destruct Hget1 as [m0 Hget1].
  assert (Hreg' : reg' = JSMap.adjust (JSMap.set userId entry) roomId reg1).
  { subst reg'. unfold_handler. cbn. rewrite Hroom. cbn. rewrite Hact. cbn.
    rewrite Hrec. cbn.
    unfold reg1 in *.
    destruct (JSMap.has roomId (roomParticipants st)); cbn;
      rewrite Hget1; cbn; rewrite JSMapFacts.get_adjust_eq, Hget1; cbn;
      reflexivity. }
  destruct Hwf1 as [Hk1 Hin1].
  destruct (Hin1 roomId m0 (JSMapFacts.get_in _ _ _ Hget1)) as [Hwf0 Hkey0].
  destruct (entries_set userId entry m0 eq_refl (conj Hwf0 Hkey0))
    as [Hwfm Hkeym].
  assert (Hget' : JSMap.get roomId reg' = Some (JSMap.set userId entry m0)).
  { rewrite Hreg', JSMapFacts.get_adjust_eq, Hget1. reflexivity. }
  exists (JSMap.set userId entry m0). repeat split.
  - exact Hget'.
  - apply (JSMapFacts.count_key roomId (JSMap.set userId entry m0));
      [|exact Hget'].
    rewrite Hreg'. now apply JSMapFacts.wf_adjust.
  - apply JSMapFacts.get_set_eq.
  - apply (JSMapFacts.count_key userId entry); [assumption|].
    apply JSMapFacts.get_set_eq.
  - rewrite count_by_odId by assumption.
    apply (JSMapFacts.count_key userId entry); [assumption|].
    apply JSMapFacts.get_set_eq.
Qed.

(* ================================================================== *)
(** * Disconnect *)

#[local] Arguments JSMap.delete {V} k m : simpl never.

Lemma adjust_middle {V : Type} (f : V -> V) (k : string) (v : V)
  (done rest : JSMap.t V) :
  ~ In k (JSMap.keys done) ->
  JSMap.adjust f k (done ++ (k, v) :: rest) = done ++ (k, f v) :: rest.
Proof.
  induction done as [|[k0 v0] done IH]; simpl; intros Hk.
  - now rewrite String.eqb_refl.
  - destruct (String.eqb_spec k0 k) as [->|Hne]; [tauto|].
    rewrite IH; tauto.
Qed.

Lemma delete_middle {V : Type} (k : string) (v : V) (done rest : JSMap.t V) :
  ~ In k (JSMap.keys done) -> ~ In k (JSMap.keys rest) ->
  JSMap.delete k (done ++ (k, v) :: rest) = done ++ rest.
Proof.
  intros Hd Hr. unfold JSMap.delete. rewrite filter_app. simpl.
  rewrite String.eqb_refl. simpl.
  apply JSMapFacts.get_none_keys in Hd, Hr.
  apply JSMapFacts.delete_absent in Hd, Hr. unfold JSMap.delete in Hd, Hr.
  now rewrite Hd, Hr.
Qed.

Lemma keys_middle {V : Type} (k : string) (v : V) (done rest : JSMap.t V) :
  NoDup (JSMap.keys (done ++ (k, v) :: rest)) ->
  ~ In k (JSMap.keys done) /\ ~ In k (JSMap.keys rest)
  /\ NoDup (JSMap.keys (done ++ rest)).
Proof.
  unfold JSMap.keys. rewrite !map_app. simpl. intros H.
  apply NoDup_remove in H. destruct H as [Hnd Hin].
  rewrite in_app_iff in Hin. tauto.
Qed.

Lemma set_registry_same (st : ServerState) (reg : Registry) :
  roomParticipants st = reg -> set_registry reg st = st.
Proof. intros <-. now destruct st. Qed.

Lemma disconnect_loop (socket : Socket.t) (rest : Registry) :
  forall (done : Registry) (st : ServerState),
    roomParticipants st = done ++ rest ->
    NoDup (JSMap.keys (done ++ rest)) ->
    for_each rest (disconnect_room socket) st
    = (Normal tt,
       set_registry (done ++ sweep (Socket.userId socket) rest) st,
       map (fun e => left_room (sockets st) socket (fst e))
         (filter (fun e => JSMap.has (Socket.userId socket) (snd e)) rest)).
Proof.
  induction rest as [|[roomId participants] rest IH]; intros done st Hreg Hnd.
  - simpl. unfold ret. now rewrite set_registry_same.
  - destruct (keys_middle _ _ _ _ Hnd) as [Hd [Hr Hnd']].
    cbn [for_each sweep filter snd fst map].
    unfold bind at 1. unfold disconnect_room at 1.
    destruct (JSMap.has (Socket.userId socket) participants) eqn:Hhas.
    + unfold bind, modify_registry, modify, emit, ret. cbn.
      rewrite Hreg, adjust_middle by assumption.
      destruct (Nat.eqb (JSMap.size
                           (JSMap.delete (Socket.userId socket) participants)) 0)
        eqn:Hsize; cbn.
      * rewrite delete_middle by assumption.
        rewrite (IH done) by (try reflexivity; assumption). reflexivity.
      * rewrite (IH (done ++ [(roomId,
                               JSMap.delete (Socket.userId socket) participants)])).
        -- cbn. rewrite <- app_assoc. reflexivity.
        -- cbn. now rewrite <- app_assoc.
        -- rewrite <- app_assoc. cbn.
           unfold JSMap.keys in *. rewrite map_app in *. exact Hnd.
    + unfold ret. cbn.
      rewrite (IH (done ++ [(roomId, participants)]) st).
      * cbn. rewrite <- app_assoc. reflexivity.
      * now rewrite <- app_assoc.
      * now rewrite <- app_assoc.
Qed.

Lemma keys_sweep_incl (userId k : string) (reg : Registry) :
  In k (JSMap.keys (sweep userId reg)) -> In k (JSMap.keys reg).
Proof.
  induction reg as [|[r ps] reg IH]; simpl; [tauto|].
  destruct (JSMap.has userId ps);
    [destruct (Nat.eqb (JSMap.size (JSMap.delete userId ps)) 0)|];
    simpl; tauto.
Qed.

(** What a room's key holds after the sweep. *)
Lemma get_sweep (userId r : string) (reg : Registry) :
  JSMap.wf reg ->
  JSMap.get r (sweep userId reg)
  = match JSMap.get r reg with
    | Some m =>
        if JSMap.has userId m
        then if Nat.eqb (JSMap.size (JSMap.delete userId m)) 0
             then None
             else Some (JSMap.delete userId m)
        else Some m
    | None => None
    end.
Proof.
  unfold JSMap.wf. induction reg as [|[r0 ps] reg IH]; simpl; [reflexivity|].
  intros Hnd. inversion Hnd as [|? ? Hr0 Hnd']; subst.
  specialize (IH Hnd').
  destruct (String.eqb_spec r0 r) as [->|Hne].
  - destruct (JSMap.has userId ps);
      [destruct (Nat.eqb (JSMap.size (JSMap.delete userId ps)) 0)|];
      simpl; rewrite ?String.eqb_refl; try reflexivity.
    apply JSMapFacts.get_none_keys. intros Hin. apply Hr0.
    now apply keys_sweep_incl in Hin.
  - apply String.eqb_neq in Hne.
    destruct (JSMap.has userId ps);
      [destruct (Nat.eqb (JSMap.size (JSMap.delete userId ps)) 0)|];
      simpl; rewrite ?Hne; exact IH.
Qed.

Lemma lookup_sweep_user (userId r : string) (reg : Registry) :
  JSMap.wf reg -> lookup r userId (sweep userId reg) = None.
Proof.
  intros Hwf. unfold lookup. rewrite get_sweep by assumption.
  destruct (JSMap.get r reg) as [m|]; [|reflexivity].
  destruct (JSMap.has userId m) eqn:Hhas.
  - destruct (Nat.eqb (JSMap.size (JSMap.delete userId m)) 0); [reflexivity|].
    apply JSMapFacts.get_delete_eq.
  - now apply JSMapFacts.has_false.
Qed.

Lemma lookup_sweep_other (userId r u : string) (reg : Registry) :
  JSMap.wf reg -> u <> userId ->
  lookup r u (sweep userId reg) = lookup r u reg.
Proof.
  intros Hwf Hne. unfold lookup. rewrite get_sweep by assumption.
  destruct (JSMap.get r reg) as [m|]; [|reflexivity].
  destruct (JSMap.has userId m); [|reflexivity].
  rewrite <- (JSMapFacts.get_delete_ne userId u m) by congruence.
  destruct (Nat.eqb (JSMap.size (JSMap.delete userId m)) 0) eqn:Hsize;
    [|reflexivity].
  apply JSMapFacts.size_zero in Hsize. now rewrite Hsize.
Qed.

Lemma find_socket_id (sid : string) (socks : list Socket.t) (socket : Socket.t) :
  find_socket sid socks = Some socket -> Socket.id socket = sid.
Proof.
  intros H. apply find_some in H. destruct H as [_ H].
  now apply String.eqb_eq in H.
Qed.

(** What a disconnect does to the whole state. *)
Lemma disconnect_step (st : ServerState) (sid : string) (socket : Socket.t) :
  JSMap.wf (roomParticipants st) ->
  find_socket sid (sockets st) = Some socket ->
  let socks' := filter (fun s => negb (is_socket sid s)) (sockets st) in
  step st (Disconnect sid)
  = ({| roomParticipants := sweep (Socket.userId socket) (roomParticipants st);
        sockets := socks';
        prisma := prisma st |},
     map (fun e => left_room socks' socket (fst e))
       (filter (fun e => JSMap.has (Socket.userId socket) (snd e))
          (roomParticipants st))).
Proof.
  intros Hwf Hfind socks'. cbn [step]. rewrite Hfind.
  unfold run_handler, on_disconnect, bind, gets. fold socks'.
  cbn [roomParticipants set_sockets].
  rewrite (disconnect_loop socket (roomParticipants st) []
             (set_sockets socks' st) eq_refl Hwf).
  reflexivity.
Qed.

(** C4: a disconnect drops the connection and sweeps the whole registry:
    afterwards the session's user has no entry in any room, the entries of
    other users are as before, and for each room that held an entry of the
    user a participant-left event went to the connections still in that
    room, the room being dropped from the registry when that entry was its
    last and keeping its other entries when it was not.  Rooms without an
    entry of the user are untouched and cause no event. *)
Theorem disconnect_cleans_every_room (st : ServerState) (sid : string)
  (socket : Socket.t) :
  wf_registry (roomParticipants st) ->
  find_socket sid (sockets st) = Some socket ->
  let userId := Socket.userId socket in
  let reg := roomParticipants st in
  let st' := fst (step st (Disconnect sid)) in
  let out := snd (step st (Disconnect sid)) in
  let reg' := roomParticipants st' in
  sockets st' = filter (fun s => negb (is_socket sid s)) (sockets st)
  /\ (forall r, lookup r userId reg' = None)
  /\ (forall r u, u <> userId -> lookup r u reg' = lookup r u reg)
  /\ (forall r m,
        JSMap.get r reg = Some m -> JSMap.has userId m = true ->
        In (left_room (sockets st') socket r) out
        /\ (forall s, In s (sockets st) -> Socket.id s <> sid ->
              in_room r s = true ->
              In (Socket.id s)
                (em_recipients (left_room (sockets st') socket r)))
        /\ (JSMap.size (JSMap.delete userId m) = 0 -> JSMap.has r reg' = false)
        /\ (JSMap.size (JSMap.delete userId m) <> 0 ->
            JSMap.get r reg' = Some (JSMap.delete userId m)))
  /\ (forall r m,
        JSMap.get r reg = Some m -> JSMap.has userId m = false ->
        JSMap.get r reg' = Some m)
  /\ (forall e, In e out ->
        exists r, lookup r userId reg <> None
                  /\ e = left_room (sockets st') socket r).
Proof.
  intros [Hwf _] Hfind userId reg st' out reg'.
  subst st' out reg'. rewrite (disconnect_step st sid socket Hwf Hfind).
  cbn [fst snd roomParticipants sockets]. fold userId reg.
  pose proof (find_socket_id _ _ _ Hfind) as Hsid.
  split; [reflexivity|].
  split; [intros r; now apply lookup_sweep_user|].
  split; [intros r u Hne; now apply lookup_sweep_other|].
  split; [|split].
  - intros r m Hget Hhas. split; [|split; [|split]].
    + apply in_map_iff. exists (r, m). split; [reflexivity|].
      apply filter_In. split; [now apply JSMapFacts.get_in|assumption].
    + intros s Hin Hne Hroom. unfold left_room, broadcast. cbn [em_recipients].
      rewrite Hsid. apply others_reached; try assumption.
      apply filter_In. split; [assumption|].
      apply negb_true_iff. now apply String.eqb_neq.
    + intros Hsize. apply JSMapFacts.has_false.
      rewrite get_sweep by assumption. fold reg. rewrite Hget, Hhas, Hsize.
      reflexivity.
    + intros Hsize. rewrite get_sweep by assumption. fold reg.
      rewrite Hget, Hhas.
      destruct (JSMap.size (JSMap.delete userId m)); [congruence|reflexivity].
  - intros r m Hget Hhas. rewrite get_sweep by assumption. fold reg.
    now rewrite Hget, Hhas.
  - intros e Hin. apply in_map_iff in Hin. destruct Hin as [[r m] [<- Hin]].
    apply filter_In in Hin. destruct Hin as [Hin Hhas]. exists r. split.
    + unfold lookup. rewrite (JSMapFacts.in_get r m reg Hwf Hin).
      apply JSMapFacts.has_true in Hhas. destruct Hhas as [p Hp].
      simpl in Hp. simpl. rewrite Hp. discriminate.
    + reflexivity.
Qed.

(* ================================================================== *)
(** * Empty rooms *)

Lemma adjust_fixed {V : Type} (f : V -> V) (k : string) (v : V) (m : JSMap.t V) :
  JSMap.get k m = Some v -> f v = v -> JSMap.adjust f k m = m.
Proof.
  induction m as [|[k0 v0] m IH]; simpl; [discriminate|].
  destruct (String.eqb k0 k).
  - intros [= ->] ->. reflexivity.
  - intros Hget Hf. now rewrite IH.
Qed.

Lemma size_set_pos {V : Type} (k : string) (v : V) (m : JSMap.t V) :
  JSMap.size (JSMap.set k v m) > 0.
Proof.
  destruct m as [|[k0 v0] m]; simpl; [lia|].
  destruct (String.eqb k0 k); simpl; lia.
Qed.

Lemma size_adjust {V : Type} (f : V -> V) (k : string) (m : JSMap.t V) :
  JSMap.size (JSMap.adjust f k m) = JSMap.size m.
Proof.
  unfold JSMap.size. rewrite <- (length_map fst (JSMap.adjust f k m)).
  change (map fst (JSMap.adjust f k m)) with (JSMap.keys (JSMap.adjust f k m)).
  rewrite JSMapFacts.keys_adjust. apply length_map.
Qed.

(** Whatever the registry holds, leave-room emits exactly one event,
    participant-left to the rest of the room, and leaves the store alone. *)
Lemma leave_room_effects (st : ServerState) (socket : Socket.t)
  (roomId : string) :
  run_handler (on_leave_room socket roomId) st
  = ({| roomParticipants :=
          after_leave roomId (Socket.userId socket) (roomParticipants st);
        sockets :=
          map (fun s => if is_socket (Socket.id socket) s
                        then remove_room roomId s else s) (sockets st);
        prisma := prisma st |},
     [left_room
        (map (fun s => if is_socket (Socket.id socket) s
                       then remove_room roomId s else s) (sockets st))
        socket roomId]).
Proof.
  unfold_handler. unfold after_leave, JSMap.has. cbn.
  destruct (JSMap.get roomId (roomParticipants st)) as [m|] eqn:Hget; cbn;
    [|reflexivity].
  rewrite Hget. cbn. rewrite JSMapFacts.get_adjust_eq, Hget. cbn.
  now destruct (Nat.eqb (JSMap.size (JSMap.delete (Socket.userId socket) m)) 0).
Qed.

Lemma leave_room_registry (st : ServerState) (socket : Socket.t)
  (roomId : string) :
  roomParticipants (fst (run_handler (on_leave_room socket roomId) st))
  = after_leave roomId (Socket.userId socket) (roomParticipants st).
Proof. now rewrite leave_room_effects. Qed.

Lemma after_leave_no_empty (roomId userId : string) (reg : Registry) :
  no_empty_room reg -> no_empty_room (after_leave roomId userId reg).
Proof.
  intros Hne r m. unfold after_leave.
  destruct (JSMap.get roomId reg) as [m0|] eqn:Hget; [|apply Hne].
  destruct (Nat.eqb (JSMap.size (JSMap.delete userId m0)) 0) eqn:Hsize.
  - destruct (String.eqb_spec roomId r) as [->|Hr].
    + now rewrite JSMapFacts.get_delete_eq.
    + rewrite JSMapFacts.get_delete_ne, JSMapFacts.get_adjust_ne by assumption.
      apply Hne.
  - destruct (String.eqb_spec roomId r) as [->|Hr].
    + rewrite JSMapFacts.get_adjust_eq, Hget. intros [= <-].
      apply Nat.eqb_neq in Hsize. lia.
    + rewrite JSMapFacts.get_adjust_ne by assumption. apply Hne.
Qed.

Lemma join_room_no_empty (socket : Socket.t) (roomId : string) :
  preserves no_empty_room (on_join_room socket roomId).
Proof.
  intros st Hne. unfold state_of. unfold_handler. cbn.
  destruct (room_findUnique roomId (prisma st)) as [room|]; cbn;
    [|assumption].
  destruct (Room.isActive room); cbn; [|assumption].
  destruct (room_participants roomId (Socket.userId socket) (prisma st))
    as [|participant others]; cbn; [assumption|].
  assert (Hgoal : forall reg1 : Registry,
    (forall r, r <> roomId -> JSMap.get r reg1 = JSMap.get r (roomParticipants st)) ->
    forall entry,
    no_empty_room
      (JSMap.adjust (JSMap.set (Socket.userId socket) entry) roomId reg1)).
  { intros reg1 Hsame entry r m.
    destruct (String.eqb_spec roomId r) as [->|Hr].
    - rewrite JSMapFacts.get_adjust_eq.
      destruct (JSMap.get r reg1); simpl; [|discriminate].
      intros [= <-]. apply size_set_pos.
    - rewrite JSMapFacts.get_adjust_ne, Hsame by congruence. apply Hne. }
  destruct (JSMap.has roomId (roomParticipants st)) eqn:Hhas; cbn.
  - apply JSMapFacts.has_true in Hhas. destruct Hhas as [m0 Hm0].
    rewrite Hm0. cbn. rewrite JSMapFacts.get_adjust_eq, Hm0. cbn.
    now apply Hgoal.
  - rewrite JSMapFacts.get_set_eq. cbn.
    rewrite JSMapFacts.get_adjust_eq, JSMapFacts.get_set_eq. cbn.
    apply Hgoal. intros r Hr. apply JSMapFacts.get_set_ne. congruence.
Qed.

Lemma update_no_empty (roomId userId : string)
  (f : RoomParticipant -> RoomParticipant) (reg : Registry) :
  no_empty_room reg ->
  no_empty_room (JSMap.adjust (JSMap.adjust f userId) roomId reg).
Proof.
  intros Hne r m. destruct (String.eqb_spec roomId r) as [->|Hr].
  - rewrite JSMapFacts.get_adjust_eq.
    destruct (JSMap.get r reg) as [m0|] eqn:Hget; simpl; [|discriminate].
    intros [= <-]. rewrite size_adjust. now apply (Hne r).
  - rewrite JSMapFacts.get_adjust_ne by assumption. apply Hne.
Qed.

Lemma sweep_no_empty (userId : string) (reg : Registry) :
  JSMap.wf reg -> no_empty_room reg -> no_empty_room (sweep userId reg).
Proof.
  intros Hwf Hne r m. rewrite get_sweep by assumption.
  destruct (JSMap.get r reg) as [m0|] eqn:Hget; [|discriminate].
  destruct (JSMap.has userId m0).
  - destruct (Nat.eqb (JSMap.size (JSMap.delete userId m0)) 0) eqn:Hsize;
      [discriminate|].
    intros [= <-]. apply Nat.eqb_neq in Hsize. lia.
  - intros [= <-]. now apply (Hne r).
Qed.

(** Every transition other than a host-remove-participant command keeps the
    registry free of empty rooms. *)
Lemma step_keeps_no_empty_room (st : ServerState) (i : Input) :
  is_host_remove i = false ->
  wf_registry (roomParticipants st) ->
  no_empty_room (roomParticipants st) ->
  no_empty_room (roomParticipants (fst (step st i))).
Proof.
  intros Hi [Hwf _] Hne.
  destruct i as [sid userId|sid env ev|sid|db]; cbn [step].
  - now destruct (find_socket sid (sockets st)).
  - destruct (find_socket sid (sockets st)) as [socket|]; [|assumption].
    destruct ev; cbn [dispatch]; try discriminate.
    + pose proof (join_room_no_empty socket roomId st Hne) as H.
      unfold run_handler, state_of in *.
      now destruct (on_join_room socket roomId st) as [[c st'] out].
    + rewrite leave_room_registry. now apply after_leave_no_empty.
    + assert (H : preserves no_empty_room (on_chat_message socket env roomId message)).
      { unfold on_chat_message, socket_error. preserve. }
      specialize (H st Hne). unfold run_handler, state_of in *.
      now destruct (on_chat_message socket env roomId message st) as [[c st'] out].
    + assert (H : preserves no_empty_room (on_toggle_audio socket roomId isMuted)).
      { unfold on_toggle_audio, update_entry. preserve. now apply update_no_empty. }
      specialize (H st Hne). unfold run_handler, state_of in *.
      now destruct (on_toggle_audio socket roomId isMuted st) as [[c st'] out].
    + assert (H : preserves no_empty_room (on_toggle_video socket roomId isVideoOff)).
      { unfold on_toggle_video, update_entry. preserve. now apply update_no_empty. }
      specialize (H st Hne). unfold run_handler, state_of in *.
      now destruct (on_toggle_video socket roomId isVideoOff st) as [[c st'] out].
    + assert (H : preserves no_empty_room
                    (on_host_mute_participant socket roomId targetUserId)).
      { unfold on_host_mute_participant, update_entry, socket_error. preserve.
        now apply update_no_empty. }
      specialize (H st Hne). unfold run_handler, state_of in *.
      now destruct (on_host_mute_participant socket roomId targetUserId st)
        as [[c st'] out].
    + assert (H : preserves no_empty_room
                    (on_approve_waiting_participant socket env roomId userId)).
      { unfold on_approve_waiting_participant, socket_error. preserve. }
      specialize (H st Hne). unfold run_handler, state_of in *.
      now destruct (on_approve_waiting_participant socket env roomId userId st)
        as [[c st'] out].
  - destruct (find_socket sid (sockets st)) as [socket|] eqn:Hfind;
      [|assumption].
    pose proof (disconnect_step st sid socket Hwf Hfind) as Hstep.
    cbn [step] in Hstep. rewrite Hfind in Hstep. rewrite Hstep.
    cbn [fst roomParticipants]. now apply sweep_no_empty.
  - assumption.
Qed.

(** X27: over any run that contains no host-remove-participant command, a
    room id is a key of the registry exactly when its map has an entry. *)
Lemma run_without_host_remove (db : DB) (inputs : list Input) :
  forallb (fun i => negb (is_host_remove i)) inputs = true ->
  no_empty_room (roomParticipants (run (initial db) inputs)).
Proof.
  assert (Hgen : forall inputs st,
    reachable st -> no_empty_room (roomParticipants st) ->
    forallb (fun i => negb (is_host_remove i)) inputs = true ->
    no_empty_room (roomParticipants (run st inputs))).
  { clear inputs. induction inputs as [|i inputs IH]; simpl; intros st Hr Hne Hall.
    - assumption.
    - apply andb_true_iff in Hall. destruct Hall as [Hi Hall].
      apply negb_true_iff in Hi. apply IH; [now constructor| |assumption].
      apply step_keeps_no_empty_room; [assumption| |assumption].
      now apply reachable_wf. }
  apply Hgen; [constructor|].
  intros r m. discriminate.
Qed.

Lemma stale_room_reachable : reachable stale_room_state.
Proof. apply reachable_run. constructor. Qed.

(** C1 at its failing run: guest [G] joins room [R]; host [H], connected but
    not in the room, removes [G].  The state is reachable and the registry
    keeps the key [R] bound to a map with no entry. *)
Theorem host_remove_leaves_empty_room :
  reachable stale_room_state
  /\ roomParticipants stale_room_state = [("R", [])]
  /\ JSMap.has "R" (roomParticipants stale_room_state) = true
  /\ ~ no_empty_room (roomParticipants stale_room_state).
Proof.
  split; [exact stale_room_reachable|].
  split; [reflexivity|]. split; [reflexivity|].
  intros H. specialize (H "R" [] eq_refl). simpl in H. lia.
Qed.

(* ================================================================== *)
(** * Leaving a room one is not in *)

(** A leave-room for a room where the sender holds no entry, in a registry
    without empty rooms: no error, the registry and the store stay as they
    were, and participant-left still goes to the rest of the room. *)
Lemma leave_room_without_entry (st : ServerState) (socket : Socket.t)
  (roomId : string) :
  no_empty_room (roomParticipants st) ->
  lookup roomId (Socket.userId socket) (roomParticipants st) = None ->
  exists st',
    run_handler (on_leave_room socket roomId) st
    = (st', [left_room (sockets st') socket roomId])
    /\ roomParticipants st' = roomParticipants st
    /\ prisma st' = prisma st.
Proof.
  intros Hne Hnone.
  assert (Hreg : after_leave roomId (Socket.userId socket) (roomParticipants st)
                 = roomParticipants st).
  { unfold after_leave. unfold lookup in Hnone.
    destruct (JSMap.get roomId (roomParticipants st)) as [m|] eqn:Hget;
      [|reflexivity].
    rewrite (JSMapFacts.delete_absent _ _ Hnone).
    specialize (Hne roomId m Hget).
    destruct (Nat.eqb_spec (JSMap.size m) 0) as [Hz|_]; [lia|].
    apply (adjust_fixed _ _ m); [assumption|].
    now apply JSMapFacts.delete_absent. }
  exists (fst (run_handler (on_leave_room socket roomId) st)).
  split; [|split].
  - rewrite (leave_room_effects st socket roomId). reflexivity.
  - now rewrite leave_room_registry.
  - now rewrite (leave_room_effects st socket roomId).
Qed.

(** C10 at its failing run: in the reachable state where room [R] is a key
    with no entry, the host, who holds no entry in [R], sends leave-room for
    [R]; the handler deletes the key, so the registry is not left as it
    was.  No error is emitted and participant-left is broadcast. *)
Theorem leave_room_prunes_stale_room :
  let socket := demo_host [] in
  let result := step stale_room_state (Receive "sh" demo_env (LeaveRoom "R")) in
  reachable stale_room_state
  /\ find_socket "sh" (sockets stale_room_state) = Some socket
  /\ lookup "R" "H" (roomParticipants stale_room_state) = None
  /\ roomParticipants stale_room_state = [("R", [])]
  /\ roomParticipants (fst result) = []
  /\ roomParticipants (fst result) <> roomParticipants stale_room_state
  /\ snd result = [left_room (sockets (fst result)) socket "R"].
Proof.
  cbv zeta. split; [exact stale_room_reachable|].
  repeat split; try reflexivity. discriminate.
Qed.

(** C9 as stated fails: the caller is the host of [R], and approving [X],
    who has no WaitingRoom row, answers the host with an error and changes
    nothing: no row is set to APPROVED, no participant row is created and
    nothing is broadcast. *)
Lemma approve_without_waiting_row :
  let socket := demo_host [] in
  is_host (room_findUnique "R" (prisma lobby_state)) (Socket.userId socket) = true
  /\ find_socket "sh" (sockets lobby_state) = Some socket
  /\ existsb (same_key_w "X" "R") (db_waitingRoom (prisma lobby_state)) = false
  /\ step lobby_state (Receive "sh" demo_env (ApproveWaitingParticipant "R" "X"))
     = (lobby_state, [error_to socket "Failed to approve participant"]).
Proof. cbv zeta. repeat split; reflexivity. Qed.

(* ================================================================== *)
(** * The theorems at work on the demo store *)

Lemma lobby_reachable : reachable lobby_state.
Proof. apply reachable_run. constructor. Qed.

Lemma meeting_reachable : reachable meeting_state.
Proof. apply reachable_run. exact lobby_reachable. Qed.

Lemma join_room_success_witness :
  wf_registry (roomParticipants lobby_state)
  /\ exists m,
       JSMap.get "R"
         (roomParticipants
            (fst (run_handler (on_join_room (demo_guest []) "R") lobby_state)))
       = Some m
       /\ entries_of "G" m = 1
       /\ JSMap.get "G" m
          = Some {| odId := "G"; odName := "Gus"; odIsMuted := false;
                    odIsVideoOff := false; odRole := GUEST |}.
Proof.
  assert (Hwf : wf_registry (roomParticipants lobby_state))
    by exact (reachable_wf _ lobby_reachable).
  split; [exact Hwf|].
  destruct (join_room_success lobby_state (demo_guest []) "R" demo_room
              (Participant.mk GUEST 1 None "G" "R") []
              Hwf eq_refl eq_refl eq_refl)
    as [m [Hget [_ [Hentry [Hone _]]]]].
  exists m. split; [exact Hget|]. split; [exact Hone|exact Hentry].
Defined.

Lemma join_room_refusals_witness :
  room_findUnique "nowhere" (prisma lobby_state) = None
  /\ run_handler (on_join_room (demo_guest []) "nowhere") lobby_state
     = (lobby_state, [error_to (demo_guest []) "Room not found"]).
Proof.
  split; [reflexivity|].
  exact (proj1 (join_room_refusals lobby_state (demo_guest []) "nowhere")
           eq_refl).
Defined.

Lemma disconnect_cleans_every_room_witness :
  wf_registry (roomParticipants meeting_state)
  /\ find_socket "sg" (sockets meeting_state) = Some (demo_guest ["R"])
  /\ forall r,
       lookup r "G"
         (roomParticipants (fst (step meeting_state (Disconnect "sg"))))
       = None.
Proof.
  assert (Hwf : wf_registry (roomParticipants meeting_state))
    by exact (reachable_wf _ meeting_reachable).
  split; [exact Hwf|]. split; [reflexivity|].
  exact (proj1 (proj2 (disconnect_cleans_every_room meeting_state "sg"
                         (demo_guest ["R"]) Hwf eq_refl))).
Defined.

Lemma host_mute_participant_witness :
  room_findUnique "R" (prisma meeting_state) = Some demo_room
  /\ Room.hostId demo_room = Socket.userId (demo_host ["R"])
  /\ lookup "R" "G" (roomParticipants meeting_state)
     = Some {| odId := "G"; odName := "Gus"; odIsMuted := false;
               odIsVideoOff := false; odRole := GUEST |}
  /\ exists st',
       run_handler (on_host_mute_participant (demo_host ["R"]) "R" "G")
         meeting_state
       = (st', [broadcast (sockets meeting_state) (ToRoom "R")
                  (EvParticipantMutedByHost "G" "Hana")])
       /\ lookup "R" "G" (roomParticipants st')
          = Some {| odId := "G"; odName := "Gus"; odIsMuted := true;
                    odIsVideoOff := false; odRole := GUEST |}.
Proof.
  split; [reflexivity|]. split; [reflexivity|]. split; [reflexivity|].
  destruct (host_mute_participant meeting_state (demo_host ["R"]) "R" "G"
              demo_room eq_refl eq_refl) as [st' [Hrun [Hentry _]]].
  exists st'. split; [exact Hrun|]. exact (proj1 Hentry).
Defined.

Lemma host_remove_self_refused_witness :
  room_findUnique "R" (prisma meeting_state) = Some demo_room
  /\ Room.hostId demo_room = Socket.userId (demo_host ["R"])
  /\ run_handler
       (on_host_remove_participant (demo_host ["R"]) demo_env "R" "H")
       meeting_state
     = (meeting_state, [error_to (demo_host ["R"]) "Host cannot remove themselves"]).
Proof.
  split; [reflexivity|]. split; [reflexivity|].
  exact (host_remove_self_refused meeting_state (demo_host ["R"]) demo_env "R"
           demo_room eq_refl eq_refl).
Defined.

Lemma toggle_media_witness :
  lookup "R" "G" (roomParticipants lobby_state) = None
  /\ run_handler (on_toggle_audio (demo_guest []) "R" true) lobby_state
     = (lobby_state, [])
  /\ run_handler (on_toggle_video (demo_guest []) "R" true) lobby_state
     = (lobby_state, [])
  /\ lookup "R" "G" (roomParticipants meeting_state)
     = Some {| odId := "G"; odName := "Gus"; odIsMuted := false;
               odIsVideoOff := false; odRole := GUEST |}
  /\ (exists st',
        run_handler (on_toggle_audio (demo_guest ["R"]) "R" true) meeting_state
        = (st', [broadcast (sockets meeting_state) (ToRoomExcept "R" "sg")
                   (EvParticipantAudioChanged "G" true)])
        /\ lookup "R" "G" (roomParticipants st')
           = Some {| odId := "G"; odName := "Gus"; odIsMuted := true;
                     odIsVideoOff := false; odRole := GUEST |})
  /\ (exists st',
        run_handler (on_toggle_video (demo_guest ["R"]) "R" true) meeting_state
        = (st', [broadcast (sockets meeting_state) (ToRoomExcept "R" "sg")
                   (EvParticipantVideoChanged "G" true)])
        /\ lookup "R" "G" (roomParticipants st')
           = Some {| odId := "G"; odName := "Gus"; odIsMuted := false;
                     odIsVideoOff := true; odRole := GUEST |}).
Proof.
  split; [reflexivity|].
  destruct (proj1 (toggle_media lobby_state (demo_guest []) "R" true) eq_refl)
    as [Haudio Hvideo].
  split; [exact Haudio|]. split; [exact Hvideo|]. split; [reflexivity|].
  destruct (proj1 (proj2 (toggle_media meeting_state (demo_guest ["R"]) "R"
                            true))
              {| odId := "G"; odName := "Gus"; odIsMuted := false;
                 odIsVideoOff := false; odRole := GUEST |} eq_refl)
    as [[sa [Hra Hea]] [sv [Hrv Hev]]].
  split.
  - exists sa. split; [exact Hra|exact (proj1 Hea)].
  - exists sv. split; [exact Hrv|exact (proj1 Hev)].
Defined.

Lemma chat_blank_is_silent_witness :
  Forall (fun c => is_whitespace c = true) [32; 9; 160; 8232]%N
  /\ run_handler
       (on_chat_message (demo_guest ["R"]) demo_env "R" [32; 9; 160; 8232]%N)
       meeting_state
     = (meeting_state, []).
Proof.
  assert (Hblank : Forall (fun c => is_whitespace c = true) [32; 9; 160; 8232]%N)
    by (repeat constructor).
  split; [exact Hblank|].
  exact (chat_blank_is_silent meeting_state (demo_guest ["R"]) demo_env "R"
           _ Hblank).
Defined.

Lemma approve_waiting_participant_witness :
  let result :=
    run_handler (on_approve_waiting_participant (demo_host []) demo_env "R" "W")
      lobby_state in
  room_findUnique "R" (prisma lobby_state) = Some demo_room
  /\ Room.hostId demo_room = Socket.userId (demo_host [])
  /\ existsb (same_key_w "W" "R") (db_waitingRoom (prisma lobby_state)) = true
  /\ existsb (same_key_p "W" "R") (db_participant (prisma lobby_state)) = false
  /\ db_waitingRoom (prisma (fst result))
     = [WaitingRoom.mk APPROVED "W" "R"; WaitingRoom.mk PENDING "G" "R"]
  /\ (forall w, In w (db_waitingRoom (prisma (fst result))) ->
        same_key_w "W" "R" w = true -> WaitingRoom.status w = APPROVED)
  /\ snd result
     = [broadcast (sockets lobby_state) (ToRoom "R") (EvWaitingRoomApproved "W")]
  /\ db_participant (prisma (fst result))
     = db_participant (prisma lobby_state)
       ++ [Participant.mk GUEST 1001 None "W" "R"].
Proof.
  cbv zeta.
  split; [reflexivity|]. split; [reflexivity|].
  split; [reflexivity|]. split; [reflexivity|]. split; [reflexivity|].
  destruct (proj1 (proj2 (approve_waiting_participant lobby_state
                            (demo_host []) demo_env "R" "W" demo_room
                            eq_refl eq_refl)) eq_refl)
    as [Hall [_ [_ Hnew]]].
  split; [exact Hall|]. exact (Hnew eq_refl).
Defined.

(* ================================================================== *)
(** * Host-only commands from somebody else *)

Lemma is_host_false (room : option Room.t) (userId : string) :
  (forall r, room = Some r -> Room.hostId r <> userId) ->
  is_host room userId = false.
Proof.
  intros H. destruct room as [r|]; simpl; [|reflexivity].
  apply String.eqb_neq. now apply H.
Qed.

(** X1: when the store has no such room, or the room's [hostId] is not the
    caller, each of host-mute-participant, host-remove-participant and
    approve-waiting-participant answers the caller alone with its own "Only
    the host can ..." error and changes nothing: registry, socket.io rooms
    and store stay as they were, and nothing reaches the room. *)
Theorem host_commands_forbidden (st : ServerState) (socket : Socket.t)
  (env : Env) (roomId targetId : string) :
  (forall room, room_findUnique roomId (prisma st) = Some room ->
                Room.hostId room <> Socket.userId socket) ->
  run_handler (on_host_mute_participant socket roomId targetId) st
  = (st, [error_to socket "Only the host can mute participants"])
  /\ run_handler (on_host_remove_participant socket env roomId targetId) st
     = (st, [error_to socket "Only the host can remove participants"])
  /\ run_handler (on_approve_waiting_participant socket env roomId targetId) st
     = (st, [error_to socket "Only the host can approve participants"]).
Proof.
  intros Hnot. apply is_host_false in Hnot.
  repeat split; unfold_handler; cbn; now rewrite Hnot.
Qed.

(* ================================================================== *)
(** * Chat relay *)

Lemma trim_start_head (s : jsstring) (c : N) :
  hd_error (trim_start s) = Some c -> is_whitespace c = false.
Proof.
  induction s as [|x s IH]; simpl; [discriminate|].
  destruct (is_whitespace x) eqn:Hx; [assumption|].
  simpl. now intros [= <-].
Qed.

Lemma trim_start_keeps_last (l : jsstring) (c : N) :
  is_whitespace c = false -> trim_start (l ++ [c]) = trim_start l ++ [c].
Proof.
  intros Hc. induction l as [|x l IH]; simpl.
  - now rewrite Hc.
  - destruct (is_whitespace x); [assumption|reflexivity].
Qed.

Lemma trim_start_nonblank (s : jsstring) :
  Exists (fun c => is_whitespace c = false) s -> trim_start s <> [].
Proof.
  induction 1 as [c s Hc|c s _ IH]; simpl.
  - now rewrite Hc.
  - destruct (is_whitespace c); [assumption|discriminate].
Qed.

Lemma trim_shape (s : jsstring) :
  trim_start s = []
  \/ exists c t, trim_start s = c :: t /\ is_whitespace c = false
                 /\ trim s = c :: rev (trim_start (rev t)).
Proof.
  destruct (trim_start s) as [|c t] eqn:Ht; [now left|].
  right. exists c, t.
  assert (Hc : is_whitespace c = false)
    by (apply (trim_start_head s); now rewrite Ht).
  repeat split; [assumption|].
  unfold trim. rewrite Ht. simpl.
  rewrite (trim_start_keeps_last _ _ Hc), rev_app_distr. reflexivity.
Qed.

Lemma trim_nonblank (s : jsstring) :
  Exists (fun c => is_whitespace c = false) s -> trim s <> [].
Proof.
  intros H. apply trim_start_nonblank in H.
  destruct (trim_shape s) as [Hnil|[c [t [_ [_ Htrim]]]]]; [contradiction|].
  rewrite Htrim. discriminate.
Qed.

Lemma trim_edges (s : jsstring) (c : N) :
  hd_error (trim s) = Some c \/ hd_error (rev (trim s)) = Some c ->
  is_whitespace c = false.
Proof.
  intros [H|H].
  - destruct (trim_shape s) as [Hnil|[c0 [t [_ [Hc Htrim]]]]].
    + unfold trim in H. rewrite Hnil in H. discriminate.
    + rewrite Htrim in H. simpl in H. congruence.
  - unfold trim in H. rewrite rev_involutive in H.
    now apply trim_start_head in H.
Qed.

Lemma nonblank_not_empty (s : jsstring) :
  Exists (fun c => is_whitespace c = false) s -> is_empty s = false.
Proof. now destruct 1. Qed.

Lemma length_zero_false {A : Type} (l : list A) :
  l <> [] -> Nat.eqb (length l) 0 = false.
Proof. destruct l; [congruence|reflexivity]. Qed.

(** X2: a chat-message with at least one non-whitespace character, sent by a
    user who holds no entry in the named room, is answered with "You are not
    in this room" to the sender alone; nothing is relayed and the state
    stays as it was. *)
Theorem chat_not_in_room (st : ServerState) (socket : Socket.t) (env : Env)
  (roomId : string) (message : jsstring) :
  Exists (fun c => is_whitespace c = false) message ->
  lookup roomId (Socket.userId socket) (roomParticipants st) = None ->
  run_handler (on_chat_message socket env roomId message) st
  = (st, [error_to socket "You are not in this room"]).
Proof.
  intros Hmsg Hnone. apply absent_lookup in Hnone.
  unfold_handler.
  rewrite (nonblank_not_empty _ Hmsg),
    (length_zero_false _ (trim_nonblank _ Hmsg)).
  cbn. now rewrite Hnone.
Qed.

(** X3: a chat-message with at least one non-whitespace character from a
    user who holds an entry in the room is relayed as exactly one
    chat-message event to every connection of the room, the sender's
    included; it carries the sender's id and name and the trimmed text,
    which is not empty and neither starts nor ends with whitespace.  The
    state stays as it was. *)
Theorem chat_relayed (st : ServerState) (socket : Socket.t) (env : Env)
  (roomId : string) (message : jsstring) (p : RoomParticipant) :
  Exists (fun c => is_whitespace c = false) message ->
  lookup roomId (Socket.userId socket) (roomParticipants st) = Some p ->
  run_handler (on_chat_message socket env roomId message) st
  = (st, [broadcast (sockets st) (ToRoom roomId)
            (EvChatMessage
               {| ChatMessage.id := (date_now env, math_random env);
                  ChatMessage.userId := Socket.userId socket;
                  ChatMessage.userName := Socket.userName socket;
                  ChatMessage.message := trim message;
                  ChatMessage.timestamp := new_date env |})])
  /\ trim message <> []
  /\ (forall c, hd_error (trim message) = Some c
                \/ hd_error (rev (trim message)) = Some c ->
                is_whitespace c = false)
  /\ (forall s, In s (sockets st) -> in_room roomId s = true ->
                In (Socket.id s) (recipients (sockets st) (ToRoom roomId))).
Proof.
  intros Hmsg Hp.
  assert (Hin : present roomId (Socket.userId socket) (roomParticipants st) = true)
    by (apply present_lookup; eauto).
  split; [|split; [|split]].
  - unfold_handler.
    rewrite (nonblank_not_empty _ Hmsg),
      (length_zero_false _ (trim_nonblank _ Hmsg)).
    cbn. now rewrite Hin.
  - now apply trim_nonblank.
  - apply trim_edges.
  - intros s. apply room_reached.
Qed.

(* ================================================================== *)
(** * Joining and leaving, as whole-state effects *)

Lemma get_after_join (roomId userId : string) (entry : RoomParticipant)
  (reg : Registry) :
  JSMap.get roomId (after_join roomId userId entry reg)
  = Some (JSMap.set userId entry (room_entries roomId reg)).
Proof.
  unfold after_join, room_entries, JSMap.has.
  rewrite JSMapFacts.get_adjust_eq.
  destruct (JSMap.get roomId reg) as [m|] eqn:Hget.
  - now rewrite Hget.
  - now rewrite JSMapFacts.get_set_eq.
Qed.

Lemma get_after_join_other (roomId userId r : string) (entry : RoomParticipant)
  (reg : Registry) :
  roomId <> r ->
  JSMap.get r (after_join roomId userId entry reg) = JSMap.get r reg.
Proof.
  intros Hr. unfold after_join.
  rewrite JSMapFacts.get_adjust_ne by assumption.
  destruct (JSMap.has roomId reg); [reflexivity|].
  now apply JSMapFacts.get_set_ne.
Qed.

Lemma lookup_after_join_other (roomId userId r u : string)
  (entry : RoomParticipant) (reg : Registry) :
  (r, u) <> (roomId, userId) ->
  lookup r u (after_join roomId userId entry reg) = lookup r u reg.
Proof.
  intros Hne. unfold lookup.
  destruct (String.eqb_spec roomId r) as [<-|Hr].
  - rewrite get_after_join. unfold room_entries.
    rewrite JSMapFacts.get_set_ne by congruence.
    now destruct (JSMap.get roomId reg).
  - now rewrite get_after_join_other.
Qed.

Lemma join_room_outcome (st : ServerState) (socket : Socket.t)
  (roomId : string) :
  run_handler (on_join_room socket roomId) st = join_outcome st socket roomId.
Proof.
  unfold join_outcome. unfold_handler. cbn.
  destruct (room_findUnique roomId (prisma st)) as [room|]; cbn;
    [|reflexivity].
  destruct (Room.isActive room); cbn; [|reflexivity].
  destruct (room_participants roomId (Socket.userId socket) (prisma st))
    as [|participant others]; cbn; [reflexivity|].
  unfold after_join, room_entries, joined_sockets, join_events, joined_entry,
    broadcast, JSMap.has.
  destruct (JSMap.get roomId (roomParticipants st)) as [m|] eqn:Hget; cbn.
  - rewrite Hget. cbn. rewrite JSMapFacts.get_adjust_eq, Hget. cbn.
    reflexivity.
  - rewrite JSMapFacts.get_set_eq. cbn.
    rewrite JSMapFacts.get_adjust_eq, JSMapFacts.get_set_eq. cbn.
    reflexivity.
Qed.

Lemma in_room_add_room (roomId : string) (s : Socket.t) :
  in_room roomId (add_room roomId s) = true.
Proof.
  unfold add_room. destruct (in_room roomId s) eqn:H; [assumption|].
  unfold in_room. simpl. rewrite existsb_app. simpl.
  now rewrite String.eqb_refl, orb_true_r.
Qed.

Lemma in_room_remove_room (roomId : string) (s : Socket.t) :
  in_room roomId (remove_room roomId s) = false.
Proof.
  unfold in_room, remove_room. simpl.
  induction (Socket.rooms s) as [|r rs IH]; simpl; [reflexivity|].
  destruct (String.eqb roomId r) eqn:E; simpl; [assumption|].
  now rewrite E.
Qed.

(** X4: a join-room that passes its checks emits exactly two events, in this
    order: room-joined to the joiner alone, whose participant list is the
    room's map after the insert (so it holds the joiner's own entry and every
    entry the room already had), then participant-joined to the room without
    the joiner.  The joiner's connection is in the socket.io room afterwards;
    the entries of every other (room, user) and the store are as before. *)
Theorem join_room_announces (st : ServerState) (socket : Socket.t)
  (roomId : string) (room : Room.t) (participant : Participant.t)
  (others : list Participant.t) :
  room_findUnique roomId (prisma st) = Some room ->
  Room.isActive room = true ->
  room_participants roomId (Socket.userId socket) (prisma st)
  = participant :: others ->
  let sid := Socket.id socket in
  let userId := Socket.userId socket in
  let entry := joined_entry socket room participant in
  let result := run_handler (on_join_room socket roomId) st in
  let m := JSMap.set userId entry (room_entries roomId (roomParticipants st)) in
  snd result
  = join_events (sockets (fst result)) socket room roomId participant
      (JSMap.values m)
  /\ JSMap.get roomId (roomParticipants (fst result)) = Some m
  /\ In entry (JSMap.values m)
  /\ (forall u p, lookup roomId u (roomParticipants st) = Some p ->
                  u <> userId -> In p (JSMap.values m))
  /\ (forall r u, (r, u) <> (roomId, userId) ->
        lookup r u (roomParticipants (fst result))
        = lookup r u (roomParticipants st))
  /\ (forall s, In s (sockets (fst result)) -> is_socket sid s = true ->
                in_room roomId s = true)
  /\ ~ In sid (recipients (sockets (fst result)) (ToRoomExcept roomId sid))
  /\ prisma (fst result) = prisma st.
Proof.
  intros Hroom Hact Hrec sid userId entry result m. subst result.
  rewrite join_room_outcome. unfold join_outcome.
  rewrite Hroom, Hact, Hrec. cbn [fst snd roomParticipants sockets prisma].
  fold sid userId entry m.
  split; [reflexivity|]. split; [apply get_after_join|].
  split; [|split; [|split; [|split; [|split]]]].
  - change entry with (snd (userId, entry)). apply in_map.
    apply JSMapFacts.get_in. apply JSMapFacts.get_set_eq.
  - intros u p Hp Hu. change p with (snd (u, p)). apply in_map.
    apply JSMapFacts.get_in. subst m.
    rewrite JSMapFacts.get_set_ne by congruence.
    unfold lookup in Hp. unfold room_entries.
    now destruct (JSMap.get roomId (roomParticipants st)).
  - intros r u Hne. now apply lookup_after_join_other.
  - intros s Hin Hs. unfold joined_sockets in Hin. apply in_map_iff in Hin.
    destruct Hin as [s0 [<- _]].
    destruct (is_socket sid s0) eqn:Hs0; [apply in_room_add_room|].
    congruence.
  - apply sender_excluded.
  - reflexivity.
Qed.

Lemma set_set {V : Type} (k : string) (v : V) (m : JSMap.t V) :
  JSMap.set k v (JSMap.set k v m) = JSMap.set k v m.
Proof.
  induction m as [|[k0 v0] m IH]; simpl.
  - now rewrite String.eqb_refl.
  - destruct (String.eqb k0 k) eqn:E; simpl; rewrite E; [reflexivity|].
    now rewrite IH.
Qed.

Lemma adjust_adjust {V : Type} (f g : V -> V) (k : string) (m : JSMap.t V) :
  JSMap.adjust g k (JSMap.adjust f k m) = JSMap.adjust (fun v => g (f v)) k m.
Proof.
  induction m as [|[k0 v0] m IH]; simpl; [reflexivity|].
  destruct (String.eqb k0 k) eqn:E; simpl; rewrite E; [reflexivity|].
  now rewrite IH.
Qed.

Lemma adjust_ext {V : Type} (f g : V -> V) (k : string) (m : JSMap.t V) :
  (forall v, f v = g v) -> JSMap.adjust f k m = JSMap.adjust g k m.
Proof.
  intros H. induction m as [|[k0 v0] m IH]; simpl; [reflexivity|].
  destruct (String.eqb k0 k); [now rewrite H|now rewrite IH].
Qed.

Lemma after_join_twice (roomId userId : string) (entry : RoomParticipant)
  (reg : Registry) :
  after_join roomId userId entry (after_join roomId userId entry reg)
  = after_join roomId userId entry reg.
Proof.
  unfold after_join at 1.
  assert (Hhas : JSMap.has roomId (after_join roomId userId entry reg) = true).
  { apply JSMapFacts.has_true. eexists. apply get_after_join. }
  rewrite Hhas. unfold after_join. rewrite adjust_adjust.
  apply adjust_ext. intros m. apply set_set.
Qed.

(** X5: join-room is idempotent on the registry: sending it a second time
    right after the first, accepted or refused, leaves the registry exactly
    as the first left it, entry order included. *)
Theorem join_room_twice (st : ServerState) (socket : Socket.t)
  (roomId : string) :
  let st1 := fst (run_handler (on_join_room socket roomId) st) in
  roomParticipants (fst (run_handler (on_join_room socket roomId) st1))
  = roomParticipants st1.
Proof.
  cbv zeta. rewrite !join_room_outcome. unfold join_outcome at 2.
  destruct (room_findUnique roomId (prisma st)) as [room|] eqn:Hroom;
    cbn [fst].
  - destruct (Room.isActive room) eqn:Hact; cbn [fst].
    + destruct (room_participants roomId (Socket.userId socket) (prisma st))
        as [|participant others] eqn:Hrec; cbn [fst].
      * unfold join_outcome. now rewrite Hroom, Hact, Hrec.
      * unfold join_outcome. cbn [prisma roomParticipants].
        rewrite Hroom, Hact, Hrec. cbn [fst roomParticipants].
        apply after_join_twice.
    + unfold join_outcome. now rewrite Hroom, Hact.
  - unfold join_outcome. now rewrite Hroom.
Qed.

Lemma delete_set_absent {V : Type} (k : string) (v : V) (m : JSMap.t V) :
  JSMap.get k m = None -> JSMap.delete k (JSMap.set k v m) = m.
Proof.
  unfold JSMap.delete.
  induction m as [|[k0 v0] m IH]; simpl.
  - now rewrite String.eqb_refl.
  - destruct (String.eqb k0 k) eqn:E; [discriminate|].
    intros H. simpl. rewrite E. simpl. now rewrite IH.
Qed.

Lemma delete_adjust_same {V : Type} (f : V -> V) (k : string) (m : JSMap.t V) :
  JSMap.delete k (JSMap.adjust f k m) = JSMap.delete k m.
Proof.
  unfold JSMap.delete.
  induction m as [|[k0 v0] m IH]; simpl; [reflexivity|].
  destruct (String.eqb k0 k) eqn:E; simpl; rewrite E; simpl; [reflexivity|].
  now rewrite IH.
Qed.

Lemma leave_after_join (roomId userId : string) (entry : RoomParticipant)
  (reg : Registry) :
  no_empty_room reg -> lookup roomId userId reg = None ->
  after_leave roomId userId (after_join roomId userId entry reg) = reg.
Proof.
  intros Hne Hnone. unfold after_leave. rewrite get_after_join.
  unfold room_entries, after_join, JSMap.has, lookup in *.
  destruct (JSMap.get roomId reg) as [m|] eqn:Hget.
  - rewrite (delete_set_absent _ _ _ Hnone).
    specialize (Hne roomId m Hget).
    destruct (Nat.eqb_spec (JSMap.size m) 0) as [Hz|_]; [lia|].
    rewrite adjust_adjust. apply (adjust_fixed _ _ m); [assumption|].
    now apply delete_set_absent.
  - rewrite (delete_set_absent userId entry (@JSMap.empty RoomParticipant)
               eq_refl). simpl.
    rewrite !delete_adjust_same. now apply delete_set_absent.
Qed.

(** X6: for a user without an entry in the room, in a registry without empty
    rooms, a join-room that passes its checks followed by leave-room gives
    back the registry exactly as it was before the join: the room key
    created for a first participant is pruned again, and an existing room
    keeps its entries in their order. *)
Theorem join_then_leave (st : ServerState) (socket : Socket.t)
  (roomId : string) (room : Room.t) (participant : Participant.t)
  (others : list Participant.t) :
  room_findUnique roomId (prisma st) = Some room ->
  Room.isActive room = true ->
  room_participants roomId (Socket.userId socket) (prisma st)
  = participant :: others ->
  no_empty_room (roomParticipants st) ->
  lookup roomId (Socket.userId socket) (roomParticipants st) = None ->
  let st1 := fst (run_handler (on_join_room socket roomId) st) in
  let st2 := fst (run_handler (on_leave_room socket roomId) st1) in
  lookup roomId (Socket.userId socket) (roomParticipants st1)
  = Some (joined_entry socket room participant)
  /\ roomParticipants st2 = roomParticipants st.
Proof.
  intros Hroom Hact Hrec Hne Hnone st1 st2. subst st2 st1.
  rewrite leave_room_effects, join_room_outcome. unfold join_outcome.
  rewrite Hroom, Hact, Hrec. cbn [fst roomParticipants]. split.
  - unfold lookup. rewrite get_after_join. apply JSMapFacts.get_set_eq.
  - now apply leave_after_join.
Qed.

Lemma lookup_after_leave_same (roomId userId : string) (reg : Registry) :
  lookup roomId userId (after_leave roomId userId reg) = None.
Proof.
  unfold after_leave, lookup.
  destruct (JSMap.get roomId reg) as [m|] eqn:Hget; [|now rewrite Hget].
  destruct (Nat.eqb (JSMap.size (JSMap.delete userId m)) 0).
  - now rewrite JSMapFacts.get_delete_eq.
  - rewrite JSMapFacts.get_adjust_eq, Hget. simpl.
    apply JSMapFacts.get_delete_eq.
Qed.

Lemma lookup_after_leave_other (roomId userId r u : string) (reg : Registry) :
  (r, u) <> (roomId, userId) ->
  lookup r u (after_leave roomId userId reg) = lookup r u reg.
Proof.
  intros Hne. unfold after_leave, lookup.
  destruct (JSMap.get roomId reg) as [m|] eqn:Hget; [|reflexivity].
  destruct (String.eqb_spec roomId r) as [<-|Hr].
  - assert (Hu : userId <> u) by congruence. rewrite Hget.
    destruct (Nat.eqb (JSMap.size (JSMap.delete userId m)) 0) eqn:Hsize.
    + rewrite JSMapFacts.get_delete_eq.
      rewrite <- (JSMapFacts.get_delete_ne userId u m Hu).
      apply JSMapFacts.size_zero in Hsize. now rewrite Hsize.
    + rewrite JSMapFacts.get_adjust_eq, Hget. simpl.
      now apply JSMapFacts.get_delete_ne.
  - destruct (Nat.eqb (JSMap.size (JSMap.delete userId m)) 0).
    + now rewrite JSMapFacts.get_delete_ne, JSMapFacts.get_adjust_ne.
    + now rewrite JSMapFacts.get_adjust_ne.
Qed.

(** X7: whatever the state, leave-room leaves the sender without an entry in
    the named room and every other (room, user) entry as it was; the room
    key is dropped when the sender's entry was its last.  The sender's
    connection is out of the socket.io room, the one event emitted is
    participant-left to the connections still in the room (never the
    sender), and the store is not written. *)
Theorem leave_room_removes_presence (st : ServerState) (socket : Socket.t)
  (roomId : string) :
  let sid := Socket.id socket in
  let userId := Socket.userId socket in
  let result := run_handler (on_leave_room socket roomId) st in
  let reg' := roomParticipants (fst result) in
  lookup roomId userId reg' = None
  /\ (forall r u, (r, u) <> (roomId, userId) ->
        lookup r u reg' = lookup r u (roomParticipants st))
  /\ (forall m, JSMap.get roomId (roomParticipants st) = Some m ->
        JSMap.size (JSMap.delete userId m) = 0 ->
        JSMap.has roomId reg' = false)
  /\ (forall s, In s (sockets (fst result)) -> is_socket sid s = true ->
        in_room roomId s = false)
  /\ snd result = [left_room (sockets (fst result)) socket roomId]
  /\ ~ In sid (em_recipients (left_room (sockets (fst result)) socket roomId))
  /\ prisma (fst result) = prisma st.
Proof.
  intros sid userId result reg'. subst reg' result.
  rewrite leave_room_effects. cbn [fst snd roomParticipants sockets prisma].
  fold sid userId.
  split; [apply lookup_after_leave_same|].
  split; [intros r u Hne; now apply lookup_after_leave_other|].
  split; [|split; [|split; [reflexivity|split; [|reflexivity]]]].
  - intros m Hget Hsize. unfold after_leave. rewrite Hget, Hsize. simpl.
    apply JSMapFacts.has_false. apply JSMapFacts.get_delete_eq.
  - intros s Hin Hs. apply in_map_iff in Hin. destruct Hin as [s0 [<- _]].
    destruct (is_socket sid s0) eqn:Hs0; [apply in_room_remove_room|].
    congruence.
  - apply sender_excluded.
Qed.

(* ================================================================== *)
(** * Removal by the host *)

Lemma remove_room_twice (roomId : string) (s : Socket.t) :
  remove_room roomId (remove_room roomId s) = remove_room roomId s.
Proof.
  unfold remove_room, set_rooms. simpl. f_equal.
  induction (Socket.rooms s) as [|r rs IH]; simpl; [reflexivity|].
  destruct (String.eqb roomId r) eqn:E; simpl; [assumption|].
  rewrite E. simpl. now f_equal.
Qed.

Lemma evict_nobody (roomId : string) (socks : list Socket.t) :
  evict roomId [] socks = socks.
Proof. unfold evict. simpl. apply map_id. Qed.

Lemma evict_one_more (roomId sid : string) (ids : list string)
  (socks : list Socket.t) :
  evict roomId ids (left_sockets sid roomId socks)
  = evict roomId (sid :: ids) socks.
Proof.
  unfold evict, left_sockets. rewrite map_map. apply map_ext. intros s.
  unfold is_socket. simpl.
  destruct (String.eqb (Socket.id s) sid); simpl; [|reflexivity].
  destruct (existsb (String.eqb (Socket.id s)) ids);
    [apply remove_room_twice|reflexivity].
Qed.

Lemma set_sockets_same (st : ServerState) : set_sockets (sockets st) st = st.
Proof. now destruct st. Qed.

Lemma eviction_loop (roomId targetId removedBy : string) (l : list Socket.t) :
  forall st,
    for_each l
      (fun s =>
         if String.eqb (Socket.userId s) targetId
         then socket_leave (Socket.id s) roomId ;;
              emit (ToSocket (Socket.id s)) (EvYouWereRemoved roomId removedBy)
         else ret tt) st
    = (Normal tt,
       set_sockets
         (evict roomId
            (map Socket.id
               (filter (fun s => String.eqb (Socket.userId s) targetId) l))
            (sockets st)) st,
       map (you_were_removed roomId removedBy)
         (filter (fun s => String.eqb (Socket.userId s) targetId) l)).
Proof.
  induction l as [|s l IH]; intros st.
  - simpl. unfold ret. now rewrite evict_nobody, set_sockets_same.
  - cbn [for_each filter]. unfold bind at 1.
    destruct (String.eqb (Socket.userId s) targetId).
    + unfold bind, socket_leave, modify, emit. cbn [recipients].
      rewrite IH. cbn [sockets set_sockets map].
      fold (left_sockets (Socket.id s) roomId (sockets st)).
      rewrite evict_one_more. reflexivity.
    + unfold ret. now rewrite IH.
Qed.

Lemma host_remove_cases (st : ServerState) (socket : Socket.t) (env : Env)
  (roomId targetId : string) :
  run_handler (on_host_remove_participant socket env roomId targetId) st
  = if negb (is_host (room_findUnique roomId (prisma st)) (Socket.userId socket))
    then (st, [error_to socket "Only the host can remove participants"])
    else if String.eqb targetId (Socket.userId socket)
    then (st, [error_to socket "Host cannot remove themselves"])
    else remove_outcome st socket env roomId targetId.
Proof.
  unfold run_handler, on_host_remove_participant, try_catch.
  unfold bind at 1. unfold prisma_read at 1, gets at 1.
  destruct (is_host (room_findUnique roomId (prisma st)) (Socket.userId socket));
    cbn [negb]; [|reflexivity].
  destruct (String.eqb targetId (Socket.userId socket)); [reflexivity|].
  unfold bind at 1. unfold modify at 1.
  unfold bind at 1. unfold gets at 1.
  cbn [roomParticipants set_prisma].
  unfold bind at 1. unfold remove_outcome, after_remove.
  destruct (JSMap.has roomId (roomParticipants st));
    unfold modify_registry, modify, ret;
    unfold bind at 1; unfold emit at 1;
    unfold bind at 1; unfold gets at 1;
    rewrite eviction_loop; reflexivity.
Qed.

Lemma host_remove_outcome (st : ServerState) (socket : Socket.t) (env : Env)
  (roomId targetId : string) (room : Room.t) :
  room_findUnique roomId (prisma st) = Some room ->
  Room.hostId room = Socket.userId socket ->
  targetId <> Socket.userId socket ->
  run_handler (on_host_remove_participant socket env roomId targetId) st
  = remove_outcome st socket env roomId targetId.
Proof.
  intros Hroom Hhost Hother. apply String.eqb_neq in Hother.
  rewrite host_remove_cases, Hroom, (is_host_true _ _ Hhost), Hother.
  reflexivity.
Qed.

Lemma active_record_off (roomId userId : string) (now : Z) (p : Participant.t) :
  active_record roomId userId
    (if active_record roomId userId p then set_leftAt now p else p) = false.
Proof.
  destruct (active_record roomId userId p) eqn:H; [|assumption].
  unfold active_record. simpl. apply andb_false_r.
Qed.

Lemma active_record_key (roomId userId : string) (p : Participant.t) :
  active_record roomId userId p = true ->
  Participant.roomId p = roomId /\ Participant.userId p = userId.
Proof.
  unfold active_record. intros H.
  apply andb_true_iff in H. destruct H as [H _].
  apply andb_true_iff in H. destruct H as [Hr Hu].
  now apply String.eqb_eq in Hr, Hu.
Qed.

Lemma updateMany_clears (roomId userId : string) (now : Z) (db : DB) :
  room_participants roomId userId (participant_updateMany roomId userId now db)
  = [].
Proof.
  unfold room_participants, participant_updateMany. simpl.
  induction (db_participant db) as [|p ps IH]; simpl; [reflexivity|].
  now rewrite active_record_off.
Qed.

Lemma updateMany_others (roomId userId r u : string) (now : Z) (db : DB) :
  (r, u) <> (roomId, userId) ->
  room_participants r u (participant_updateMany roomId userId now db)
  = room_participants r u db.
Proof.
  intros Hne. unfold room_participants, participant_updateMany. simpl.
  induction (db_participant db) as [|p ps IH]; simpl; [reflexivity|].
  destruct (active_record roomId userId p) eqn:Hp.
  - apply active_record_key in Hp. destruct Hp as [Hr Hu].
    assert (Hoff : forall q, Participant.roomId q = roomId ->
                             Participant.userId q = userId ->
                             active_record r u q = false).
    { intros q Hqr Hqu. unfold active_record. rewrite Hqr, Hqu.
      destruct (String.eqb_spec roomId r) as [<-|_]; [|reflexivity].
      destruct (String.eqb_spec userId u) as [<-|_]; [congruence|reflexivity]. }
    rewrite (Hoff (set_leftAt now p)), (Hoff p) by assumption. exact IH.
  - now rewrite IH.
Qed.

Lemma lookup_after_remove_same (roomId targetId : string) (reg : Registry) :
  lookup roomId targetId (after_remove roomId targetId reg) = None.
Proof.
  unfold after_remove, lookup, JSMap.has.
  destruct (JSMap.get roomId reg) as [m|] eqn:Hget; [|now rewrite Hget].
  rewrite JSMapFacts.get_adjust_eq, Hget. simpl.
  apply JSMapFacts.get_delete_eq.
Qed.

Lemma lookup_after_remove_other (roomId targetId r u : string) (reg : Registry) :
  (r, u) <> (roomId, targetId) ->
  lookup r u (after_remove roomId targetId reg) = lookup r u reg.
Proof.
  intros Hne. unfold after_remove, lookup.
  destruct (JSMap.has roomId reg); [|reflexivity].
  destruct (String.eqb_spec roomId r) as [<-|Hr].
  - rewrite JSMapFacts.get_adjust_eq.
    destruct (JSMap.get roomId reg) as [m|]; simpl; [|reflexivity].
    apply JSMapFacts.get_delete_ne. congruence.
  - now rewrite JSMapFacts.get_adjust_ne.
Qed.

Lemma evicted_not_in_room (roomId userId : string) (socks : list Socket.t)
  (s : Socket.t) :
  In s (evict roomId (map Socket.id (sockets_of roomId userId socks)) socks) ->
  Socket.userId s = userId -> in_room roomId s = false.
Proof.
  unfold evict. intros Hin Hu. apply in_map_iff in Hin.
  destruct Hin as [s0 [Hs0 Hin0]].
  destruct (existsb (String.eqb (Socket.id s0))
              (map Socket.id (sockets_of roomId userId socks))) eqn:Hex.
  - subst s. apply in_room_remove_room.
  - subst s0. destruct (in_room roomId s) eqn:Hroom; [|reflexivity].
    exfalso. rewrite <- not_true_iff_false in Hex. apply Hex.
    apply existsb_exists. exists (Socket.id s). split.
    + apply in_map. unfold sockets_of. apply filter_In. split.
      * apply filter_In. now split.
      * now apply String.eqb_eq.
    + apply String.eqb_refl.
Qed.

(** X8: a host-remove-participant by the room's host on somebody else marks
    every record of (target, room) that had [leftAt] null as left, so none
    stays active, and touches the active records of no other (room, user);
    it leaves the target without an entry in the room and every other entry
    as it was.  It first sends participant-removed-by-host to the whole room
    as it stood, then one you-were-removed to each connection of the target
    in the room, in the order [fetchSockets] yields them, which the statement
    leaves open; afterwards no connection of the target is in the socket.io
    room. *)
Theorem host_remove_evicts (st : ServerState) (socket : Socket.t) (env : Env)
  (roomId targetId : string) (room : Room.t) :
  room_findUnique roomId (prisma st) = Some room ->
  Room.hostId room = Socket.userId socket ->
  targetId <> Socket.userId socket ->
  let result :=
    run_handler (on_host_remove_participant socket env roomId targetId) st in
  let st' := fst result in
  room_participants roomId targetId (prisma st') = []
  /\ (forall p, In p (db_participant (prisma st)) ->
        active_record roomId targetId p = true ->
        In (set_leftAt (new_date env) p) (db_participant (prisma st')))
  /\ (forall r u, (r, u) <> (roomId, targetId) ->
        room_participants r u (prisma st') = room_participants r u (prisma st))
  /\ lookup roomId targetId (roomParticipants st') = None
  /\ (forall r u, (r, u) <> (roomId, targetId) ->
        lookup r u (roomParticipants st') = lookup r u (roomParticipants st))
  /\ (exists rest,
        snd result
        = broadcast (sockets st) (ToRoom roomId)
            (EvParticipantRemovedByHost targetId (Socket.userName socket))
          :: rest
        /\ Permutation rest
             (map (you_were_removed roomId (Socket.userName socket))
                (sockets_of roomId targetId (sockets st))))
  /\ (forall s, In s (sockets st) -> Socket.userId s = targetId ->
        in_room roomId s = true ->
        In (Socket.id s)
          (recipients (sockets st) (ToRoom roomId))
        /\ In (you_were_removed roomId (Socket.userName socket) s) (snd result))
  /\ (forall s, In s (sockets st') -> Socket.userId s = targetId ->
        in_room roomId s = false).
Proof.
  intros Hroom Hhost Hother result st'. subst st' result.
  rewrite (host_remove_outcome _ _ _ _ _ _ Hroom Hhost Hother).
  unfold remove_outcome. cbn [fst snd roomParticipants sockets prisma].
  split; [apply updateMany_clears|].
  split.
  { intros p Hin Hact. unfold participant_updateMany. simpl.
    apply in_map_iff. exists p. now rewrite Hact. }
  split; [intros r u Hne; now apply updateMany_others|].
  split; [apply lookup_after_remove_same|].
  split; [intros r u Hne; now apply lookup_after_remove_other|].
  split; [eexists; split; [reflexivity|apply Permutation_refl]|]. split.
  - intros s Hin Hu Hr. split; [now apply room_reached|].
    right. apply in_map. unfold sockets_of. apply filter_In. split.
    + apply filter_In. now split.
    + now apply String.eqb_eq.
  - intros s. apply evicted_not_in_room.
Qed.

(** X9: once the host has removed a participant, a join-room for that room
    from any connection of the removed user is refused with "You are not a
    participant in this room" while the room is active, and changes
    nothing. *)
Theorem removed_cannot_rejoin (st : ServerState) (socket target : Socket.t)
  (env : Env) (roomId : string) (room : Room.t) :
  room_findUnique roomId (prisma st) = Some room ->
  Room.hostId room = Socket.userId socket ->
  Socket.userId target <> Socket.userId socket ->
  Room.isActive room = true ->
  let st' :=
    fst (run_handler
           (on_host_remove_participant socket env roomId (Socket.userId target))
           st) in
  run_handler (on_join_room target roomId) st'
  = (st', [error_to target "You are not a participant in this room"]).
Proof.
  intros Hroom Hhost Hother Hact st'. subst st'.
  rewrite (host_remove_outcome _ _ _ _ _ _ Hroom Hhost Hother).
  rewrite join_room_outcome. unfold join_outcome, remove_outcome.
  cbn [fst prisma].
  assert (Hsame : room_findUnique roomId
                    (participant_updateMany roomId (Socket.userId target)
                       (new_date env) (prisma st)) = Some room)
    by exact Hroom.
  now rewrite Hsame, Hact, updateMany_clears.
Qed.

(* ================================================================== *)
(** * Approval, then joining *)

Lemma approve_outcome (st : ServerState) (socket : Socket.t) (env : Env)
  (roomId approvedId : string) :
  run_handler (on_approve_waiting_participant socket env roomId approvedId) st
  = if negb (is_host (room_findUnique roomId (prisma st)) (Socket.userId socket))
    then (st, [error_to socket "Only the host can approve participants"])
    else
      match waitingRoom_update approvedId roomId APPROVED (prisma st) with
      | None => (st, [error_to socket "Failed to approve participant"])
      | Some db1 =>
          match participant_create approvedId roomId GUEST (new_date env) db1 with
          | None =>
              (set_prisma db1 st,
               [error_to socket "Failed to approve participant"])
          | Some db2 =>
              (set_prisma db2 st,
               [broadcast (sockets st) (ToRoom roomId)
                  (EvWaitingRoomApproved approvedId)])
          end
      end.
Proof.
  unfold_handler. cbn.
  destruct (is_host (room_findUnique roomId (prisma st)) (Socket.userId socket));
    cbn; [|reflexivity].
  destruct (waitingRoom_update approvedId roomId APPROVED (prisma st))
    as [db1|]; cbn; [|reflexivity].
  destruct (participant_create approvedId roomId GUEST (new_date env) db1)
    as [db2|]; cbn; reflexivity.
Qed.

Lemma approve_accepted (st : ServerState) (socket : Socket.t) (env : Env)
  (roomId approvedId : string) (room : Room.t) :
  room_findUnique roomId (prisma st) = Some room ->
  Room.hostId room = Socket.userId socket ->
  existsb (same_key_w approvedId roomId) (db_waitingRoom (prisma st)) = true ->
  existsb (same_key_p approvedId roomId) (db_participant (prisma st)) = false ->
  run_handler (on_approve_waiting_participant socket env roomId approvedId) st
  = (set_prisma (approved_db env roomId approvedId (prisma st)) st,
     [broadcast (sockets st) (ToRoom roomId) (EvWaitingRoomApproved approvedId)]).
Proof.
  intros Hroom Hhost Hw Hp. rewrite approve_outcome.
  rewrite Hroom, (is_host_true _ _ Hhost). cbn [negb].
  unfold waitingRoom_update. rewrite Hw.
  unfold participant_create. cbn [db_participant set_waitingRooms].
  now rewrite Hp.
Qed.

Lemma no_record_no_active (roomId userId : string) (ps : list Participant.t) :
  existsb (same_key_p userId roomId) ps = false ->
  filter (active_record roomId userId) ps = [].
Proof.
  induction ps as [|p ps IH]; simpl; [reflexivity|].
  intros H. apply orb_false_iff in H. destruct H as [Hp Hps].
  unfold active_record. unfold same_key_p in Hp.
  rewrite andb_comm in Hp. rewrite Hp. simpl. now apply IH.
Qed.

Lemma approved_db_record (env : Env) (roomId approvedId : string) (db : DB) :
  existsb (same_key_p approvedId roomId) (db_participant db) = false ->
  room_participants roomId approvedId (approved_db env roomId approvedId db)
  = [approved_record env roomId approvedId].
Proof.
  intros Hp. unfold room_participants, approved_db. simpl.
  rewrite filter_app, (no_record_no_active _ _ _ Hp). simpl.
  unfold active_record. simpl. now rewrite !String.eqb_refl.
Qed.

(** X10: approval is what opens the room to a waiting user.  With the room
    active, a WaitingRoom row for (user, room) and no Participant row yet, a
    join-room from that user is refused with "You are not a participant in
    this room" before the host's approve-waiting-participant, and after it
    the same join-room is accepted: the user then holds an unmuted entry in
    the room with role GUEST. *)
Theorem approved_user_can_join (st : ServerState) (socket joiner : Socket.t)
  (env : Env) (roomId : string) (room : Room.t) :
  let approvedId := Socket.userId joiner in
  room_findUnique roomId (prisma st) = Some room ->
  Room.hostId room = Socket.userId socket ->
  Room.isActive room = true ->
  existsb (same_key_w approvedId roomId) (db_waitingRoom (prisma st)) = true ->
  existsb (same_key_p approvedId roomId) (db_participant (prisma st)) = false ->
  let st1 :=
    fst (run_handler
           (on_approve_waiting_participant socket env roomId approvedId) st) in
  let st2 := fst (run_handler (on_join_room joiner roomId) st1) in
  run_handler (on_join_room joiner roomId) st
  = (st, [error_to joiner "You are not a participant in this room"])
  /\ lookup roomId approvedId (roomParticipants st1) = lookup roomId approvedId (roomParticipants st)
  /\ lookup roomId approvedId (roomParticipants st2)
     = Some {| odId := approvedId;
               odName := Socket.userName joiner;
               odIsMuted := false;
               odIsVideoOff := negb (Room.videoEnabled room);
               odRole := GUEST |}.
Proof.
  intros approvedId Hroom Hhost Hact Hw Hp st1 st2. subst st2 st1.
  rewrite (approve_accepted _ _ _ _ _ _ Hroom Hhost Hw Hp).
  rewrite !join_room_outcome. unfold join_outcome.
  cbn [fst prisma set_prisma roomParticipants].
  assert (Hroom' : room_findUnique roomId
                     (approved_db env roomId approvedId (prisma st)) = Some room)
    by exact Hroom.
  rewrite Hroom, Hroom', Hact.
  unfold room_participants at 1. fold approvedId.
  rewrite (no_record_no_active _ _ _ Hp).
  rewrite (approved_db_record env roomId approvedId _ Hp).
  split; [reflexivity|]. split; [reflexivity|].
  cbn [fst roomParticipants]. unfold lookup. rewrite get_after_join.
  apply JSMapFacts.get_set_eq.
Qed.

(* ================================================================== *)
(** * Properties of every reachable state and every transition *)

(** X11: in every reachable state each presence entry is stored under its
    own user id: the entry found for (room, user) has [odId] equal to that
    user. *)
Theorem entries_stored_under_own_id (st : ServerState) (r u : string)
  (p : RoomParticipant) :
  reachable st ->
  lookup r u (roomParticipants st) = Some p ->
  odId p = u.
Proof.
  intros Hreach Hp. destruct (reachable_wf st Hreach) as [_ Hin].
  unfold lookup in Hp.
  destruct (JSMap.get r (roomParticipants st)) as [m|] eqn:Hget;
    [|discriminate].
  destruct (Hin r m (JSMapFacts.get_in _ _ _ Hget)) as [_ Hkey].
  apply Hkey. now apply JSMapFacts.get_in.
Qed.

Lemma for_each_state {A : Type} (P : ServerState -> Prop)
  (f : A -> Handler unit) (l : list A) :
  (forall a st, P st -> P (state_of (f a st))) ->
  forall st, P st -> P (state_of (for_each l f st)).
Proof.
  intros Hf. induction l as [|a l IH]; intros st H; simpl; [exact H|].
  unfold bind, state_of in *. specialize (Hf a st H).
  destruct (f a st) as [[[[]|] st1] out1]; simpl in *; [|exact Hf].
  specialize (IH st1 Hf).
  now destruct (for_each l f st1) as [[r st2] out2].
Qed.

Lemma for_each_out {A : Type} (P : Emission -> Prop)
  (f : A -> Handler unit) (l : list A) :
  (forall a st, Forall P (snd (f a st))) ->
  forall st, Forall P (snd (for_each l f st)).
Proof.
  intros Hf. induction l as [|a l IH]; intros st; simpl; [constructor|].
  unfold bind. specialize (Hf a st).
  destruct (f a st) as [[[[]|] st1] out1]; simpl in *; [|exact Hf].
  specialize (IH st1).
  destruct (for_each l f st1) as [[r st2] out2]. simpl in *.
  apply Forall_app. now split.
Qed.

Lemma disconnect_room_store (socket : Socket.t)
  (entry : string * JSMap.t RoomParticipant) (db : DB) (st : ServerState) :
  prisma st = db -> prisma (state_of (disconnect_room socket entry st)) = db.
Proof.
  intros H. destruct entry as [r m]. unfold disconnect_room, state_of.
  destruct (JSMap.has (Socket.userId socket) m); [|exact H].
  unfold_handler. cbn.
  now destruct (Nat.eqb (JSMap.size (JSMap.delete (Socket.userId socket) m)) 0).
Qed.

(** X12: only host-remove-participant and approve-waiting-participant ever
    write the store.  A connection, a disconnect, and every other client
    event (join-room, leave-room, chat-message, both toggles,
    host-mute-participant), accepted or refused, leave the store exactly as
    it was; in particular leaving or disconnecting never sets [leftAt]. *)
Theorem presence_never_writes_store (st : ServerState) (i : Input) :
  touches_store i = false ->
  prisma (fst (step st i)) = prisma st.
Proof.
  intros Hi. destruct i as [sid userId|sid env ev|sid|db]; cbn [step].
  - now destruct (find_socket sid (sockets st)).
  - destruct (find_socket sid (sockets st)) as [socket|]; [|reflexivity].
    destruct ev; cbn [dispatch]; try discriminate.
    + rewrite join_room_outcome. unfold join_outcome.
      destruct (room_findUnique roomId (prisma st)) as [room|]; [|reflexivity].
      destruct (Room.isActive room); [|reflexivity].
      now destruct (room_participants roomId (Socket.userId socket) (prisma st)).
    + now rewrite leave_room_effects.
    + unfold_handler. cbn.
      destruct (is_empty message || Nat.eqb (length (trim message)) 0);
        cbn; [reflexivity|].
      now destruct (present roomId (Socket.userId socket) (roomParticipants st)).
    + unfold_handler. cbn.
      now destruct (present roomId (Socket.userId socket) (roomParticipants st)).
    + unfold_handler. cbn.
      now destruct (present roomId (Socket.userId socket) (roomParticipants st)).
    + unfold_handler. cbn.
      destruct (is_host (room_findUnique roomId (prisma st))
                  (Socket.userId socket)); cbn; [|reflexivity].
      now destruct (present roomId targetUserId (roomParticipants st)).
  - destruct (find_socket sid (sockets st)) as [socket|]; [|reflexivity].
    unfold run_handler, on_disconnect, bind, gets.
    pose proof (for_each_state (fun s => prisma s = prisma st)
                  (disconnect_room socket) (roomParticipants st)
                  (fun a s => disconnect_room_store socket a (prisma st) s)
                  (set_sockets
                     (filter (fun s => negb (is_socket sid s)) (sockets st)) st)
                  eq_refl) as H.
    unfold state_of in H. cbn [roomParticipants set_sockets].
    now destruct (for_each _ _ _) as [[c st'] out].
  - discriminate.
Qed.

(* ================================================================== *)
(** * What is emitted, and to whom *)

Ltac each_emission :=
  repeat first [apply Forall_nil | apply Forall_cons].

Lemma error_to_private (socket : Socket.t) (sid message : string) :
  Socket.id socket = sid -> error_is_private sid (error_to socket message).
Proof. intros <-. unfold error_is_private, error_to. simpl. auto. Qed.

Lemma disconnect_room_no_error (socket : Socket.t) (sid : string)
  (entry : string * JSMap.t RoomParticipant) (st : ServerState) :
  Forall (error_is_private sid) (snd (disconnect_room socket entry st)).
Proof.
  destruct entry as [r m]. unfold disconnect_room.
  destruct (JSMap.has (Socket.userId socket) m); [|constructor].
  unfold_handler. cbn.
  destruct (Nat.eqb (JSMap.size (JSMap.delete (Socket.userId socket) m)) 0);
    cbn; repeat constructor.
Qed.

Lemma disconnect_room_silent (socket : Socket.t)
  (entry : string * JSMap.t RoomParticipant) (st : ServerState) :
  Forall (fun e => forall message, em_event e <> EvError message)
    (snd (disconnect_room socket entry st)).
Proof.
  destruct entry as [r m]. unfold disconnect_room.
  destruct (JSMap.has (Socket.userId socket) m); [|constructor].
  unfold_handler. cbn.
  destruct (Nat.eqb (JSMap.size (JSMap.delete (Socket.userId socket) m)) 0);
    cbn; each_emission; intros message; discriminate.
Qed.

(** X13: an error event is never broadcast.  Whatever the input and the
    state, every error event the server emits has the connection the input
    came from as its only target and only recipient; and a disconnect, of
    any connection in any state, emits no error event at all. *)
Theorem errors_only_to_caller (st : ServerState) (i : Input) (closing : string) :
  Forall (error_is_private (caller_of i)) (snd (step st i))
  /\ Forall (fun e => forall message, em_event e <> EvError message)
       (snd (step st (Disconnect closing))).
Proof.
  split.
  2:{ cbn [step].
      destruct (find_socket closing (sockets st)) as [socket|]; [|constructor].
      unfold run_handler, on_disconnect, bind, gets.
      pose proof (for_each_out
                    (fun e => forall message, em_event e <> EvError message)
                    (disconnect_room socket) (roomParticipants st)
                    (disconnect_room_silent socket)
                    (set_sockets
                       (filter (fun s => negb (is_socket closing s))
                          (sockets st)) st))
        as H.
      cbn [roomParticipants set_sockets].
      now destruct (for_each _ _ _) as [[c st'] out]. }
  destruct i as [sid userId|sid env ev|sid|db]; cbn [step caller_of].
  - destruct (find_socket sid (sockets st)); constructor.
  - destruct (find_socket sid (sockets st)) as [socket|] eqn:Hfind;
      [|constructor].
    pose proof (find_socket_id _ _ _ Hfind) as Hsid.
    pose proof (fun m => error_to_private socket sid m Hsid) as Herr.
    destruct ev; cbn [dispatch].
    + rewrite join_room_outcome. unfold join_outcome.
      destruct (room_findUnique roomId (prisma st)) as [room|];
        [|each_emission; try exact I; apply Herr].
      destruct (Room.isActive room); [|each_emission; try exact I; apply Herr].
      destruct (room_participants roomId (Socket.userId socket) (prisma st));
        [each_emission; apply Herr|].
      unfold join_events. cbn [snd]. each_emission; exact I.
    + rewrite leave_room_effects. cbn [snd]. each_emission. exact I.
    + unfold_handler. cbn. fold (error_to socket "You are not in this room").
      destruct (is_empty message || Nat.eqb (length (trim message)) 0);
        cbn; [constructor|].
      destruct (present roomId (Socket.userId socket) (roomParticipants st));
        cbn; each_emission; try exact I. apply Herr.
    + unfold_handler. cbn.
      destruct (present roomId (Socket.userId socket) (roomParticipants st));
        cbn; each_emission; exact I.
    + unfold_handler. cbn.
      destruct (present roomId (Socket.userId socket) (roomParticipants st));
        cbn; each_emission; exact I.
    + unfold_handler. cbn.
      fold (error_to socket "Only the host can mute participants").
      destruct (is_host (room_findUnique roomId (prisma st))
                  (Socket.userId socket)); cbn;
        [|each_emission; try exact I; apply Herr].
      destruct (present roomId targetUserId (roomParticipants st));
        cbn; each_emission; exact I.
    + rewrite host_remove_cases.
      destruct (is_host (room_findUnique roomId (prisma st))
                  (Socket.userId socket)); cbn [negb];
        [|each_emission; try exact I; apply Herr].
      destruct (String.eqb targetUserId (Socket.userId socket));
        [each_emission; try exact I; apply Herr|].
      unfold remove_outcome. cbn [snd]. constructor; [exact I|].
      apply Forall_map. apply Forall_forall. intros s _. exact I.
    + rewrite approve_outcome.
      destruct (is_host (room_findUnique roomId (prisma st))
                  (Socket.userId socket)); cbn [negb];
        [|each_emission; try exact I; apply Herr].
      destruct (waitingRoom_update userId roomId APPROVED (prisma st))
        as [db1|]; [|each_emission; try exact I; apply Herr].
      destruct (participant_create userId roomId GUEST (new_date env) db1);
        each_emission; try exact I; apply Herr.
  - destruct (find_socket sid (sockets st)) as [socket|]; [|constructor].
    unfold run_handler, on_disconnect, bind, gets.
    pose proof (for_each_out (error_is_private sid) (disconnect_room socket)
                  (roomParticipants st)
                  (disconnect_room_no_error socket sid)
                  (set_sockets
                     (filter (fun s => negb (is_socket sid s)) (sockets st)) st))
      as H.
    cbn [roomParticipants set_sockets].
    now destruct (for_each _ _ _) as [[c st'] out].
  - constructor.
Qed.

Lemma no_newcomer_same (roomId sid : string) (socks : list Socket.t) :
  no_newcomer roomId sid socks socks.
Proof. intros s Hin Hroom. right. exists s. auto. Qed.

Lemma no_newcomer_joined (roomId sid : string) (socks : list Socket.t) :
  no_newcomer roomId sid socks (joined_sockets sid roomId socks).
Proof.
  intros s' Hin Hroom. apply in_map_iff in Hin. destruct Hin as [s [<- Hin]].
  destruct (is_socket sid s) eqn:Hs.
  - left. unfold add_room. unfold is_socket in Hs. apply String.eqb_eq in Hs.
    now destruct (in_room roomId s).
  - right. exists s. auto.
Qed.

Lemma no_newcomer_left (roomId sid : string) (socks : list Socket.t) :
  no_newcomer roomId sid socks (left_sockets sid roomId socks).
Proof.
  intros s' Hin Hroom. apply in_map_iff in Hin. destruct Hin as [s [<- Hin]].
  destruct (is_socket sid s) eqn:Hs.
  - now rewrite in_room_remove_room in Hroom.
  - right. exists s. auto.
Qed.

Lemma stays_room (roomId sid : string) (socks socks' : list Socket.t)
  (ev : ServerEvent) :
  no_newcomer roomId sid socks socks' ->
  stays_in_room socks roomId sid (broadcast socks' (ToRoom roomId) ev).
Proof.
  intros Hnew rcp Hin. unfold broadcast in Hin. simpl in Hin.
  apply in_map_iff in Hin. destruct Hin as [s' [<- Hin]].
  apply filter_In in Hin. destruct Hin as [Hin Hroom].
  exact (Hnew s' Hin Hroom).
Qed.

Lemma stays_room_except (roomId sid x : string) (socks socks' : list Socket.t)
  (ev : ServerEvent) :
  no_newcomer roomId sid socks socks' ->
  stays_in_room socks roomId sid (broadcast socks' (ToRoomExcept roomId x) ev).
Proof.
  intros Hnew rcp Hin. unfold broadcast in Hin. simpl in Hin.
  apply in_map_iff in Hin. destruct Hin as [s' [<- Hin]].
  apply filter_In in Hin. destruct Hin as [Hin Hroom].
  apply andb_true_iff in Hroom. destruct Hroom as [Hroom _].
  exact (Hnew s' Hin Hroom).
Qed.

Lemma stays_caller (roomId sid : string) (socks : list Socket.t)
  (socket : Socket.t) (message : string) :
  Socket.id socket = sid ->
  stays_in_room socks roomId sid (error_to socket message).
Proof. intros <- rcp [<-|[]]. now left. Qed.

(** X14: what a client event causes stays in the room it names.  Every
    event the server emits while handling it is delivered only to the
    sending connection or to connections that were in the socket.io room of
    that name when the event arrived. *)
Theorem events_stay_in_room (st : ServerState) (sid : string) (env : Env)
  (ev : ClientEvent) :
  Forall (stays_in_room (sockets st) (room_of ev) sid)
    (snd (step st (Receive sid env ev))).
Proof.
  cbn [step].
  destruct (find_socket sid (sockets st)) as [socket|] eqn:Hfind;
    [|constructor].
  pose proof (find_socket_id _ _ _ Hfind) as Hsid.
  pose proof (fun r m => stays_caller r sid (sockets st) socket m Hsid) as Herr.
  destruct ev; cbn [dispatch room_of].
  - rewrite join_room_outcome. unfold join_outcome.
    destruct (room_findUnique roomId (prisma st)) as [room|];
      [|each_emission; apply Herr].
    destruct (Room.isActive room); [|each_emission; apply Herr].
    destruct (room_participants roomId (Socket.userId socket) (prisma st));
      [each_emission; apply Herr|].
    unfold join_events. cbn [snd]. each_emission.
    + intros rcp [<-|[]]. now left.
    + apply stays_room_except. rewrite Hsid. apply no_newcomer_joined.
  - rewrite leave_room_effects. cbn [snd]. each_emission.
    apply stays_room_except. rewrite Hsid. apply no_newcomer_left.
  - unfold_handler. cbn. fold (error_to socket "You are not in this room").
    destruct (is_empty message || Nat.eqb (length (trim message)) 0);
      cbn; [constructor|].
    destruct (present roomId (Socket.userId socket) (roomParticipants st));
      cbn; each_emission; [|apply Herr].
    apply (stays_room roomId sid (sockets st) (sockets st)).
    apply no_newcomer_same.
  - unfold_handler. cbn.
    destruct (present roomId (Socket.userId socket) (roomParticipants st));
      cbn; each_emission.
    apply (stays_room_except roomId sid _ (sockets st) (sockets st)).
    apply no_newcomer_same.
  - unfold_handler. cbn.
    destruct (present roomId (Socket.userId socket) (roomParticipants st));
      cbn; each_emission.
    apply (stays_room_except roomId sid _ (sockets st) (sockets st)).
    apply no_newcomer_same.
  - unfold_handler. cbn.
    fold (error_to socket "Only the host can mute participants").
    destruct (is_host (room_findUnique roomId (prisma st))
                (Socket.userId socket)); cbn;
      [|each_emission; apply Herr].
    destruct (present roomId targetUserId (roomParticipants st));
      cbn; each_emission;
      apply (stays_room roomId sid (sockets st) (sockets st));
      apply no_newcomer_same.
  - rewrite host_remove_cases.
    destruct (is_host (room_findUnique roomId (prisma st))
                (Socket.userId socket)); cbn [negb];
      [|each_emission; apply Herr].
    destruct (String.eqb targetUserId (Socket.userId socket));
      [each_emission; apply Herr|].
    unfold remove_outcome. cbn [snd]. constructor.
    + apply stays_room. apply no_newcomer_same.
    + apply Forall_map. apply Forall_forall. intros s Hin.
      unfold sockets_of in Hin. apply filter_In in Hin. destruct Hin as [Hin _].
      apply filter_In in Hin. destruct Hin as [Hin Hroom].
      intros rcp [<-|[]]. right. exists s. auto.
  - rewrite approve_outcome.
    destruct (is_host (room_findUnique roomId (prisma st))
                (Socket.userId socket)); cbn [negb];
      [|each_emission; apply Herr].
    destruct (waitingRoom_update userId roomId APPROVED (prisma st))
      as [db1|]; [|each_emission; apply Herr].
    destruct (participant_create userId roomId GUEST (new_date env) db1);
      each_emission; try apply Herr.
    apply stays_room. apply no_newcomer_same.
Qed.

(** X15: a mute by the host is not enforced by the server.  After the
    room's host has muted a participant who holds an entry [p], the entry
    has [odIsMuted = true]; a toggle-audio with [isMuted = false] from that
    participant is then accepted and leaves the entry with
    [odIsMuted = false], the four other fields as in [p] throughout. *)
Theorem host_mute_can_be_undone (st : ServerState) (socket target : Socket.t)
  (roomId : string) (room : Room.t) (p : RoomParticipant) :
  room_findUnique roomId (prisma st) = Some room ->
  Room.hostId room = Socket.userId socket ->
  lookup roomId (Socket.userId target) (roomParticipants st) = Some p ->
  let st1 :=
    fst (run_handler
           (on_host_mute_participant socket roomId (Socket.userId target)) st) in
  let st2 := fst (run_handler (on_toggle_audio target roomId false) st1) in
  lookup roomId (Socket.userId target) (roomParticipants st1)
  = Some {| odId := odId p; odName := odName p; odIsMuted := true;
            odIsVideoOff := odIsVideoOff p; odRole := odRole p |}
  /\ lookup roomId (Socket.userId target) (roomParticipants st2)
     = Some {| odId := odId p; odName := odName p; odIsMuted := false;
               odIsVideoOff := odIsVideoOff p; odRole := odRole p |}.
Proof.
  intros Hroom Hhost Hp st1 st2.
  assert (Hin : present roomId (Socket.userId target) (roomParticipants st) = true)
    by (apply present_lookup; eauto).
  assert (H1 : roomParticipants st1
               = JSMap.adjust (JSMap.adjust (set_odIsMuted true)
                                 (Socket.userId target)) roomId
                   (roomParticipants st)).
  { subst st1. unfold_handler. cbn.
    rewrite Hroom, (is_host_true _ _ Hhost). cbn. now rewrite Hin. }
  assert (Hp1 : lookup roomId (Socket.userId target) (roomParticipants st1)
                = Some (set_odIsMuted true p))
    by now rewrite H1, lookup_update_same, Hp.
  split; [exact Hp1|].
  assert (Hin1 : present roomId (Socket.userId target) (roomParticipants st1)
                 = true) by (apply present_lookup; eauto).
  subst st2. unfold_handler. cbn. rewrite Hin1. cbn.
  rewrite lookup_update_same, Hp1. reflexivity.
Qed.

(* ================================================================== *)
(** * Authentication *)

Lemma resolve_name_not_empty (userId : string) (db : DB) :
  resolve_name userId db <> "".
Proof.
  unfold resolve_name. destruct (user_findUnique userId db) as [u|];
    [|discriminate].
  destruct (String.eqb_spec (User.name u) ""); [discriminate|assumption].
Qed.

Lemma truthy_some (o : option string) (t : string) :
  truthy o = Some t -> o = Some t /\ t <> "".
Proof.
  destruct o as [[|c s]|]; simpl; try discriminate.
  intros [= <-]. split; [reflexivity|discriminate].
Qed.

(** X16: the socket server admits a connection only on a non-empty token
    that [verifyToken] accepts, taken from [handshake.auth.token] or, when
    that is missing or empty, from the authorization header with its first
    "Bearer " removed.  The connection gets the user id of the decoded token,
    and its name is the stored name of that user or "Anonymous", never the
    empty string. *)
Theorem admission_needs_verified_token
  (verifyToken : string -> option (string * string))
  (h : Handshake.t) (db : DB) (userId userName : string) :
  authenticate verifyToken h db = Accepted userId userName ->
  (exists token email,
      token <> ""
      /\ verifyToken token = Some (userId, email)
      /\ (Handshake.auth_token h = Some token
          \/ (truthy (Handshake.auth_token h) = None
              /\ exists header,
                   Handshake.authorization h = Some header
                   /\ token = remove_first "Bearer " header)))
  /\ userName = resolve_name userId db
  /\ userName <> "".
Proof.
  unfold authenticate, handshake_token. intros H.
  assert (Hgen : forall token,
    match verifyToken token with
    | Some (u, _) => Accepted u (resolve_name u db)
    | None => Refused "Invalid token"
    end = Accepted userId userName ->
    (exists email, verifyToken token = Some (userId, email))
    /\ userName = resolve_name userId db).
  { intros token Hv. destruct (verifyToken token) as [[u e]|];
      [|discriminate].
    injection Hv as -> <-. eauto. }
  destruct (truthy (Handshake.auth_token h)) as [token|] eqn:Ht.
  - apply truthy_some in Ht. destruct Ht as [Ht Hne].
    destruct (Hgen token H) as [[email Hv] Hname].
    split; [exists token, email; auto|].
    split; [assumption|]. rewrite Hname. apply resolve_name_not_empty.
  - destruct (truthy (option_map (remove_first "Bearer ")
                        (Handshake.authorization h))) as [token|] eqn:Hh;
      [|discriminate].
    apply truthy_some in Hh. destruct Hh as [Hh Hne].
    destruct (Hgen token H) as [[email Hv] Hname].
    split.
    + exists token, email. split; [assumption|]. split; [assumption|].
      right. split; [reflexivity|].
      destruct (Handshake.authorization h) as [header|]; [|discriminate].
      exists header. split; [reflexivity|]. simpl in Hh. congruence.
    + split; [assumption|]. rewrite Hname. apply resolve_name_not_empty.
Qed.

(** X17: the optional middleware sets [req.user] exactly when the strict
    middleware would let the request through, and to the same user; it never
    accepts a header the strict one answers with 401. *)
Theorem optional_auth_agrees
  (verifyToken : string -> option (string * string))
  (authHeader : option string) (user : string * string) :
  optionalAuthMiddleware verifyToken authHeader = Some user
  <-> authMiddleware verifyToken authHeader = inr user.
Proof.
  unfold optionalAuthMiddleware, authMiddleware.
  destruct authHeader as [header|]; [|split; intros H; discriminate H].
  destruct (starts_with "Bearer " header); cbn [negb];
    [|split; intros H; discriminate H].
  destruct (nth_error (split " " header) 1) as [token|];
    [|split; intros H; discriminate H].
  destruct (verifyToken token) as [u|]; split; intros H;
    try discriminate H; congruence.
Qed.

Lemma starts_with_append (pat t : string) :
  starts_with pat (pat ++ t)%string = true.
Proof.
  induction pat as [|a pat IH]; simpl; [reflexivity|].
  now rewrite Ascii.eqb_refl, IH.
Qed.

Lemma drop_append (pat t : string) :
  drop (String.length pat) (pat ++ t)%string = t.
Proof. induction pat as [|a pat IH]; simpl; [reflexivity|assumption]. Qed.

Lemma remove_first_prefix (pat t : string) :
  remove_first pat (pat ++ t)%string = t.
Proof.
  destruct pat as [|a pat]; [now destruct t|].
  cbn [append remove_first].
  change (String a (pat ++ t)%string) with (String a pat ++ t)%string.
  now rewrite starts_with_append, drop_append.
Qed.

Lemma split_no_separator (sep : Ascii.ascii) (t : string) :
  mentions sep t = false -> split sep t = [t].
Proof.
  induction t as [|c t IH]; simpl; [reflexivity|].
  intros H. apply orb_false_iff in H. destruct H as [Hc Ht].
  now rewrite Hc, IH.
Qed.

(** X18: for a header "Bearer " followed by a non-empty token without a
    space, the socket handshake and the REST middleware read the same token
    from it, so they admit the same requests as the same user.  (With a
    space in it, the REST side would check only the part before the
    space.) *)
Theorem bearer_header_read_alike
  (verifyToken : string -> option (string * string))
  (token : string) (db : DB) :
  token <> "" ->
  mentions " " token = false ->
  let header := ("Bearer " ++ token)%string in
  handshake_token (Handshake.mk None (Some header)) = Some token
  /\ nth_error (split " " header) 1 = Some token
  /\ (forall userId email,
        authMiddleware verifyToken (Some header) = inr (userId, email)
        <-> verifyToken token = Some (userId, email))
  /\ (forall userId,
        (exists email,
            authMiddleware verifyToken (Some header) = inr (userId, email))
        <-> authenticate verifyToken (Handshake.mk None (Some header)) db
            = Accepted userId (resolve_name userId db)).
Proof.
  intros Hne Hsp header.
  assert (Htok : handshake_token (Handshake.mk None (Some header)) = Some token).
  { unfold handshake_token. cbn [Handshake.auth_token Handshake.authorization
                                   truthy option_map].
    unfold header. rewrite remove_first_prefix.
    destruct token; [congruence|reflexivity]. }
  assert (Hsplit : nth_error (split " " header) 1 = Some token).
  { unfold header. cbn [append split Ascii.eqb Bool.eqb].
    rewrite (split_no_separator _ _ Hsp). reflexivity. }
  assert (Hrest : authMiddleware verifyToken (Some header)
                  = match verifyToken token with
                    | Some user => inr user
                    | None => inl (mkResponse 401 "Unauthorized: Invalid token"
                                     NoData)
                    end).
  { unfold authMiddleware. rewrite Hsplit. unfold header.
    now rewrite starts_with_append. }
  split; [exact Htok|]. split; [exact Hsplit|]. split.
  - intros userId email. rewrite Hrest.
    destruct (verifyToken token) as [u|]; split; congruence.
  - intros userId. unfold authenticate. rewrite Htok, Hrest.
    destruct (verifyToken token) as [[u e]|]; split.
    + intros [email [= -> ->]]. reflexivity.
    + intros [= ->]. now exists e.
    + intros [email H]. discriminate.
    + discriminate.
Qed.

(* ================================================================== *)
(** * Room codes *)

Lemma charAt_code_char (n : nat) :
  n < 36 ->
  exists c, charAt n code_chars = String c EmptyString /\ is_code_char c = true.
Proof.
  intros H.
  do 36 (destruct n as [|n]; [eexists; split; reflexivity|]).
  lia.
Qed.

(** X19: whatever the random draws (each an index below the length of the
    alphabet), a generated room code is eleven characters long and has the
    shape [xxx-xxx-xxx]: lower-case letters or digits, with a hyphen in the
    fourth and eighth place. *)
Theorem room_code_shape (draw : nat -> nat) (k : nat) :
  (forall i, draw i < 36) ->
  well_formed_code (generateRoomCode draw k) = true
  /\ String.length (generateRoomCode draw k) = 11.
Proof.
  intros Hdraw. unfold generateRoomCode. cbn [join build_segment].
  repeat match goal with
         | |- context [charAt (draw ?i) code_chars] =>
             let c := fresh "c" in
             let Hc := fresh "Hc" in
             let Hin := fresh "Hin" in
             destruct (charAt_code_char (draw i) (Hdraw i)) as [c [Hc Hin]];
             rewrite Hc; clear Hc
         end.
  split; [|reflexivity].
  unfold well_formed_code. cbn [append list_ascii_of_string].
  repeat match goal with H : is_code_char _ = true |- _ => rewrite H; clear H end.
  reflexivity.
Qed.

(** X20: [getUniqueRoomCode] answers only with a code no room of the store
    carries, namely the first free one among the codes it generates; and it
    does answer with that code as soon as the attempts allowed reach it. *)
Theorem unique_room_code (draw : nat -> nat) (db : DB) (fuel k : nat) :
  (forall code, getUniqueRoomCode fuel draw k db = Some code ->
     room_by_code code db = None
     /\ exists j, j < fuel /\ code = generateRoomCode draw (k + 9 * j)
                  /\ forall i, i < j ->
                       room_by_code (generateRoomCode draw (k + 9 * i)) db
                       <> None)
  /\ (forall j, j < fuel ->
        (forall i, i < j ->
           room_by_code (generateRoomCode draw (k + 9 * i)) db <> None) ->
        room_by_code (generateRoomCode draw (k + 9 * j)) db = None ->
        getUniqueRoomCode fuel draw k db
        = Some (generateRoomCode draw (k + 9 * j))).
Proof.
  revert k. induction fuel as [|fuel IH]; intros k.
  - split; [discriminate|]. intros j Hj. lia.
  - cbn [getUniqueRoomCode].
    destruct (room_by_code (generateRoomCode draw k) db) as [r|] eqn:Hfirst.
    + destruct (IH (k + 9)) as [IHs IHc]. split.
      * intros code Hcode. destruct (IHs code Hcode) as [Hfree [j [Hj [-> Hprev]]]].
        split; [assumption|]. exists (S j). split; [lia|]. split.
        -- f_equal. lia.
        -- intros i Hi. destruct i as [|i].
           ++ replace (k + 9 * 0) with k by lia. congruence.
           ++ replace (k + 9 * S i) with (k + 9 + 9 * i) by lia.
              apply Hprev. lia.
      * intros j Hj Hprev Hfree. destruct j as [|j].
        -- replace (k + 9 * 0) with k in Hfree by lia. congruence.
        -- replace (k + 9 * S j) with (k + 9 + 9 * j) in * by lia.
           apply IHc; [lia| |assumption].
           intros i Hi. specialize (Hprev (S i)).
           replace (k + 9 * S i) with (k + 9 + 9 * i) in Hprev by lia.
           apply Hprev. lia.
    + split.
      * intros code [= <-]. split; [assumption|]. exists 0.
        split; [lia|]. split; [f_equal; lia|]. intros i Hi. lia.
      * intros j Hj Hprev Hfree. destruct j as [|j].
        -- f_equal. f_equal. lia.
        -- exfalso. apply (Hprev 0); [lia|].
           now replace (k + 9 * 0) with k by lia.
Qed.

(* ================================================================== *)
(** * The REST routes and the socket join *)

Lemma filter_not_nil {A : Type} (f : A -> bool) (l : list A) (x : A) :
  In x l -> f x = true -> exists y rest, filter f l = y :: rest.
Proof.
  intros Hin Hx.
  destruct (filter f l) as [|y rest] eqn:Hf; [|eauto].
  exfalso. assert (H : In x (filter f l)) by (apply filter_In; auto).
  now rewrite Hf in H.
Qed.

Lemma same_key_active (userId roomId : string) (p : Participant.t) :
  same_key_p userId roomId p = true ->
  active_record roomId userId (set_leftAt_null p) = true.
Proof.
  unfold same_key_p, active_record. simpl. intros H.
  apply andb_true_iff in H. destruct H as [Hu Hr]. now rewrite Hu, Hr.
Qed.

Lemma upsert_leaves_active (userId roomId : string) (now : Z) (db db' : DB)
  (p : Participant.t) :
  participant_upsert userId roomId now db = Some (db', p) ->
  db_room db' = db_room db
  /\ exists q rest, room_participants roomId userId db' = q :: rest.
Proof.
  unfold participant_upsert, room_participants.
  destruct (find (same_key_p userId roomId) (db_participant db)) as [p0|] eqn:Hf.
  - intros [= <- _]. split; [reflexivity|]. simpl.
    apply find_some in Hf. destruct Hf as [Hin Hkey].
    apply (filter_not_nil _ _ (set_leftAt_null p0)).
    + apply in_map_iff. exists p0. now rewrite Hkey.
    + now apply same_key_active.
  - destruct (user_exists userId db); [|discriminate].
    intros [= <- _]. split; [reflexivity|]. simpl.
    eapply filter_not_nil.
    + apply in_or_app. right. left. reflexivity.
    + unfold active_record. simpl. now rewrite !String.eqb_refl.
Qed.

(** X21: joining through REST is what opens the socket join.  When
    [POST /:id/join] answers 201 for a user, a join-room for that room from a
    connection of that user, made on the store the route left, is accepted:
    the user gets an entry whose role is that of a participant row of the
    store with [leftAt] null. *)
Theorem rest_join_opens_socket_join (st : ServerState) (socket : Socket.t)
  (roomId : string) (now : Z) (db' : DB) (resp : Response) :
  rest_join (Socket.userId socket) roomId now (prisma st) = (db', resp) ->
  res_status resp = 201 ->
  let st1 := fst (step st (StoreChange db')) in
  let st2 := fst (run_handler (on_join_room socket roomId) st1) in
  exists room participant,
    room_findUnique roomId db' = Some room
    /\ In participant (db_participant db')
    /\ Participant.leftAt participant = None
    /\ lookup roomId (Socket.userId socket) (roomParticipants st2)
       = Some (joined_entry socket room participant).
Proof.
  intros Hrest Hstatus st1 st2. unfold rest_join in Hrest.
  destruct (room_findUnique roomId (prisma st)) as [room|] eqn:Hroom;
    [|injection Hrest as _ <-; discriminate].
  destruct (Room.isActive room) eqn:Hact; cbn [negb] in Hrest;
    [|injection Hrest as _ <-; discriminate].
  destruct (is_full room (prisma st));
    [injection Hrest as _ <-; discriminate|].
  destruct (Room.waitingRoom room
            && negb (String.eqb (Room.hostId room) (Socket.userId socket))).
  { destruct (waitingRoom_upsert (Socket.userId socket) roomId (prisma st))
      as [[d w]|]; injection Hrest as _ <-; discriminate. }
  destruct (participant_upsert (Socket.userId socket) roomId now (prisma st))
    as [[d p]|] eqn:Hup; [|injection Hrest as _ <-; discriminate].
  injection Hrest as -> _.
  destruct (upsert_leaves_active _ _ _ _ _ _ Hup) as [Hrooms [q [rest Hq]]].
  assert (Hroom' : room_findUnique roomId db' = Some room)
    by (unfold room_findUnique; rewrite Hrooms; exact Hroom).
  assert (Hqin : In q (filter (active_record roomId (Socket.userId socket))
                         (db_participant db')))
    by (unfold room_participants in Hq; rewrite Hq; now left).
  apply filter_In in Hqin. destruct Hqin as [Hqin Hqact].
  exists room, q. split; [exact Hroom'|]. split; [exact Hqin|]. split.
  - unfold active_record in Hqact. apply andb_true_iff in Hqact.
    destruct Hqact as [_ Hnull]. now destruct (Participant.leftAt q).
  - subst st2 st1. cbn [step fst]. rewrite join_room_outcome.
    unfold join_outcome. cbn [prisma set_prisma].
    rewrite Hroom', Hact, Hq. cbn [fst roomParticipants].
    unfold lookup. rewrite get_after_join. apply JSMapFacts.get_set_eq.
Qed.

Lemma find_same_key_w_none (userId roomId : string) (ws : list WaitingRoom.t) :
  find (same_key_w userId roomId) ws = None ->
  forall w, In w ws -> same_key_w userId roomId w = false.
Proof. intros H w Hin. exact (find_none _ _ H w Hin). Qed.

(** X22: with the waiting room on, [POST /:id/join] from anybody but the host
    (room active and not full, user known to the store) answers 202 and
    writes no participant row: the user's WaitingRoom row is PENDING
    afterwards, whatever its status was, and every (room, user) has the same
    participant rows with [leftAt] null as before, so no socket join is
    opened by it. *)
Theorem rest_join_waits_for_host (userId roomId : string) (now : Z) (db : DB)
  (room : Room.t) :
  room_findUnique roomId db = Some room ->
  Room.isActive room = true ->
  is_full room db = false ->
  Room.waitingRoom room = true ->
  Room.hostId room <> userId ->
  user_exists userId db = true ->
  let db' := fst (rest_join userId roomId now db) in
  res_status (snd (rest_join userId roomId now db)) = 202
  /\ db_participant db' = db_participant db
  /\ db_room db' = db_room db
  /\ (forall r u, room_participants r u db' = room_participants r u db)
  /\ (exists w, In w (db_waitingRoom db') /\ same_key_w userId roomId w = true)
  /\ (forall w, In w (db_waitingRoom db') ->
        same_key_w userId roomId w = true -> WaitingRoom.status w = PENDING).
Proof.
  intros Hroom Hact Hfull Hwait Hhost Huser. cbv zeta.
  unfold rest_join. rewrite Hroom, Hact, Hfull, Hwait.
  apply String.eqb_neq in Hhost. rewrite Hhost. cbn [negb andb].
  unfold waitingRoom_upsert. rewrite Huser.
  destruct (find (same_key_w userId roomId) (db_waitingRoom db)) as [w0|] eqn:Hf;
    cbn [fst snd res_status db_participant db_room db_waitingRoom
         set_waitingRooms];
    (split; [reflexivity|]); (split; [reflexivity|]);
    (split; [reflexivity|]); (split; [intros; reflexivity|]); split.
  - apply find_some in Hf. destruct Hf as [Hin Hkey].
    exists (set_status PENDING w0). split; [|exact Hkey].
    apply in_map_iff. exists w0. now rewrite Hkey.
  - intros w Hin Hkey. apply in_map_iff in Hin. destruct Hin as [w1 [Hw1 _]].
    destruct (same_key_w userId roomId w1) eqn:Hk1; subst w;
      [reflexivity|congruence].
  - eexists. split; [apply in_or_app; right; left; reflexivity|].
    unfold same_key_w. simpl. now rewrite !String.eqb_refl.
  - intros w Hin Hkey. apply in_app_or in Hin. destruct Hin as [Hin|[<-|[]]].
    + rewrite (find_same_key_w_none _ _ _ Hf w Hin) in Hkey. discriminate.
    + reflexivity.
Qed.

Lemma leave_clears (userId roomId : string) (now : Z) (ps : list Participant.t) :
  filter (active_record roomId userId)
    (map (fun p => if same_key_p userId roomId p then set_leftAt now p else p) ps)
  = [].
Proof.
  induction ps as [|p ps IH]; simpl; [reflexivity|].
  destruct (same_key_p userId roomId p) eqn:Hk.
  - unfold active_record at 1. simpl. rewrite andb_false_r. exact IH.
  - unfold active_record at 1. unfold same_key_p in Hk.
    rewrite andb_comm in Hk. rewrite Hk. simpl. exact IH.
Qed.

(** X23: [POST /:id/leave] answers 500 and writes nothing when the store has
    no participant row for (user, room).  With a row it answers 200, the
    rooms are untouched, no row of (user, room) has [leftAt] null any more,
    and a join-room for that room from the user, made on that store while the
    room is active, is refused with "You are not a participant in this
    room". *)
Theorem rest_leave_closes_socket_join (userId roomId : string) (now : Z)
  (db : DB) :
  (find (same_key_p userId roomId) (db_participant db) = None ->
   rest_leave userId roomId now db
   = (db, mkResponse 500 "Failed to leave room" NoData))
  /\ (forall p, find (same_key_p userId roomId) (db_participant db) = Some p ->
        let db' := fst (rest_leave userId roomId now db) in
        snd (rest_leave userId roomId now db)
        = mkResponse 200 "Left room" (ParticipantData (set_leftAt now p))
        /\ db_room db' = db_room db
        /\ room_participants roomId userId db' = []
        /\ (forall st socket room,
              prisma st = db' -> Socket.userId socket = userId ->
              room_findUnique roomId db = Some room ->
              Room.isActive room = true ->
              run_handler (on_join_room socket roomId) st
              = (st, [error_to socket
                        "You are not a participant in this room"]))).
Proof.
  unfold rest_leave, participant_update_leftAt. split.
  - intros Hf. now rewrite Hf.
  - intros p Hf. rewrite Hf. cbn [fst snd db_room set_participants].
    split; [reflexivity|]. split; [reflexivity|].
    assert (Hclear : room_participants roomId userId
                       (set_participants
                          (map (fun p0 => if same_key_p userId roomId p0
                                          then set_leftAt now p0 else p0)
                             (db_participant db)) db) = [])
      by apply leave_clears.
    split; [exact Hclear|].
    intros st socket room Hst Hu Hroom Hact.
    rewrite join_room_outcome. unfold join_outcome. rewrite Hst, Hu.
    assert (Hroom' : room_findUnique roomId
                       (set_participants
                          (map (fun p0 => if same_key_p userId roomId p0
                                          then set_leftAt now p0 else p0)
                             (db_participant db)) db) = Some room)
      by exact Hroom.
    now rewrite Hroom', Hact, Hclear.
Qed.

Lemma find_room_after_end (roomId : string) (rooms : list Room.t) :
  find (fun r => String.eqb (Room.id r) roomId)
    (map (fun r => if String.eqb (Room.id r) roomId then set_inactive r else r)
       rooms)
  = option_map set_inactive
      (find (fun r => String.eqb (Room.id r) roomId) rooms).
Proof.
  induction rooms as [|r rooms IH]; simpl; [reflexivity|].
  destruct (String.eqb (Room.id r) roomId) eqn:E; simpl; rewrite E;
    [reflexivity|exact IH].
Qed.

Lemma end_clears_room (roomId : string) (now : Z) (ps : list Participant.t) :
  filter (fun p => String.eqb (Participant.roomId p) roomId
                   && is_null (Participant.leftAt p))
    (map (fun p => if String.eqb (Participant.roomId p) roomId
                      && is_null (Participant.leftAt p)
                   then set_leftAt now p else p) ps)
  = [].
Proof.
  induction ps as [|p ps IH]; simpl; [reflexivity|].
  destruct (String.eqb (Participant.roomId p) roomId
            && is_null (Participant.leftAt p)) eqn:E; simpl.
  - rewrite andb_false_r. exact IH.
  - rewrite E. exact IH.
Qed.

(** X24: [POST /:id/end] answers 404 for an unknown room and 403 for anybody
    but the host, writing nothing.  For the host it answers 200; the room is
    then inactive, none of its participant rows has [leftAt] null, and every
    later join-room for it, from whoever, is refused with "Room is not
    active". *)
Theorem rest_end_closes_room (userId roomId : string) (now : Z) (db : DB) :
  (room_findUnique roomId db = None ->
   rest_end userId roomId now db = (db, mkResponse 404 "Room not found" NoData))
  /\ (forall room, room_findUnique roomId db = Some room ->
        Room.hostId room <> userId ->
        rest_end userId roomId now db
        = (db, mkResponse 403 "Only the host can end this room" NoData))
  /\ (forall room, room_findUnique roomId db = Some room ->
        Room.hostId room = userId ->
        let db' := fst (rest_end userId roomId now db) in
        snd (rest_end userId roomId now db)
        = mkResponse 200 "Room ended" (RoomData (set_inactive room))
        /\ room_findUnique roomId db' = Some (set_inactive room)
        /\ active_count roomId db' = 0
        /\ (forall st socket,
              prisma st = db' ->
              run_handler (on_join_room socket roomId) st
              = (st, [error_to socket "Room is not active"]))).
Proof.
  unfold rest_end. split; [|split].
  - intros Hroom. now rewrite Hroom.
  - intros room Hroom Hhost. rewrite Hroom.
    apply String.eqb_neq in Hhost. now rewrite Hhost.
  - intros room Hroom Hhost. rewrite Hroom, Hhost, String.eqb_refl.
    cbn [negb]. unfold room_update_inactive. rewrite Hroom.
    cbn [fst snd].
    assert (Hfind : room_findUnique roomId
                      (participant_updateMany_room roomId now
                         (set_rooms_table
                            (map (fun r => if String.eqb (Room.id r) roomId
                                           then set_inactive r else r)
                               (db_room db)) db))
                    = Some (set_inactive room)).
    { unfold room_findUnique in *. simpl.
      now rewrite find_room_after_end, Hroom. }
    split; [reflexivity|]. split; [exact Hfind|]. split.
    + unfold active_count, participant_updateMany_room. simpl.
      now rewrite end_clears_room.
    + intros st socket Hst. rewrite join_room_outcome. unfold join_outcome.
      now rewrite Hst, Hfind.
Qed.

(** X25: the two approve paths write the same rows.  For the host of a room
    that is not full, [POST /:id/waiting-room/:userId/approve] leaves the
    store exactly as the socket's approve-waiting-participant leaves it, and
    it answers 200 exactly when the socket handler broadcasts
    waiting-room-approved.  When the room is full the REST route answers 400
    and writes nothing. *)
Theorem approve_paths_agree (st : ServerState) (socket : Socket.t) (env : Env)
  (roomId approvedId : string) (room : Room.t) :
  room_findUnique roomId (prisma st) = Some room ->
  Room.hostId room = Socket.userId socket ->
  let rest :=
    rest_approve (Socket.userId socket) roomId approvedId (new_date env)
      (prisma st) in
  let sock :=
    run_handler (on_approve_waiting_participant socket env roomId approvedId)
      st in
  (is_full room (prisma st) = true ->
   rest = (prisma st, mkResponse 400 "Room is full" NoData))
  /\ (is_full room (prisma st) = false ->
      fst rest = prisma (fst sock)
      /\ (res_status (snd rest) = 200
          <-> snd sock
              = [broadcast (sockets st) (ToRoom roomId)
                   (EvWaitingRoomApproved approvedId)])).
Proof.
  intros Hroom Hhost rest sock. subst rest sock.
  rewrite approve_outcome. unfold rest_approve.
  rewrite Hroom, (is_host_true _ _ Hhost), Hhost, String.eqb_refl.
  cbn [negb]. split.
  - intros Hfull. now rewrite Hfull.
  - intros Hfull. rewrite Hfull.
    destruct (waitingRoom_update approvedId roomId APPROVED (prisma st))
      as [db1|]; cbn [fst snd prisma res_status].
    + destruct (participant_create approvedId roomId GUEST (new_date env) db1)
        as [db2|]; cbn [fst snd prisma set_prisma res_status];
        (split; [reflexivity|]); split; intros H;
        try reflexivity; discriminate H.
    + split; [reflexivity|]. split; intros H; discriminate H.
Qed.

Lemma upsert_map_absent (userId roomId : string) (ps : list Participant.t) :
  ~ In (userId, roomId)
      (map (fun p => (Participant.userId p, Participant.roomId p)) ps) ->
  map (fun p => if same_key_p userId roomId p then set_leftAt_null p else p) ps
  = ps.
Proof.
  induction ps as [|p ps IH]; simpl; [reflexivity|].
  intros Hnot. destruct (same_key_p userId roomId p) eqn:Hk.
  - exfalso. apply Hnot. left. unfold same_key_p in Hk.
    apply andb_true_iff in Hk. destruct Hk as [Hu Hr].
    apply String.eqb_eq in Hu, Hr. now rewrite Hu, Hr.
  - rewrite IH; [reflexivity|]. intros H. apply Hnot. now right.
Qed.

Lemma upsert_count (userId roomId : string) (g : Participant.t -> bool)
  (ps : list Participant.t) :
  NoDup (map (fun p => (Participant.userId p, Participant.roomId p)) ps) ->
  List.length
    (filter g
       (map (fun p => if same_key_p userId roomId p then set_leftAt_null p else p)
          ps))
  <= S (List.length (filter g ps)).
Proof.
  induction ps as [|p ps IH]; simpl; [lia|].
  intros Hnd. inversion Hnd as [|? ? Hnot Hnd']; subst.
  destruct (same_key_p userId roomId p) eqn:Hk.
  - assert (Hkey : (Participant.userId p, Participant.roomId p)
                   = (userId, roomId)).
    { unfold same_key_p in Hk. apply andb_true_iff in Hk.
      destruct Hk as [Hu Hr]. apply String.eqb_eq in Hu, Hr.
      now rewrite Hu, Hr. }
    rewrite Hkey in Hnot. rewrite (upsert_map_absent _ _ _ Hnot).
    destruct (g (set_leftAt_null p)), (g p); simpl; lia.
  - specialize (IH Hnd'). destruct (g p); simpl; lia.
Qed.

Lemma rest_join_between_alone (userId roomId : string) (now : Z) (db : DB) :
  rest_join_between userId roomId now db db = rest_join userId roomId now db.
Proof.
  unfold rest_join_between, rest_join, room_exists.
  now destruct (room_findUnique roomId db).
Qed.

(** Two joins whose reads both come before either upsert: the booth holds
    one, both are answered 201, and two rows are active afterwards. *)
Lemma rest_join_interleaved_overbooks :
  let first := rest_join_between "A" "S" 5 booth_db booth_db in
  let second := rest_join_between "B" "S" 6 booth_db (fst first) in
  res_status (snd first) = 201
  /\ res_status (snd second) = 201
  /\ option_map Room.maxParticipants (room_findUnique "S" (fst second))
     = Some 1%Z
  /\ active_count "S" (fst second) = 2.
Proof. cbv zeta. repeat split; reflexivity. Qed.

(** X26: [POST /:id/join] checks the capacity against the count it read.
    On a store that respects the unique (userId, roomId) index, whenever the
    route answers 201 and the room had no more rows with [leftAt] null when
    the upsert ran than when the room was read (so, in particular, when no
    other request wrote in between), the room's rows with [leftAt] null
    number at most the [maxParticipants] that was read afterwards.  Nothing
    is said of joins that interleave: those can take the room over its
    capacity ([rest_join_interleaved_overbooks]). *)
Theorem rest_join_within_capacity (userId roomId : string) (now : Z)
  (seen db db' : DB) (resp : Response) :
  participant_index db ->
  active_count roomId db <= active_count roomId seen ->
  rest_join_between userId roomId now seen db = (db', resp) ->
  res_status resp = 201 ->
  exists room,
    room_findUnique roomId seen = Some room
    /\ (Z.of_nat (active_count roomId db') <= Room.maxParticipants room)%Z.
Proof.
  intros Hidx Hquiet Hrest Hstatus. unfold rest_join_between in Hrest.
  destruct (room_findUnique roomId seen) as [room|] eqn:Hroom;
    [|injection Hrest as _ <-; discriminate].
  destruct (Room.isActive room); cbn [negb] in Hrest;
    [|injection Hrest as _ <-; discriminate].
  destruct (is_full room seen) eqn:Hfull;
    [injection Hrest as _ <-; discriminate|].
  destruct (Room.waitingRoom room
            && negb (String.eqb (Room.hostId room) userId)).
  { destruct (if room_exists roomId db
              then waitingRoom_upsert userId roomId db else None)
      as [[d w]|]; injection Hrest as _ <-; discriminate. }
  destruct (room_exists roomId db);
    [|injection Hrest as _ <-; discriminate].
  destruct (participant_upsert userId roomId now db) as [[d p]|] eqn:Hup;
    [|injection Hrest as _ <-; discriminate].
  injection Hrest as -> _.
  assert (Hid : Room.id room = roomId).
  { unfold room_findUnique in Hroom. apply find_some in Hroom.
    now apply String.eqb_eq. }
  unfold is_full in Hfull. rewrite Hid in Hfull. apply Z.leb_gt in Hfull.
  exists room. split; [reflexivity|].
  assert (Hcount : active_count roomId db' <= S (active_count roomId db)).
  { unfold participant_upsert in Hup. unfold active_count.
    destruct (find (same_key_p userId roomId) (db_participant db)).
    - injection Hup as <- _. simpl. now apply upsert_count.
    - destruct (user_exists userId db); [|discriminate].
      injection Hup as <- _. simpl. rewrite filter_app, length_app.
      simpl. destruct (_ && _); simpl; lia. }
  lia.
Qed.

(* ================================================================== *)
(** * The further properties at work on the demo store *)

Lemma host_commands_forbidden_witness :
  (forall room, room_findUnique "R" (prisma meeting_state) = Some room ->
                Room.hostId room <> Socket.userId (demo_guest ["R"]))
  /\ run_handler (on_host_mute_participant (demo_guest ["R"]) "R" "H")
       meeting_state
     = (meeting_state,
        [error_to (demo_guest ["R"]) "Only the host can mute participants"]).
Proof.
  assert (Hnot : forall room,
             room_findUnique "R" (prisma meeting_state) = Some room ->
             Room.hostId room <> Socket.userId (demo_guest ["R"])).
  { intros room [= <-]. discriminate. }
  split; [exact Hnot|].
  exact (proj1 (host_commands_forbidden meeting_state (demo_guest ["R"])
                  demo_env "R" "H" Hnot)).
Defined.

Lemma chat_not_in_room_witness :
  Exists (fun c => is_whitespace c = false) [104; 105]%N
  /\ lookup "R" "G" (roomParticipants lobby_state) = None
  /\ run_handler (on_chat_message (demo_guest []) demo_env "R" [104; 105]%N)
       lobby_state
     = (lobby_state, [error_to (demo_guest []) "You are not in this room"]).
Proof.
  assert (Hmsg : Exists (fun c => is_whitespace c = false) [104; 105]%N)
    by (left; reflexivity).
  split; [exact Hmsg|]. split; [reflexivity|].
  exact (chat_not_in_room lobby_state (demo_guest []) demo_env "R" _ Hmsg
           eq_refl).
Defined.

Lemma chat_relayed_witness :
  Exists (fun c => is_whitespace c = false) [32; 104; 105; 32]%N
  /\ lookup "R" "G" (roomParticipants meeting_state)
     = Some (mkRoomParticipant "G" "Gus" false false GUEST)
  /\ trim [32; 104; 105; 32]%N <> [].
Proof.
  assert (Hmsg : Exists (fun c => is_whitespace c = false) [32; 104; 105; 32]%N)
    by (right; left; reflexivity).
  split; [exact Hmsg|]. split; [reflexivity|].
  exact (proj1 (proj2 (chat_relayed meeting_state (demo_guest ["R"]) demo_env
                         "R" _ _ Hmsg eq_refl))).
Defined.

Lemma join_room_announces_witness :
  room_findUnique "R" (prisma lobby_state) = Some demo_room
  /\ Room.isActive demo_room = true
  /\ room_participants "R" "G" (prisma lobby_state)
     = [Participant.mk GUEST 1 None "G" "R"]
  /\ prisma (fst (run_handler (on_join_room (demo_guest []) "R") lobby_state))
     = prisma lobby_state.
Proof.
  split; [reflexivity|]. split; [reflexivity|]. split; [reflexivity|].
  apply (join_room_announces lobby_state (demo_guest []) "R" demo_room
           (Participant.mk GUEST 1 None "G" "R") [] eq_refl eq_refl eq_refl).
Defined.

Lemma join_then_leave_witness :
  no_empty_room (roomParticipants lobby_state)
  /\ lookup "R" "G" (roomParticipants lobby_state) = None
  /\ roomParticipants
       (fst (run_handler (on_leave_room (demo_guest []) "R")
               (fst (run_handler (on_join_room (demo_guest []) "R")
                       lobby_state))))
     = roomParticipants lobby_state.
Proof.
  assert (Hne : no_empty_room (roomParticipants lobby_state))
    by (intros r m H; discriminate H).
  split; [exact Hne|]. split; [reflexivity|].
  exact (proj2 (join_then_leave lobby_state (demo_guest []) "R" demo_room
                  (Participant.mk GUEST 1 None "G" "R") []
                  eq_refl eq_refl eq_refl Hne eq_refl)).
Defined.

Lemma host_remove_evicts_witness :
  let result :=
    run_handler (on_host_remove_participant (demo_host ["R"]) demo_env "R" "G")
      meeting_state in
  room_findUnique "R" (prisma meeting_state) = Some demo_room
  /\ Room.hostId demo_room = Socket.userId (demo_host ["R"])
  /\ "G" <> Socket.userId (demo_host ["R"])
  /\ room_participants "R" "G" (prisma (fst result)) = []
  /\ lookup "R" "G" (roomParticipants (fst result)) = None
  /\ In (you_were_removed "R" "Hana" (demo_guest ["R"])) (snd result).
Proof.
  cbv zeta.
  assert (Hother : "G" <> Socket.userId (demo_host ["R"])) by discriminate.
  split; [reflexivity|]. split; [reflexivity|]. split; [exact Hother|].
  destruct (host_remove_evicts meeting_state (demo_host ["R"]) demo_env
              "R" "G" demo_room eq_refl eq_refl Hother)
    as [Hstore [_ [_ [Hgone [_ [_ [Hsent _]]]]]]].
  split; [exact Hstore|]. split; [exact Hgone|].
  apply (Hsent (demo_guest ["R"])); [|reflexivity|reflexivity].
  left. reflexivity.
Defined.

Lemma removed_cannot_rejoin_witness :
  room_findUnique "R" (prisma meeting_state) = Some demo_room
  /\ Room.hostId demo_room = Socket.userId (demo_host ["R"])
  /\ Socket.userId (demo_guest ["R"]) <> Socket.userId (demo_host ["R"])
  /\ Room.isActive demo_room = true
  /\ snd (run_handler (on_join_room (demo_guest ["R"]) "R")
            (fst (run_handler
                    (on_host_remove_participant (demo_host ["R"]) demo_env "R"
                       (Socket.userId (demo_guest ["R"])))
                    meeting_state)))
     = [error_to (demo_guest ["R"]) "You are not a participant in this room"].
Proof.
  assert (Hother : Socket.userId (demo_guest ["R"])
                   <> Socket.userId (demo_host ["R"])) by discriminate.
  split; [reflexivity|]. split; [reflexivity|]. split; [exact Hother|].
  split; [reflexivity|].
  rewrite (removed_cannot_rejoin meeting_state (demo_host ["R"])
             (demo_guest ["R"]) demo_env "R" demo_room
             eq_refl eq_refl Hother eq_refl).
  reflexivity.
Defined.

Lemma approved_user_can_join_witness :
  room_findUnique "R" (prisma lobby_state) = Some demo_room
  /\ existsb (same_key_w "W" "R") (db_waitingRoom (prisma lobby_state)) = true
  /\ existsb (same_key_p "W" "R") (db_participant (prisma lobby_state)) = false
  /\ run_handler (on_join_room demo_waiting "R") lobby_state
     = (lobby_state,
        [error_to demo_waiting "You are not a participant in this room"]).
Proof.
  split; [reflexivity|]. split; [reflexivity|]. split; [reflexivity|].
  exact (proj1 (approved_user_can_join lobby_state (demo_host []) demo_waiting
                  demo_env "R" demo_room
                  eq_refl eq_refl eq_refl eq_refl eq_refl)).
Defined.

Lemma entries_stored_under_own_id_witness :
  reachable meeting_state
  /\ lookup "R" "G" (roomParticipants meeting_state)
     = Some (mkRoomParticipant "G" "Gus" false false GUEST)
  /\ odId (mkRoomParticipant "G" "Gus" false false GUEST) = "G".
Proof.
  split; [exact meeting_reachable|]. split; [reflexivity|].
  exact (entries_stored_under_own_id meeting_state "R" "G" _
           meeting_reachable eq_refl).
Defined.

Lemma presence_never_writes_store_witness :
  touches_store (Disconnect "sg") = false
  /\ prisma (fst (step meeting_state (Disconnect "sg"))) = prisma meeting_state.
Proof.
  split; [reflexivity|].
  exact (presence_never_writes_store meeting_state (Disconnect "sg") eq_refl).
Defined.

Lemma host_mute_can_be_undone_witness :
  let st1 :=
    fst (run_handler (on_host_mute_participant (demo_host ["R"]) "R" "G")
           meeting_state) in
  room_findUnique "R" (prisma meeting_state) = Some demo_room
  /\ Room.hostId demo_room = Socket.userId (demo_host ["R"])
  /\ lookup "R" "G" (roomParticipants meeting_state)
     = Some (mkRoomParticipant "G" "Gus" false false GUEST)
  /\ lookup "R" "G" (roomParticipants st1)
     = Some (mkRoomParticipant "G" "Gus" true false GUEST)
  /\ lookup "R" "G"
       (roomParticipants
          (fst (run_handler (on_toggle_audio (demo_guest ["R"]) "R" false) st1)))
     = Some (mkRoomParticipant "G" "Gus" false false GUEST).
Proof.
  cbv zeta.
  split; [reflexivity|]. split; [reflexivity|]. split; [reflexivity|].
  exact (host_mute_can_be_undone meeting_state (demo_host ["R"])
           (demo_guest ["R"]) "R" demo_room
           (mkRoomParticipant "G" "Gus" false false GUEST)
           eq_refl eq_refl eq_refl).
Defined.

Lemma admission_needs_verified_token_witness :
  authenticate demo_verify (Handshake.mk (Some "tok-G") None) demo_db
  = Accepted "G" "Gus"
  /\ "Gus" <> "".
Proof.
  split; [reflexivity|].
  exact (proj2 (proj2 (admission_needs_verified_token demo_verify
                         (Handshake.mk (Some "tok-G") None) demo_db "G" "Gus"
                         eq_refl))).
Defined.

Lemma optional_auth_agrees_witness :
  optionalAuthMiddleware demo_verify (Some "Bearer tok-G")
  = Some ("G", "gus@example.org")
  /\ authMiddleware demo_verify (Some "Bearer tok-G")
     = inr ("G", "gus@example.org").
Proof.
  split; [reflexivity|].
  exact (proj1 (optional_auth_agrees demo_verify (Some "Bearer tok-G")
                  ("G", "gus@example.org")) eq_refl).
Defined.

Lemma bearer_header_read_alike_witness :
  "tok-G" <> ""
  /\ mentions " " "tok-G" = false
  /\ handshake_token (Handshake.mk None (Some "Bearer tok-G")) = Some "tok-G".
Proof.
  assert (Hne : "tok-G" <> "") by discriminate.
  split; [exact Hne|]. split; [reflexivity|].
  exact (proj1 (bearer_header_read_alike demo_verify "tok-G" demo_db Hne
                  eq_refl)).
Defined.

Lemma room_code_shape_witness :
  (forall i, Nat.modulo (7 * i) 36 < 36)
  /\ well_formed_code (generateRoomCode (fun i => Nat.modulo (7 * i) 36) 0)
     = true.
Proof.
  assert (Hdraw : forall i, Nat.modulo (7 * i) 36 < 36)
    by (intros i; apply Nat.mod_upper_bound; discriminate).
  split; [exact Hdraw|].
  exact (proj1 (room_code_shape (fun i => Nat.modulo (7 * i) 36) 0 Hdraw)).
Defined.

Lemma unique_room_code_witness :
  room_by_code (generateRoomCode (fun _ => 0) (0 + 9 * 0)) demo_db = None
  /\ getUniqueRoomCode 3 (fun _ => 0) 0 demo_db
     = Some (generateRoomCode (fun _ => 0) (0 + 9 * 0)).
Proof.
  split; [reflexivity|].
  apply (proj2 (unique_room_code (fun _ => 0) demo_db 3 0) 0).
  - lia.
  - intros i Hi. lia.
  - reflexivity.
Defined.

Lemma rest_join_opens_socket_join_witness :
  res_status (snd (rest_join "H" "R" 1002 (prisma lobby_state))) = 201
  /\ exists room participant,
       lookup "R" "H"
         (roomParticipants
            (fst (run_handler (on_join_room (demo_host []) "R")
                    (fst (step lobby_state
                            (StoreChange
                               (fst (rest_join "H" "R" 1002
                                       (prisma lobby_state))))))))) 
       = Some (joined_entry (demo_host []) room participant).
Proof.
  split; [reflexivity|].
  destruct (rest_join_opens_socket_join lobby_state (demo_host []) "R" 1002
              (fst (rest_join "H" "R" 1002 (prisma lobby_state)))
              (snd (rest_join "H" "R" 1002 (prisma lobby_state)))
              eq_refl eq_refl)
    as [room [participant [_ [_ [_ H]]]]].
  exists room, participant. exact H.
Defined.

Lemma rest_join_waits_for_host_witness :
  room_findUnique "R" demo_db = Some demo_room
  /\ is_full demo_room demo_db = false
  /\ Room.hostId demo_room <> "W"
  /\ user_exists "W" demo_db = true
  /\ res_status (snd (rest_join "W" "R" 1002 demo_db)) = 202.
Proof.
  assert (Hhost : Room.hostId demo_room <> "W") by discriminate.
  split; [reflexivity|]. split; [reflexivity|]. split; [exact Hhost|].
  split; [reflexivity|].
  exact (proj1 (rest_join_waits_for_host "W" "R" 1002 demo_db demo_room
                  eq_refl eq_refl eq_refl eq_refl Hhost eq_refl)).
Defined.

Lemma rest_leave_closes_socket_join_witness :
  find (same_key_p "W" "R") (db_participant demo_db) = None
  /\ rest_leave "W" "R" 1002 demo_db
     = (demo_db, mkResponse 500 "Failed to leave room" NoData).
Proof.
  split; [reflexivity|].
  exact (proj1 (rest_leave_closes_socket_join "W" "R" 1002 demo_db) eq_refl).
Defined.

Lemma rest_end_closes_room_witness :
  room_findUnique "R" demo_db = Some demo_room
  /\ Room.hostId demo_room = "H"
  /\ active_count "R" (fst (rest_end "H" "R" 1002 demo_db)) = 0.
Proof.
  split; [reflexivity|]. split; [reflexivity|].
  exact (proj1 (proj2 (proj2 (proj2 (proj2 (rest_end_closes_room "H" "R" 1002
                                              demo_db))
                                      demo_room eq_refl eq_refl)))).
Defined.

Lemma approve_paths_agree_witness :
  room_findUnique "R" (prisma lobby_state) = Some demo_room
  /\ Room.hostId demo_room = Socket.userId (demo_host [])
  /\ is_full demo_room (prisma lobby_state) = false
  /\ fst (rest_approve "H" "R" "W" (new_date demo_env) (prisma lobby_state))
     = prisma
         (fst (run_handler
                 (on_approve_waiting_participant (demo_host []) demo_env "R" "W")
                 lobby_state)).
Proof.
  split; [reflexivity|]. split; [reflexivity|]. split; [reflexivity|].
  exact (proj1 (proj2 (approve_paths_agree lobby_state (demo_host []) demo_env
                         "R" "W" demo_room eq_refl eq_refl)
                  eq_refl)).
Defined.

Lemma rest_join_within_capacity_witness :
  let result := rest_join_between "H" "R" 1002 demo_db demo_db in
  participant_index demo_db
  /\ active_count "R" demo_db <= active_count "R" demo_db
  /\ res_status (snd result) = 201
  /\ active_count "R" (fst result) = 2
  /\ exists room,
       room_findUnique "R" demo_db = Some room
       /\ (Z.of_nat (active_count "R" (fst result))
           <= Room.maxParticipants room)%Z.
Proof.
  cbv zeta.
  assert (Hidx : participant_index demo_db).
  { unfold participant_index. simpl. constructor.
    - intros [H|[]]. discriminate H.
    - constructor; [intros []|constructor]. }
  split; [exact Hidx|]. split; [apply le_n|]. split; [reflexivity|].
  split; [reflexivity|].
  exact (rest_join_within_capacity "H" "R" 1002 demo_db demo_db
           (fst (rest_join_between "H" "R" 1002 demo_db demo_db))
           (snd (rest_join_between "H" "R" 1002 demo_db demo_db))
           Hidx (le_n _) eq_refl eq_refl).
Defined.

Lemma run_without_host_remove_witness :
  forallb (fun i => negb (is_host_remove i)) demo_run = true
  /\ no_empty_room (roomParticipants (run (initial demo_db) demo_run)).
Proof.
  split; [reflexivity|].
  exact (run_without_host_remove demo_db demo_run eq_refl).
Defined.
